(** * davos: project identity, project directories and the pure-Python shims

    A shallow embedding of [davos/core/project.py] and
    [davos/implementations/python.py].

    - Python [str] values are [string], read as the bytes the file system
      is given; [str.replace] and the [in] test on strings are written
      out.
    - [pathlib] paths are a record of a root and a list of components, with
      the POSIX flavour's parsing and printing.
    - The file system is a tree of directories and files; every directory
      carries a read and a write permission bit.  The operating-system calls
      the code uses ([stat], [mkdir], [rmdir], [listdir], [rmtree]) return
      either a result or an [errno].  [mkdir] is where a name chosen by
      the user first meets the file system: it refuses a path string with
      a null character and a name longer than [NAME_MAX].  The other calls
      are modelled for path strings without a null character.
    - Python code that raises is a computation in a state-and-exception
      monad over the [World] (file system, working directory, standard
      output, exit-hook registry).
    - A child process is the list of its turns: what each read of its
      output gives, and what it has done to the file system by then. *)

From Stdlib Require Import String Ascii List Bool Arith ZArith.
From Stdlib Require Import Numbers.DecimalString Lia.
Import ListNotations.
Open Scope list_scope.
Open Scope string_scope.

Set Implicit Arguments.

(* ================================================================= *)
(** * Python strings *)

Module PyStr.

(** [sub in s] for two strings. *)
Fixpoint contains (sub s : string) : bool :=
  prefix sub s ||
  match s with
  | EmptyString => false
  | String _ s' => contains sub s'
  end.

(** The scan of [str.replace] for a non-empty [old]: leftmost occurrences,
    not overlapping.  [skip] counts the characters of a matched occurrence
    that are still to be passed over. *)
Fixpoint replace_from (old new : string) (skip : nat) (s : string) : string :=
  match s with
  | EmptyString => EmptyString
  | String c s' =>
      match skip with
      | S k => replace_from old new k s'
      | O =>
          if prefix old s
          then new ++ replace_from old new (pred (String.length old)) s'
          else String c (replace_from old new 0 s')
      end
  end.

(** [s.replace("", new)] puts [new] before every character and at the end. *)
Fixpoint interleave (new s : string) : string :=
  match s with
  | EmptyString => new
  | String c s' => new ++ String c (interleave new s')
  end.

(** [s.replace(old, new)]. *)
Definition replace (s old new : string) : string :=
  match old with
  | EmptyString => interleave new s
  | _ => replace_from old new 0 s
  end.

(** [sep.join(parts)]. *)
Fixpoint join (sep : string) (parts : list string) : string :=
  match parts with
  | [] => ""
  | [p] => p
  | p :: rest => p ++ sep ++ join sep rest
  end.

(** [s.split(sep)] for a one-character separator. *)
Fixpoint split_on (sep : ascii) (s : string) : list string :=
  match s with
  | EmptyString => [""]
  | String c s' =>
      if Ascii.eqb c sep then "" :: split_on sep s'
      else match split_on sep s' with
           | [] => [String c ""]
           | p :: ps => String c p :: ps
           end
  end.

(** [s.rfind(c)] for a character: the index of the last occurrence. *)
Fixpoint rfind (c : ascii) (s : string) : option nat :=
  match s with
  | EmptyString => None
  | String d s' =>
      match rfind c s' with
      | Some i => Some (S i)
      | None => if Ascii.eqb d c then Some 0 else None
      end
  end.

(** [s[i:]]. *)
Fixpoint drop (i : nat) (s : string) : string :=
  match i, s with
  | O, _ => s
  | S k, EmptyString => EmptyString
  | S k, String _ s' => drop k s'
  end.

(** [s] has an embedded null character. *)
Definition has_nul (s : string) : bool := contains (String Ascii.zero "") s.

(** [str(n)] for a non-negative integer. *)
Definition of_nat (n : nat) : string := NilEmpty.string_of_uint (Nat.to_uint n).

End PyStr.

(* ================================================================= *)
(** * pathlib paths (POSIX flavour) *)

Module Pathlib.

(** A parsed path: [root] is [""], ["/"] or ["//"]; [names] are the
    components after the root. *)
Record PurePath : Type := mkPath { root : string; names : list string }.

(** The root of a path string: exactly two leading separators are kept,
    one or three and more give ["/"]. *)
Definition splitroot (s : string) : string :=
  if prefix "///" s then "/"
  else if prefix "//" s then "//"
  else if prefix "/" s then "/"
  else "".

(** Components equal to [""] or ["."] are dropped by the parser. *)
Definition kept (x : string) : bool := negb (x =? "") && negb (x =? ".").

(** [Path(s)]. *)
Definition parse (s : string) : PurePath :=
  mkPath (splitroot s) (filter kept (PyStr.split_on "/" s)).

(** [str(p)]. *)
Definition to_str (p : PurePath) : string :=
  match root p, names p with
  | EmptyString, [] => "."
  | r, ns => r ++ PyStr.join "/" ns
  end.

(** [p.name]: the last component, or [""]. *)
Definition name (p : PurePath) : string := last (names p) "".

(** [p.suffix]: from the last dot of the name, when that dot is neither the
    first nor the last character. *)
Definition suffix (p : PurePath) : string :=
  let n := name p in
  match PyStr.rfind "." n with
  | Some i =>
      if Nat.ltb 0 i && Nat.ltb i (String.length n - 1) then PyStr.drop i n else ""
  | None => ""
  end.

(** [p.joinpath(s)]: an absolute [s] replaces [p]. *)
Definition joinpath (p : PurePath) (s : string) : PurePath :=
  let q := parse s in
  match root q with
  | EmptyString => mkPath (root p) (names p ++ names q)
  | _ => q
  end.

(** [p.is_absolute()]. *)
Definition is_absolute (p : PurePath) : bool := negb (root p =? "").

(** The path string has an embedded null character. *)
Definition embedded_null (p : PurePath) : bool :=
  existsb PyStr.has_nul (root p :: names p).

End Pathlib.

(* ================================================================= *)
(** * The file system *)

Module FS.

Import Pathlib.

(** The error numbers the modelled calls can report. *)
Inductive errno : Type :=
| ENOENT | ENOTDIR | EEXIST | ENOTEMPTY | EACCES | EBUSY | EINVAL
| ENAMETOOLONG.

(** The longest name a directory entry can have, in bytes. *)
Definition NAME_MAX : nat := 255.

Definition too_long (c : string) : bool := Nat.ltb NAME_MAX (String.length c).

(** A file-system tree.  A directory carries the read and the write bit of
    the calling user and its entries; search permission is granted
    everywhere, and there are no symbolic links. *)
#[warnings="-register-all"]
Inductive node : Type :=
| File : node
| Dir (readable writable : bool) (entries : list (string * node)) : node.

Definition entries_t : Type := list (string * node).

(** A freshly created directory. *)
Definition empty_dir : node := Dir true true [].

Definition is_dir_node (n : node) : bool :=
  match n with Dir _ _ _ => true | File => false end.

Definition is_file_node (n : node) : bool :=
  match n with File => true | Dir _ _ _ => false end.

(** The first binding of [k]. *)
Fixpoint assoc (k : string) (es : entries_t) : option node :=
  match es with
  | [] => None
  | (k', n) :: es' => if k' =? k then Some n else assoc k es'
  end.

(** Apply [g] to the first binding of [k]. *)
Fixpoint map_first (k : string) (g : node -> node) (es : entries_t) : entries_t :=
  match es with
  | [] => []
  | (k', n) :: es' =>
      if k' =? k then (k', g n) :: es' else (k', n) :: map_first k g es'
  end.

(** Drop the bindings of [k]. *)
Definition remove_entry (k : string) (es : entries_t) : entries_t :=
  filter (fun e => negb (fst e =? k)) es.

(** Follow canonical components down from [n]. *)
Fixpoint walk (n : node) (p : list string) : errno + node :=
  match p with
  | [] => inr n
  | c :: p' =>
      match n with
      | File => inl ENOTDIR
      | Dir _ _ es =>
          match assoc c es with
          | Some n' => walk n' p'
          | None => inl ENOENT
          end
      end
  end.

(** Rewrite the node at [p] (nothing happens when [p] is absent). *)
Fixpoint modify (p : list string) (f : node -> node) (n : node) : node :=
  match p with
  | [] => f n
  | c :: p' =>
      match n with
      | File => File
      | Dir r w es => Dir r w (map_first c (modify p' f) es)
      end
  end.

Definition with_entries (g : entries_t -> entries_t) (n : node) : node :=
  match n with
  | File => File
  | Dir r w es => Dir r w (g es)
  end.

(** Path resolution as the kernel does it: every component is looked up in
    a directory that exists; [".."] steps to the parent (the root is its own
    parent).  The last component itself is not required to exist.  The
    result is the canonical location, from the root. *)
Fixpoint canon (t : node) (cur : list string) (comps : list string)
  : errno + list string :=
  match comps with
  | [] => inr cur
  | c :: rest =>
      match walk t cur with
      | inl e => inl e
      | inr File => inl ENOTDIR
      | inr (Dir _ _ _) =>
          if c =? ".." then canon t (removelast cur) rest
          else if (c =? ".") || (c =? "") then canon t cur rest
          else canon t (cur ++ [c])%list rest
      end
  end.

(** Where resolution starts: the root, or the working directory. *)
Definition start (cwd : list string) (p : PurePath) : list string :=
  if is_absolute p then [] else cwd.

Definition locate (t : node) (cwd : list string) (p : PurePath)
  : errno + list string :=
  canon t (start cwd p) (names p).

(** [d = parent ++ [k]]. *)
Definition split_last (d : list string) : option (list string * string) :=
  match d with
  | [] => None
  | _ => Some (removelast d, last d "")
  end.

(** [stat(2)]. *)
Definition stat (t : node) (cwd : list string) (p : PurePath) : errno + node :=
  match locate t cwd p with
  | inl e => inl e
  | inr d => walk t d
  end.

(** [mkdir(2)]: the parent must be a writable directory, the name free
    and no longer than [NAME_MAX]. *)
Definition mkdir (t : node) (cwd : list string) (p : PurePath) : errno + node :=
  match locate t cwd p with
  | inl e => inl e
  | inr d =>
      if too_long (last (names p) "") then inl ENAMETOOLONG else
      match walk t d with
      | inr _ => inl EEXIST
      | inl _ =>
          match names p, split_last d with
          | [], _ => inl ENOENT
          | _, None => inl EEXIST
          | _, Some (parent, k) =>
              match walk t parent with
              | inl e => inl e
              | inr File => inl ENOTDIR
              | inr (Dir _ w _) =>
                  if w then
                    inr (modify parent
                           (with_entries (fun es => (es ++ [(k, empty_dir)])%list)) t)
                  else inl EACCES
              end
          end
      end
  end.

(** [rmdir(2)]: the directory must be empty and its parent writable. *)
Definition rmdir (t : node) (cwd : list string) (p : PurePath) : errno + node :=
  match locate t cwd p with
  | inl e => inl e
  | inr d =>
      match walk t d with
      | inl e => inl e
      | inr File => inl ENOTDIR
      | inr (Dir _ _ es) =>
          if last (names p) "" =? ".." then inl ENOTEMPTY
          else
            match names p, split_last d with
            | [], _ => inl (if is_absolute p then EBUSY else EINVAL)
            | _, None => inl EBUSY
            | _, Some (parent, k) =>
                match walk t parent with
                | inl e => inl e
                | inr File => inl ENOTDIR
                | inr (Dir _ w _) =>
                    if negb w then inl EACCES
                    else
                      match es with
                      | [] => inr (modify parent (with_entries (remove_entry k)) t)
                      | _ :: _ => inl ENOTEMPTY
                      end
                end
            end
      end
  end.

(** Listing a directory needs its read bit. *)
Definition listdir (t : node) (cwd : list string) (p : PurePath)
  : errno + list string :=
  match stat t cwd p with
  | inl e => inl e
  | inr File => inl ENOTDIR
  | inr (Dir r _ es) => if r then inr (map fst es) else inl EACCES
  end.

(** Emptying a directory the way [shutil.rmtree] does, entry after entry:
    a directory is listed (read bit), each sub-directory is emptied and
    removed, each file unlinked (write bit of the directory that holds it).
    The first error stops the traversal; what is left is returned with it. *)
Fixpoint clear (n : node) : option errno * node :=
  match n with
  | File => (Some ENOTDIR, File)
  | Dir r w es =>
      if negb r then (Some EACCES, n)
      else
        let fix go (es : entries_t) : option errno * entries_t :=
          match es with
          | [] => (None, [])
          | (k, c) :: rest =>
              match c with
              | File => if w then go rest else (Some EACCES, es)
              | Dir _ _ _ =>
                  match clear c with
                  | (Some e, c') => (Some e, (k, c') :: rest)
                  | (None, c') =>
                      if w then go rest else (Some EACCES, (k, c') :: rest)
                  end
              end
          end in
        let (e, es') := go es in (e, Dir r w es')
  end.

(** [shutil.rmtree(p)] with the default error handling: returns the tree
    it leaves and the error it raised, if any. *)
Definition rmtree (t : node) (cwd : list string) (p : PurePath)
  : node * option errno :=
  match locate t cwd p with
  | inl e => (t, Some e)
  | inr d =>
      match walk t d with
      | inl e => (t, Some e)
      | inr n =>
          let (e, n') := clear n in
          let t' := modify d (fun _ => n') t in
          match e with
          | Some e => (t', Some e)
          | None =>
              match rmdir t' cwd p with
              | inl e => (t', Some e)
              | inr t'' => (t'', None)
              end
          end
      end
  end.

End FS.

(* ================================================================= *)
(** * Python computations: a world, exceptions, a monad *)

Module Py.

Import Pathlib.

Inductive exn : Type :=
| DavosProjectError (msg : string)
| OSError (e : FS.errno)
| NotImplementedError (msg : string)
| AttributeError (msg : string)
| ValueError (msg : string)
| UnicodeDecodeError
| CalledProcessError (returncode : Z) (cmd : list string)
| KeyboardInterrupt.

Inductive outcome (A : Type) : Type :=
| Return (a : A)
| Raise (e : exn).

Arguments Return {A} a.
Arguments Raise {A} e.

(** What the code can observe and change: the file-system tree, the working
    directory, what was printed, and the paths registered with [atexit] for
    [cleanup_project_dir_atexit]. *)
Record World : Type := mkWorld {
  fs : FS.node;
  cwd : list string;
  stdout : list string;
  atexit : list PurePath
}.

Definition M (A : Type) : Type := World -> World * outcome A.

Definition ret {A} (a : A) : M A := fun w => (w, Return a).

Definition raise {A} (e : exn) : M A := fun w => (w, Raise e).

Definition bind {A B} (m : M A) (k : A -> M B) : M B :=
  fun w =>
    match m w with
    | (w', Return a) => k a w'
    | (w', Raise e) => (w', Raise e)
    end.

(** [try: m except OSError: pass]. *)
Definition except_OSError_pass (m : M unit) : M unit :=
  fun w =>
    match m w with
    | (w', Raise (OSError _)) => (w', Return tt)
    | r => r
    end.

Definition set_fs (t : FS.node) (w : World) : World :=
  mkWorld t (cwd w) (stdout w) (atexit w).

(** [print(s)]. *)
Definition print (s : string) : M unit :=
  fun w => (mkWorld (fs w) (cwd w) (stdout w ++ [s])%list (atexit w), Return tt).

(** [atexit.register(cleanup_project_dir_atexit, p)]. *)
Definition atexit_register (p : PurePath) : M unit :=
  fun w => (mkWorld (fs w) (cwd w) (stdout w) (atexit w ++ [p])%list, Return tt).

(** [p.is_dir()]: [False] also when the path cannot be reached. *)
Definition is_dir (w : World) (p : PurePath) : bool :=
  match FS.stat (fs w) (cwd w) p with
  | inr n => FS.is_dir_node n
  | inl _ => false
  end.

(** [p.is_file()]. *)
Definition is_file (w : World) (p : PurePath) : bool :=
  match FS.stat (fs w) (cwd w) p with
  | inr n => FS.is_file_node n
  | inl _ => false
  end.

(** [p.mkdir(parents=False, exist_ok=True)]: [os.mkdir] raises
    [ValueError] on a string with a null character before it asks the
    kernel; a missing parent is reported; any other failure of the
    kernel is forgiven when the path is a directory already. *)
Definition Path_mkdir (p : PurePath) : M unit :=
  fun w =>
    if embedded_null p then (w, Raise (ValueError "embedded null byte"))
    else
      match FS.mkdir (fs w) (cwd w) p with
      | inr t => (set_fs t w, Return tt)
      | inl FS.ENOENT => (w, Raise (OSError FS.ENOENT))
      | inl e => if is_dir w p then (w, Return tt) else (w, Raise (OSError e))
      end.

(** [p.rmdir()], for a path string without a null character. *)
Definition Path_rmdir (p : PurePath) : M unit :=
  fun w =>
    match FS.rmdir (fs w) (cwd w) p with
    | inr t => (set_fs t w, Return tt)
    | inl e => (w, Raise (OSError e))
    end.

(** [next(p.iterdir(), None)]: the first entry, [None] for an empty
    directory; listing can fail. *)
Definition Path_iterdir_next (p : PurePath) : M (option string) :=
  fun w =>
    match FS.listdir (fs w) (cwd w) p with
    | inr ns => (w, Return (hd_error ns))
    | inl e => (w, Raise (OSError e))
    end.

(** [shutil.rmtree(p)]. *)
Definition shutil_rmtree (p : PurePath) : M unit :=
  fun w =>
    match FS.rmtree (fs w) (cwd w) p with
    | (t, None) => (set_fs t w, Return tt)
    | (t, Some e) => (set_fs t w, Raise (OSError e))
    end.

End Py.

Declare Scope py_scope.
Delimit Scope py_scope with py.
Notation "x <- m ;; k" := (Py.bind m (fun x => k))
  (at level 61, m at next level, right associativity) : py_scope.
Notation "m ;; k" := (Py.bind m (fun _ => k))
  (at level 61, right associativity) : py_scope.

(* ================================================================= *)
(** * davos/core/project.py *)

Module Davos.

Import Pathlib Py.
Open Scope py_scope.

(** What the module takes from its surroundings. *)
Record Env : Type := mkEnv {
  (** [Path.home()] *)
  home : PurePath;
  (** [Path(expandvars(s)).expanduser().resolve(strict=False)], for the
      strings on which the three calls return: the result depends on the
      environment variables, the working directory and the links of the
      file system.  (A string with an unknown [~user], a null character or
      a loop of links makes them raise before anything else happens.) *)
  resolve_name : World -> string -> PurePath;
  (** [sys.version_info.major], [sys.version_info.minor] *)
  version_info : nat * nat;
  (** [davos.core.core.prompt_input(prompt, default)] *)
  prompt_input : string -> string -> M bool;
  (** the attributes every instance inherits from [object] *)
  object_attrs : list string;
  (** the attributes a class object has from [type] *)
  type_attrs : list string
}.

(** The argument of [Project(...)]: a [str] or a [pathlib.Path]. *)
Inductive name_arg : Type :=
| NameStr (s : string)
| NamePath (p : PurePath).

(** [str(name)]. *)
Definition py_str (a : name_arg) : string :=
  match a with
  | NameStr s => s
  | NamePath p => to_str p
  end.

Inductive pyclass : Type := ConcreteProject | AbstractProject.

Definition class_name (c : pyclass) : string :=
  match c with
  | ConcreteProject => "ConcreteProject"
  | AbstractProject => "AbstractProject"
  end.

(** An instance: its class and the attributes [_set_names] gives it. *)
Record Project : Type := mkProject {
  class_of : pyclass;
  name : string;
  safe_name : string;
  project_dir : PurePath;
  site_packages_dir : PurePath
}.

Definition PATHSEP : string := "/".
Definition PATHSEP_REPLACEMENT : string := "___".

Section WithEnv.

Variable env : Env.

Definition DAVOS_CONFIG_DIR : PurePath := joinpath (home env) ".davos".
Definition DAVOS_PROJECT_DIR : PurePath := joinpath DAVOS_CONFIG_DIR "projects".

Definition SITE_PACKAGES_SUFFIX : string :=
  PyStr.join PATHSEP
    ["lib";
     "python" ++ PyStr.of_nat (fst (version_info env)) ++ "."
              ++ PyStr.of_nat (snd (version_info env));
     "site-packages"].

(** The statement the module runs when it is imported. *)
Definition module_import : M unit := Path_mkdir DAVOS_CONFIG_DIR.

(** [Project._set_names] *)
Definition _set_names (c : pyclass) (nm : string) : Project :=
  let safe :=
    PyStr.replace (PyStr.replace nm PATHSEP PATHSEP_REPLACEMENT) ".ipynb" "" in
  let dir := joinpath DAVOS_PROJECT_DIR safe in
  mkProject c nm safe dir (joinpath dir SITE_PACKAGES_SUFFIX).

(** [Project.__init__]; [ConcreteProject.__init__] only calls it, and
    [AbstractProject] inherits it. *)
Definition Project_init (c : pyclass) (nm : string) : M Project :=
  let self := _set_names c nm in
  Path_mkdir (project_dir self) ;;
  atexit_register (project_dir self) ;;
  ret self.

(** [type.__call__(cls_to_init, name)] *)
Definition type_call (cls_to_init : pyclass) (nm : string) : M Project :=
  Project_init cls_to_init nm.

Definition invalid_name_msg (nm : string) (name_path : PurePath) : string :=
  "Invalid project name: '" ++ nm ++ "' (which resolves to '"
  ++ to_str name_path ++ "'). Project names may be either a simple "
  ++ "name (without '" ++ PATHSEP ++ "') or a path to a Jupyter "
  ++ "notebook (.ipynb) file.".

(** [ProjectChecker.__call__]: what [Project(name)] runs. *)
Definition ProjectChecker_call (arg : name_arg) : M Project :=
  fun w =>
    let nm := py_str arg in
    if PyStr.contains PATHSEP nm then
      let name_path := resolve_name env w nm in
      if negb (suffix name_path =? ".ipynb") || is_dir w name_path then
        (w, Raise (DavosProjectError (invalid_name_msg nm name_path)))
      else
        let cls_to_init :=
          if negb (is_file w name_path) then AbstractProject
          else ConcreteProject in
        type_call cls_to_init (to_str name_path) w
    else if PyStr.contains PATHSEP_REPLACEMENT nm then
      let name_path :=
        parse (PyStr.replace nm PATHSEP_REPLACEMENT PATHSEP ++ ".ipynb") in
      let cls_to_init :=
        if negb (is_file w name_path) then AbstractProject
        else ConcreteProject in
      type_call cls_to_init (to_str name_path) w
    else
      type_call ConcreteProject nm w.

(** [Project.__del__] *)
Definition Project_del (self : Project) : M unit :=
  except_OSError_pass (Path_rmdir (project_dir self)).

(** [Project.__repr__] and [AbstractProject.__repr__] *)
Definition Project_repr (self : Project) : string :=
  match class_of self with
  | ConcreteProject => "Project('" ++ name self ++ "')"
  | AbstractProject => "AbstractProject('" ++ name self ++ "')"
  end.

(** [Project.remove] *)
Definition remove (self : Project) (yes : bool) : M unit :=
  let delete :=
    print ("Removing " ++ to_str (project_dir self) ++ "...") ;;
    shutil_rmtree (project_dir self) in
  if negb yes then
    confirmed <- prompt_input env
      ("Remove project '" ++ name self ++ " and all installed packages?") "n" ;;
    if negb confirmed then print (name self ++ " not removed")
    else delete
  else delete.

(** [Project.rename] *)
Definition rename {A : Type} (self : Project) (new_name : A) : M unit :=
  raise (NotImplementedError "").

(** [Project.update_name] *)
Definition update_name (self : Project) : M unit :=
  raise (NotImplementedError "").

(** [ConcreteProject.installed_packages]: the getter of the property *)
Definition installed_packages (self : Project) : M (list string) :=
  raise (NotImplementedError "").

(** [cleanup_project_dir_atexit] *)
Definition cleanup_project_dir_atexit (dirpath : PurePath) : M unit :=
  fun w =>
    if is_dir w dirpath then
      (first <- Path_iterdir_next dirpath ;;
       match first with
       | None => except_OSError_pass (Path_rmdir dirpath)
       | Some _ => ret tt
       end) w
    else (w, Return tt).

(** ** Attribute lookup *)

(** The names every class statement binds besides the ones its body
    defines; Python 3.13 added two. *)
Definition implicit_names : list string :=
  (["__module__"; "__doc__"]
   ++ (if Nat.ltb 3 (fst (version_info env))
          || (Nat.eqb (fst (version_info env)) 3
              && Nat.leb 13 (snd (version_info env)))
       then ["__firstlineno__"; "__static_attributes__"]
       else []))%list.

(** The names the classes hold.  [Project] is the first class of its
    line without [__slots__], so it also holds [__dict__] and
    [__weakref__]. *)
Definition Project_namespace : list string :=
  (["__init__"; "__del__"; "__repr__"; "_set_names";
    "remove"; "rename"; "update_name"]
   ++ implicit_names ++ ["__dict__"; "__weakref__"])%list.
Definition AbstractProject_namespace : list string :=
  (["__getattr__"; "__repr__"] ++ implicit_names)%list.
Definition ConcreteProject_namespace : list string :=
  (["__init__"; "installed_packages"] ++ implicit_names)%list.
Definition ProjectChecker_namespace : list string :=
  (["__call__"] ++ implicit_names)%list.

(** The names [_set_names] stores on the instance. *)
Definition instance_dict : list string :=
  ["name"; "safe_name"; "project_dir"; "site_packages_dir"].

Definition mem (x : string) (l : list string) : bool := existsb (String.eqb x) l.

(** Where ordinary lookup finds an attribute of an instance. *)
Inductive binding : Type :=
| InstanceAttr
| ClassAttr (owner : string)
| ObjectAttr.

(** Ordinary lookup on an instance of class [c], along its method
    resolution order. *)
Definition find_attr (c : pyclass) (item : string) : option binding :=
  if mem item instance_dict then Some InstanceAttr
  else if
    mem item (match c with
              | ConcreteProject => ConcreteProject_namespace
              | AbstractProject => AbstractProject_namespace
              end)
  then Some (ClassAttr (class_name c))
  else if mem item Project_namespace then Some (ClassAttr "Project")
  else if mem item (object_attrs env) then Some ObjectAttr
  else None.

(** [hasattr(ConcreteProject, item)]: lookup on the class object, which
    also sees the metaclass and [type]. *)
Definition hasattr_ConcreteProject (item : string) : bool :=
  mem item ConcreteProject_namespace || mem item Project_namespace
  || mem item (object_attrs env)
  || mem item ProjectChecker_namespace || mem item (type_attrs env).

(** [AbstractProject.__getattr__] *)
Definition AbstractProject_getattr (self : Project) (item : string) : exn :=
  let msg :=
    if hasattr_ConcreteProject item
    then "'" ++ item ++ "' is not supported for abstract projects"
    else "'" ++ class_name (class_of self) ++ "' object has no attribute '"
         ++ item ++ "'" in
  AttributeError msg.

(** [getattr(self, item)]: the binding found, or what is raised.  Reading
    the [installed_packages] property runs its getter. *)
Definition getattr (self : Project) (item : string) : outcome binding :=
  match find_attr (class_of self) item with
  | Some b =>
      match class_of self with
      | ConcreteProject =>
          if item =? "installed_packages" then Raise (NotImplementedError "")
          else Return b
      | AbstractProject => Return b
      end
  | None =>
      match class_of self with
      | ConcreteProject =>
          Raise (AttributeError
                   ("'ConcreteProject' object has no attribute '" ++ item ++ "'"))
      | AbstractProject => Raise (AbstractProject_getattr self item)
      end
  end.

(** [self.remove(yes=yes)]: look the method up, then run it. *)
Definition call_remove (self : Project) (yes : bool) : M unit :=
  match getattr self "remove" with
  | Return _ => remove self yes
  | Raise e => raise e
  end.

End WithEnv.

End Davos.

(* ================================================================= *)
(** * davos/implementations/python.py *)

Module PurePython.

Import Py.
Open Scope py_scope.

Definition not_supported_msg : string :=
  "davos does not yet support non-interactive Python environments".

(** [_activate_helper] *)
Definition _activate_helper {A B : Type} (smuggle_func : A) (parser_func : B)
  : M unit :=
  raise (NotImplementedError not_supported_msg).

(** [_deactivate_helper] *)
Definition _deactivate_helper {A B : Type} (smuggle_func : A) (parser_func : B)
  : M unit :=
  raise (NotImplementedError not_supported_msg).

(** [auto_restart_rerun] *)
Definition auto_restart_rerun {A : Type} (pkgs : A) : M unit :=
  raise (NotImplementedError
           ("automatic rerunning not available in non-interactive Python (this "
            ++ "function should not be reachable through normal use).")).

(** [generate_parser_func] *)
Definition generate_parser_func {A : Type} (line_parser : A) : M unit :=
  raise (NotImplementedError not_supported_msg).

(** [prompt_restart_rerun_buttons] *)
Definition prompt_restart_rerun_buttons {A : Type} (pkgs : A) : M unit :=
  raise (NotImplementedError
           ("button-based user input prompts are not available in non-interactive "
            ++ "Python (this function should not be reachable through normal use).")).

(** ** The child process *)

Inductive signal : Type := SIGINT.

(** What one [stdout.readline()] of the text-mode pipe gives: a decoded
    line (the empty string at an end of file), or bytes that the
    encoding of the pipe cannot decode. *)
Inductive read : Type :=
| Line (s : string)
| Undecodable.

(** One turn of the child while the helper waits for a line: what the
    read gives, and what the child has done to the file system by then. *)
Record turn : Type := mkTurn {
  output : read;
  touch : FS.node -> FS.node
}.

(** A child that terminates: [pending] are the turns of the
    [stdout.readline()] calls made while [poll()] still answers [None];
    after them [poll()] answers [returncode].  [signals] records what was
    sent to it. *)
Record Process : Type := mkProcess {
  pending : list turn;
  returncode : Z;
  signals : list signal
}.

(** [process.poll()] *)
Definition poll (p : Process) : option Z :=
  match pending p with
  | [] => Some (returncode p)
  | _ :: _ => None
  end.

(** [process.stdout.readline()] *)
Definition readline (p : Process) : turn * Process :=
  match pending p with
  | [] => (mkTurn (Line "") (fun t => t), p)
  | l :: rest => (l, mkProcess rest (returncode p) (signals p))
  end.

(** [process.send_signal(s)]: it polls first, and signals nothing once
    the child is known to have exited. *)
Definition send_signal (s : signal) (p : Process) : Process :=
  match poll p with
  | Some _ => p
  | None => mkProcess (pending p) (returncode p) (signals p ++ [s])%list
  end.

(** [sys.stdout.write(s)] *)
Definition stdout_write (s : string) (w : World) : World :=
  mkWorld (fs w) (cwd w) (stdout w ++ [s])%list (atexit w).

(** What a run of the helper meets: the result of [shlex.split]; of
    [Popen], with the tree as the child has left it by the first [poll()];
    and the iteration of the loop, if any, during which the user
    interrupts. *)
Record ShellEnv : Type := mkShellEnv {
  shlex_split : string -> outcome (list string);
  Popen : list string -> FS.node -> FS.node * outcome Process;
  interrupt_at : option nat
}.

Section WithShell.

Variable sh : ShellEnv.

Definition interrupted (i : nat) : bool :=
  match interrupt_at sh with
  | Some k => Nat.eqb k i
  | None => false
  end.

(** The [try: while True: ... except KeyboardInterrupt: ...] statement,
    from iteration [i] on.  [fuel] bounds the number of iterations looked
    at: [None] means the loop is still running after [fuel] iterations. *)
Fixpoint poll_loop (fuel : nat) (cmd : list string) (i : nat)
    (process : Process) (w : World)
  : option (World * Process * outcome unit) :=
  match fuel with
  | O => None
  | S fuel' =>
      if interrupted i then
        Some (w, send_signal SIGINT process, Raise KeyboardInterrupt)
      else
        match poll process with
        | None =>
            let (t, process') := readline process in
            let w1 := set_fs (touch t (fs w)) w in
            match output t with
            | Undecodable => Some (w1, process', Raise UnicodeDecodeError)
            | Line output =>
                poll_loop fuel' cmd (S i) process'
                  (if output =? "" then w1 else stdout_write output w1)
            end
        | Some retcode =>
            if negb (Z.eqb retcode 0) then
              Some (w, process, Raise (CalledProcessError retcode cmd))
            else poll_loop fuel' cmd (S i) process w
        end
  end.

(** [_run_shell_command_helper] *)
Definition _run_shell_command_helper (fuel : nat) (command : string) (w : World)
  : option (World * option Process * outcome unit) :=
  match shlex_split sh command with
  | Raise e => Some (w, None, Raise e)
  | Return cmd =>
      match Popen sh cmd (fs w) with
      | (t, Raise e) => Some (set_fs t w, None, Raise e)
      | (t, Return process) =>
          match poll_loop fuel cmd 0 process (set_fs t w) with
          | None => None
          | Some (w', p', r) => Some (w', Some p', r)
          end
      end
  end.

(** [_check_conda_avail_helper]: standard output is redirected to a buffer
    while the command runs. *)
Definition _check_conda_avail_helper (fuel : nat) (w : World)
  : option (World * outcome (option string)) :=
  let buffer := mkWorld (fs w) (cwd w) [] (atexit w) in
  let restore (w' : World) := mkWorld (fs w') (cwd w') (stdout w) (atexit w') in
  match _run_shell_command_helper fuel "conda list Python" buffer with
  | None => None
  | Some (w', _, Raise (CalledProcessError _ _)) => Some (restore w', Return None)
  | Some (w', _, Raise e) => Some (restore w', Raise e)
  | Some (w', _, Return _) =>
      Some (restore w', Return (Some (String.concat "" (stdout w'))))
  end.

End WithShell.

End PurePython.

(* ================================================================= *)
(** * Predicates the statements use *)

Module Flatten.

Import PyStr.

(** [flat s] is [s.replace("/", "___")], [unflat s] is
    [s.replace("___", "/")], [strip s] is [s.replace(".ipynb", "")]: the
    three replacements of [_set_names] and [ProjectChecker.__call__]. *)
Definition flat (s : string) : string := replace s "/" "___".
Definition unflat (s : string) : string := replace s "___" "/".
Definition strip (s : string) : string := replace s ".ipynb" "".

(** Every character of [s] satisfies [f]. *)
Fixpoint all_chars (f : ascii -> bool) (s : string) : bool :=
  match s with
  | EmptyString => true
  | String c s' => f c && all_chars f s'
  end.

Definition plain_char (c : ascii) : bool :=
  negb (Ascii.eqb c "/") && negb (Ascii.eqb c "_") && negb (Ascii.eqb c ".").

(** The last character of a string. *)
Fixpoint last_char (s : string) : option ascii :=
  match s with
  | EmptyString => None
  | String c s' =>
      match last_char s' with
      | Some d => Some d
      | None => Some c
      end
  end.

End Flatten.

Module FSPred.

Import Pathlib FS.

(** There is a directory at the canonical location [q]. *)
Definition dir_at (t : node) (q : list string) : bool :=
  match walk t q with
  | inr n => is_dir_node n
  | inl _ => false
  end.

(** A rewriting of nodes under which directories stay directories. *)
Definition grows (f : node -> node) : Prop :=
  forall n q, dir_at n q = true -> dir_at (f n) q = true.

(** A component that names an entry: not [""], ["."] or [".."]. *)
Definition ordinary (c : string) : bool :=
  negb (c =? "..") && negb (c =? ".") && negb (c =? "").

(** A path whose components all name entries. *)
Definition literal (p : PurePath) : bool := forallb ordinary (names p).

(** Every directory of the tree can be listed, and every directory that
    has entries can be written: what [clear] needs to go through. *)
Fixpoint removable (n : node) : bool :=
  match n with
  | File => true
  | Dir r w es =>
      r && (w || match es with [] => true | _ :: _ => false end)
      && forallb (fun e => removable (snd e)) es
  end.

(** [shutil.rmtree(p)] is not refused: [p] is a literal path to a
    directory of a writable parent, and the directory is [removable]. *)
Definition can_rmtree (t : node) (cwd : list string) (p : PurePath) : bool :=
  literal p &&
  match names p with
  | [] => false
  | _ :: _ =>
      match walk t (start cwd p ++ names p) with
      | inr (Dir r w es) =>
          removable (Dir r w es) &&
          match walk t (removelast (start cwd p ++ names p)) with
          | inr (Dir _ wp _) => wp
          | _ => false
          end
      | _ => false
      end
  end.

(** [p.mkdir(parents=False, exist_ok=True)] is not refused: the path
    string has no null character and its last component is not too long;
    [p] is a literal path whose parent is a directory, and its last
    component is either a directory already or free in a writable
    parent. *)
Definition can_mkdir (t : node) (cwd : list string) (p : PurePath) : bool :=
  negb (embedded_null p) && negb (too_long (last (names p) "")) &&
  literal p &&
  match names p with
  | [] => false
  | _ :: _ =>
      match walk t (start cwd p ++ removelast (names p)) with
      | inr (Dir _ wp es) =>
          match assoc (last (names p) "") es with
          | Some n => is_dir_node n
          | None => wp
          end
      | _ => false
      end
  end.

(** The tree [rmtree] leaves when nothing refuses: the entry of the
    directory is gone from its parent, and nothing else has changed. *)
Definition without (d : list string) (t : node) : node :=
  modify (removelast d) (with_entries (remove_entry (last d ""))) t.

End FSPred.

(* ================================================================= *)
(** * Small worlds *)

Module Sample.

Import Pathlib FS Py Davos.

Definition dir (es : entries_t) : node := Dir true true es.

(** A user whose home is [/home/u]; paths given to [Project] are absolute,
    without links, variables or dots, so that resolving one is parsing it;
    the user answers no to every prompt. *)
Definition env : Env :=
  mkEnv (parse "/home/u")
        (fun _ s => parse s)
        (3, 11)
        (fun _ _ => ret false)
        ["__class__"; "__delattr__"; "__dir__"; "__doc__"; "__eq__";
         "__format__"; "__ge__"; "__getattribute__"; "__getstate__"; "__gt__";
         "__hash__"; "__init__"; "__init_subclass__"; "__le__"; "__lt__";
         "__ne__"; "__new__"; "__reduce__"; "__reduce_ex__"; "__repr__";
         "__setattr__"; "__sizeof__"; "__str__"; "__subclasshook__"]
        ["__annotations__"; "__base__"; "__bases__"; "__basicsize__";
         "__call__"; "__dictoffset__"; "__flags__"; "__instancecheck__";
         "__itemsize__"; "__mro__"; "__name__"; "__or__"; "__prepare__";
         "__qualname__"; "__ror__"; "__subclasscheck__"; "__subclasses__";
         "__text_signature__"; "__weakrefoffset__"; "mro"].

(** [/home/u] holds a notebook and an empty [.davos/projects]. *)
Definition fresh_tree : node :=
  dir [("home",
        dir [("u",
              dir [("nb.ipynb", File);
                   (".davos", dir [("projects", dir [])])])])].

Definition fresh : World := mkWorld fresh_tree ["home"; "u"] [] [].

(** The project of [/home/u/nb.ipynb] with a package installed. *)
Definition used_project : node :=
  dir [("lib",
        dir [("python3.11",
              dir [("site-packages",
                    dir [("pkg", dir [("__init__.py", File)]);
                         ("mod.py", File)])])])].

Definition used_tree : node :=
  dir [("home",
        dir [("u",
              dir [("nb.ipynb", File);
                   (".davos",
                    dir [("projects",
                          dir [("___home___u___nb", used_project)])])])])].

Definition used : World := mkWorld used_tree ["home"; "u"] [] [].

(** The tree once the project of [/home/u/nb.ipynb] is gone. *)
Definition used_removed : World :=
  mkWorld fresh_tree ["home"; "u"]
          ["Removing /home/u/.davos/projects/___home___u___nb..."] [].

(** The project directory of [demo] exists, is empty, and may not be
    listed (mode 0300). *)
Definition unreadable_tree : node :=
  dir [("home",
        dir [("u",
              dir [(".davos",
                    dir [("projects", dir [("demo", Dir false true [])])])])])].

Definition unreadable : World := mkWorld unreadable_tree ["home"; "u"] [] [].

(** [/home/u] with an empty [.davos/projects] and nothing else. *)
Definition fresh_tree_without_notebook : node :=
  dir [("home", dir [("u", dir [(".davos", dir [("projects", dir [])])])])].

Definition demo_dir : PurePath := parse "/home/u/.davos/projects/demo".

Definition nb_project : Project := _set_names env ConcreteProject "/home/u/nb.ipynb".

Definition new_project : Project := _set_names env AbstractProject "/home/u/new.ipynb".

(** The world after [Project("/home/u/new.ipynb")] in [fresh]. *)
Definition fresh_with_new : World :=
  mkWorld
    (dir [("home",
           dir [("u",
                 dir [("nb.ipynb", File);
                      (".davos",
                       dir [("projects",
                             dir [("___home___u___new", empty_dir)])])])])])
    ["home"; "u"] [] [project_dir new_project].

(** The world after [Project("demo")] in [fresh]. *)
Definition demo_project : Project := _set_names env ConcreteProject "demo".

Definition fresh_with_demo : World :=
  mkWorld
    (dir [("home",
           dir [("u",
                 dir [("nb.ipynb", File);
                      (".davos",
                       dir [("projects", dir [("demo", empty_dir)])])])])])
    ["home"; "u"] [] [project_dir demo_project].

(** A child that prints [lines] and changes no file. *)
Definition says (lines : list string) : list PurePython.turn :=
  map (fun l => PurePython.mkTurn (PurePython.Line l) (fun t => t)) lines.

(** [true] exits at once with status 0, [false] with status 1; nobody
    interrupts. *)
Definition shell : PurePython.ShellEnv :=
  PurePython.mkShellEnv
    (fun command => Return [command])
    (fun cmd t =>
       match cmd with
       | ["true"] => (t, Return (PurePython.mkProcess [] 0%Z []))
       | ["false"] => (t, Return (PurePython.mkProcess [] 1%Z []))
       | ["echo"] =>
           (t, Return (PurePython.mkProcess (says ["hello"; ""]) 0%Z []))
       | _ => (t, Raise (OSError ENOENT))
       end)
    None.

End Sample.

(* ================================================================= *)
(** * The rest of davos/core/project.py *)

Module Session.

Import Pathlib Py Davos.

(** [davos.config]: the attribute this module assigns. *)
Record Config : Type := mkConfig { project : option Project }.

(** [prune_projects]: the body is its docstring. *)
Definition prune_projects : M unit := ret tt.

(** [prune_project]: the body is its docstring. *)
Definition prune_project {A : Type} (proj : A) : M unit := ret tt.

(** What [Project(x)] runs for the value [get_notebook_path()] returned:
    a path, a string, or [None] when no session matched; [str(None)] is
    ["None"]. *)
Definition Project_of (env : Env) (nb_path : option name_arg) : M Project :=
  match nb_path with
  | Some a => ProjectChecker_call env a
  | None => ProjectChecker_call env (NameStr "None")
  end.

(** [use_default_project], given what [get_notebook_path()] returned. *)
Definition use_default_project (env : Env) (nb_path : option name_arg)
    (config : Config) (w : World) : World * Config * outcome unit :=
  match Project_of env nb_path w with
  | (w', Return default_project) =>
      (w', mkConfig (Some default_project), Return tt)
  | (w', Raise e) => (w', config, Raise e)
  end.

End Session.

Module Sample2.

(** The shell of [Sample.shell], with an interrupt during the second
    iteration of the loop (iteration 1), and with one during the fifth. *)
Definition interrupted_shell : PurePython.ShellEnv :=
  PurePython.mkShellEnv
    (PurePython.shlex_split Sample.shell)
    (PurePython.Popen Sample.shell)
    (Some 1).

Definition late_interrupted_shell : PurePython.ShellEnv :=
  PurePython.mkShellEnv
    (PurePython.shlex_split Sample.shell)
    (PurePython.Popen Sample.shell)
    (Some 4).

(** A [conda] that prints an error and exits with status 1. *)
Definition failing_conda_shell : PurePython.ShellEnv :=
  PurePython.mkShellEnv
    (fun _ => Py.Return ["conda"; "list"; "Python"])
    (fun _ t =>
       (t, Py.Return
             (PurePython.mkProcess
                (Sample.says ["CondaError: no environment"; ""]) 1%Z [])))
    None.

(** A [conda] whose second line of output cannot be decoded. *)
Definition garbled_conda_shell : PurePython.ShellEnv :=
  PurePython.mkShellEnv
    (fun _ => Py.Return ["conda"; "list"; "Python"])
    (fun _ t =>
       (t, Py.Return
             (PurePython.mkProcess
                (Sample.says ["# packages in environment:"]
                 ++ [PurePython.mkTurn PurePython.Undecodable (fun t => t)])%list
                1%Z [])))
    None.

(** [sh -c 'mkdir out; exit 1'] run in [/home/u]: by the time the child
    is polled it has made the directory, printed nothing and exited with
    status 1. *)
Definition mkdir_shell : PurePython.ShellEnv :=
  PurePython.mkShellEnv
    (fun _ => Py.Return ["sh"; "-c"; "mkdir out; exit 1"])
    (fun _ t =>
       (FS.modify ["home"; "u"]
          (FS.with_entries (fun es => (es ++ [("out", FS.empty_dir)])%list)) t,
        Py.Return (PurePython.mkProcess [] 1%Z [])))
    None.

(** A home directory in which davos was never used, before and after the
    import of the module. *)
Definition bare : Py.World :=
  Py.mkWorld (Sample.dir [("home", Sample.dir [("u", Sample.dir [])])])
             ["home"; "u"] [] [].

(** The name [a\0b]: three characters, the second one null. *)
Definition null_name : string := String "a" (String Ascii.zero "b").

Definition imported : Py.World :=
  Py.mkWorld
    (Sample.dir [("home", Sample.dir [("u", Sample.dir [(".davos", FS.empty_dir)])])])
    ["home"; "u"] [] [].

End Sample2.

Module Notebook.

(** The scan of [s.split(sep)] for a non-empty [sep]: leftmost
    occurrences, not overlapping; [skip] counts the characters of a matched
    separator still to be passed over.  The result is never empty. *)
Fixpoint split_from (sep : string) (skip : nat) (s : string) : list string :=
  match s with
  | EmptyString => [""]
  | String c s' =>
      match skip with
      | S k => split_from sep k s'
      | O =>
          if prefix sep s
          then "" :: split_from sep (pred (String.length sep)) s'
          else match split_from sep 0 s' with
               | [] => [String c ""]
               | p :: ps => String c p :: ps
               end
      end
  end.

(** [s.split(sep)] for a non-empty [sep]. *)
Definition split (s sep : string) : list string := split_from sep 0 s.

(** The kernel identity [get_notebook_path] reads off the connection file
    name: [kernel_filepath.split('/kernel-')[-1].split('.json')[0]]. *)
Definition kernel_id (kernel_filepath : string) : string :=
  hd "" (split (last (split kernel_filepath "/kernel-") "") ".json").

(** A character that is neither a separator nor a dot. *)
Definition id_char (c : ascii) : bool :=
  negb (Ascii.eqb c "/") && negb (Ascii.eqb c ".").

End Notebook.

Module NamePred.

(** A character other than the path separator. *)
Definition not_sep (c : ascii) : bool := negb (Ascii.eqb c "/").

(** A string without the path separator. *)
Definition no_sep (s : string) : bool := Flatten.all_chars not_sep s.

End NamePred.

Module TreePred.

Import FS.

(** What is at the canonical location [q]: a directory ([Some true]), a
    file ([Some false]) or nothing. *)
Definition kind_at (t : node) (q : list string) : option bool :=
  match walk t q with
  | inr n => Some (is_dir_node n)
  | inl _ => None
  end.

(** A rewriting of nodes that keeps what exists. *)
Definition keeps (f : node -> node) : Prop :=
  forall n q b, kind_at n q = Some b -> kind_at (f n) q = Some b.

(** Adding an empty directory named [k]. *)
Definition add_dir (k : string) : node -> node :=
  with_entries (fun es => (es ++ [(k, empty_dir)])%list).

End TreePred.

Module ShellPred.

(** The reads that are written to standard output: the non-empty ones. *)
Definition forwarded (lines : list string) : list string :=
  filter (fun l => negb (l =? "")) lines.

(** Every read of the turns [ts] can be decoded. *)
Definition decodable (ts : list PurePython.turn) : bool :=
  forallb (fun x => match PurePython.output x with
                    | PurePython.Line _ => true
                    | PurePython.Undecodable => false
                    end) ts.

(** The lines the turns [ts] give. *)
Definition lines_of (ts : list PurePython.turn) : list string :=
  flat_map (fun x => match PurePython.output x with
                     | PurePython.Line l => [l]
                     | PurePython.Undecodable => []
                     end) ts.

(** The tree after the turns [ts] of a child. *)
Definition touched (ts : list PurePython.turn) (t : FS.node) : FS.node :=
  fold_left (fun t' x => PurePython.touch x t') ts t.

(** [CalledProcessError] is what [_check_conda_avail_helper] catches. *)
Definition is_CalledProcessError (e : Py.exn) : bool :=
  match e with
  | Py.CalledProcessError _ _ => true
  | _ => false
  end.

End ShellPred.

(* ================================================================= *)
(** * The models on small inputs *)

Example replace_ex1 :
  PyStr.replace "/home/u/nb.ipynb" "/" "___" = "___home___u___nb.ipynb".
Proof. reflexivity. Qed.

Example replace_ex2 : PyStr.replace "a____b" "___" "/" = "a/_b".
Proof. reflexivity. Qed.

Example replace_ex3 : PyStr.replace "abc" "" "x" = "xaxbxcx".
Proof. reflexivity. Qed.

Example split_ex : PyStr.split_on "/" "/a//b/" = [""; "a"; ""; "b"; ""].
Proof. reflexivity. Qed.

Example parse_ex1 :
  Pathlib.parse "/home/u//./nb.ipynb" = Pathlib.mkPath "/" ["home"; "u"; "nb.ipynb"].
Proof. reflexivity. Qed.

Example parse_ex2 : Pathlib.to_str (Pathlib.parse "a/b.ipynb/") = "a/b.ipynb".
Proof. reflexivity. Qed.

Example parse_ex3 : Pathlib.to_str (Pathlib.parse "") = ".".
Proof. reflexivity. Qed.

Example suffix_ex1 : Pathlib.suffix (Pathlib.parse "/a/nb.tar.ipynb") = ".ipynb".
Proof. reflexivity. Qed.

Example suffix_ex2 : Pathlib.suffix (Pathlib.parse "/a/.ipynb") = "".
Proof. reflexivity. Qed.

Example suffix_ex3 : Pathlib.suffix (Pathlib.parse "/a/nb.") = "".
Proof. reflexivity. Qed.

Example joinpath_ex :
  Pathlib.to_str (Pathlib.joinpath (Pathlib.parse "/home/u/.davos") "projects")
  = "/home/u/.davos/projects".
Proof. reflexivity. Qed.

Example set_names_ex :
  let p := Davos._set_names Sample.env Davos.ConcreteProject
             "/home/user/notebooks/analysis.ipynb" in
  Davos.safe_name p = "___home___user___notebooks___analysis"
  /\ Pathlib.to_str (Davos.project_dir p)
     = "/home/u/.davos/projects/___home___user___notebooks___analysis"
  /\ Pathlib.to_str (Davos.site_packages_dir p)
     = "/home/u/.davos/projects/___home___user___notebooks___analysis/lib/python3.11/site-packages".
Proof. repeat split. Qed.

Example repr_ex :
  Davos.Project_repr Sample.demo_project = "Project('demo')"
  /\ Davos.Project_repr Sample.new_project = "AbstractProject('/home/u/new.ipynb')".
Proof. split; reflexivity. Qed.

Example existing_notebook_ex :
  exists w,
    Davos.ProjectChecker_call Sample.env (Davos.NameStr "/home/u/nb.ipynb")
      Sample.used
    = (w, Py.Return Sample.nb_project)
    /\ Py.fs w = Py.fs Sample.used.
Proof. eexists. split; reflexivity. Qed.

Example module_import_ex :
  Davos.module_import Sample.env Sample.fresh = (Sample.fresh, Py.Return tt).
Proof. reflexivity. Qed.

Example missing_projects_dir_ex :
  Davos.ProjectChecker_call Sample.env (Davos.NameStr "demo")
    (Py.mkWorld (FS.Dir true true [("home", FS.Dir true true [("u", FS.Dir true true [])])])
       [] [] [])
  = (Py.mkWorld (FS.Dir true true [("home", FS.Dir true true [("u", FS.Dir true true [])])])
       [] [] [],
     Py.Raise (Py.OSError FS.ENOENT)).
Proof. reflexivity. Qed.

Example rmtree_refused_ex :
  let locked :=
    FS.Dir true true
      [("p", FS.Dir true true [("a", FS.File); ("sub", FS.Dir false true []); ("b", FS.File)])] in
  FS.rmtree locked [] (Pathlib.parse "/p")
  = (FS.Dir true true [("p", FS.Dir true true [("sub", FS.Dir false true []); ("b", FS.File)])],
     Some FS.EACCES).
Proof. reflexivity. Qed.

Example check_conda_ex :
  PurePython._check_conda_avail_helper Sample.shell 5 Sample.fresh
  = Some (Sample.fresh, Py.Raise (Py.OSError FS.ENOENT)).
Proof. reflexivity. Qed.

(* ================================================================= *)
(** * Flattening a path into a directory name, and back *)

Module FlattenFacts.

Import PyStr Flatten.

Lemma prefix_nil (s : string) : prefix "" s = true.
Proof. destruct s; reflexivity. Qed.

Lemma prefix_cons (a b : ascii) (s t : string) :
  prefix (String a s) (String b t) = Ascii.eqb a b && prefix s t.
Proof.
  cbn [prefix]. destruct (ascii_dec a b) as [E | E].
  - subst. now rewrite Ascii.eqb_refl.
  - destruct (Ascii.eqb_spec a b); [congruence | reflexivity].
Qed.

Lemma flat_cons (c : ascii) (s : string) :
  flat (String c s) =
  if Ascii.eqb c "/" then "___" ++ flat s else String c (flat s).
Proof.
  unfold flat, replace. cbn [replace_from String.length pred].
  rewrite prefix_cons, prefix_nil, andb_true_r, Ascii.eqb_sym.
  reflexivity.
Qed.

Lemma flat_nil : flat "" = "".
Proof. reflexivity. Qed.

Lemma flat_app (a b : string) : flat (a ++ b) = flat a ++ flat b.
Proof.
  induction a as [| c a IH]; [reflexivity |].
  cbn [append]. rewrite !flat_cons, IH.
  destruct (Ascii.eqb c "/"); reflexivity.
Qed.

Lemma prefix_app (s a b : string) :
  prefix s a = true -> prefix s (a ++ b) = true.
Proof.
  revert a. induction s as [| c s IH]; intros a H; [apply prefix_nil |].
  destruct a as [| d a]; [discriminate |].
  cbn [append]. rewrite prefix_cons in *.
  apply andb_true_iff in H as [-> H]. cbn. auto.
Qed.

Lemma contains_cons (sub : string) (c : ascii) (s : string) :
  contains sub (String c s) = prefix sub (String c s) || contains sub s.
Proof. reflexivity. Qed.

Lemma contains_app_false (sub a b : string) :
  contains sub (a ++ b) = false -> contains sub a = false.
Proof.
  induction a as [| c a IH]; cbn [append]; intros H.
  - destruct sub as [| x sub]; [ | reflexivity].
    destruct b; discriminate.
  - rewrite contains_cons in *. apply orb_false_iff in H as [H1 H2].
    apply orb_false_iff. split; [ | auto].
    destruct (prefix sub (String c a)) eqn:E; [ | reflexivity].
    apply (prefix_app _ _ b) in E. cbn [append] in E. congruence.
Qed.

(** A word of plain characters that starts [flat r ++ ".ipynb"] starts [r]. *)
Lemma prefix_flat_plain (w r : string) :
  all_chars plain_char w = true ->
  prefix w (flat r ++ ".ipynb") = true -> prefix w r = true.
Proof.
  revert r. induction w as [| a w IH]; intros r Hw H; [apply prefix_nil |].
  cbn [all_chars] in Hw. apply andb_true_iff in Hw as [Ha Hw].
  unfold plain_char in Ha.
  apply andb_true_iff in Ha as [Ha Hdot]. apply andb_true_iff in Ha as [Hsl Hun].
  destruct r as [| c r].
  - rewrite flat_nil in H. cbn [append] in H. rewrite prefix_cons in H.
    apply andb_true_iff in H as [H _].
    apply Ascii.eqb_eq in H. subst a. discriminate Hdot.
  - rewrite flat_cons in H. destruct (Ascii.eqb_spec c "/") as [-> | Hc].
    + cbn [append] in H. rewrite prefix_cons in H.
      apply andb_true_iff in H as [H _].
      apply Ascii.eqb_eq in H. subst a. discriminate Hun.
    + cbn [append] in H. rewrite prefix_cons in *.
      apply andb_true_iff in H as [-> H]. cbn. auto.
Qed.

(** Stripping the extension from a flattened notebook path removes the
    final extension only, when the stem does not hold the extension. *)
Lemma strip_flat (stem : string) :
  contains ".ipynb" stem = false ->
  strip (flat stem ++ ".ipynb") = flat stem.
Proof.
  induction stem as [| c r IH]; intros H; [reflexivity |].
  rewrite contains_cons in H. apply orb_false_iff in H as [Hp Hc].
  specialize (IH Hc). rewrite flat_cons.
  destruct (Ascii.eqb_spec c "/") as [-> | Hsl].
  - unfold strip, replace in *. cbn [append].
    cbn [replace_from prefix]. cbn. f_equal. f_equal. f_equal. exact IH.
  - unfold strip, replace in *. cbn [append].
    cbn [replace_from].
    assert (Hno : prefix ".ipynb" (String c (flat r ++ ".ipynb")) = false).
    { rewrite prefix_cons in *. apply andb_false_iff in Hp as [Hp | Hp].
      - now rewrite Hp.
      - destruct (prefix "ipynb" (flat r ++ ".ipynb")) eqn:E.
        + apply prefix_flat_plain in E; [ | reflexivity]. congruence.
        + apply andb_false_r. }
    rewrite Hno. f_equal. exact IH.
Qed.

Lemma unflat_token (x : string) : unflat ("___" ++ x) = String "/" (unflat x).
Proof.
  unfold unflat, replace. cbn [append].
  change (replace_from "___" "/" 0 (String "_" (String "_" (String "_" x))))
    with (if prefix "___" (String "_" (String "_" (String "_" x)))
          then String "/" (replace_from "___" "/" 0 x)
          else String "_"
                 (replace_from "___" "/" 0 (String "_" (String "_" x)))).
  now rewrite !prefix_cons, prefix_nil.
Qed.

(** Undoing the flattening gives the string back, when no underscore of the
    string can be read as part of a placeholder. *)
Lemma unflat_flat (s : string) :
  contains "___" s = false -> contains "_/" s = false -> unflat (flat s) = s.
Proof.
  induction s as [| c r IH]; intros H3 H2; [reflexivity |].
  rewrite contains_cons in H3, H2.
  apply orb_false_iff in H3 as [P3 C3]. apply orb_false_iff in H2 as [P2 C2].
  specialize (IH C3 C2). rewrite flat_cons.
  destruct (Ascii.eqb_spec c "/") as [-> | Hsl].
  - rewrite unflat_token. f_equal. exact IH.
  - assert (Hno : prefix "___" (String c (flat r)) = false).
    { rewrite prefix_cons in *.
      destruct (Ascii.eqb_spec "_"%char c) as [<- | ]; [ | reflexivity].
      cbn [andb] in *.
      destruct r as [| d r]; [reflexivity |].
      rewrite prefix_cons, prefix_nil, andb_true_r, Ascii.eqb_sym in P2.
      rewrite prefix_cons in P3.
      rewrite flat_cons, P2, prefix_cons.
      destruct (Ascii.eqb_spec "_"%char d) as [<- | ]; [ | reflexivity].
      cbn [andb] in *.
      destruct r as [| e r]; [reflexivity |].
      rewrite contains_cons in C2. apply orb_false_iff in C2 as [Q2 _].
      rewrite !prefix_cons, prefix_nil, Ascii.eqb_refl, andb_true_r in Q2.
      cbn [andb] in Q2. rewrite Ascii.eqb_sym in Q2.
      rewrite prefix_cons, prefix_nil, andb_true_r in P3.
      now rewrite flat_cons, Q2, prefix_cons, P3. }
    unfold unflat, replace in *. cbn [replace_from]. rewrite Hno.
    f_equal. exact IH.
Qed.

End FlattenFacts.

(* ================================================================= *)
(** * Facts about the file-system tree *)

Module FSFacts.

Import Pathlib FS FSPred.

(** Induction on a tree, with the hypothesis for every entry. *)
Lemma node_induction (P : node -> Prop) :
  P File ->
  (forall r w es, Forall (fun e => P (snd e)) es -> P (Dir r w es)) ->
  forall n, P n.
Proof.
  intros HF HD. fix IH 1. intros [| r w es].
  - exact HF.
  - apply HD. induction es as [| [k c] es IHes].
    + constructor.
    + constructor; [exact (IH c) | exact IHes].
Qed.

(** ** Entries *)

Lemma assoc_map_first (k k' : string) (g : node -> node) (es : entries_t) :
  assoc k' (map_first k g es) =
  if k =? k' then option_map g (assoc k' es) else assoc k' es.
Proof.
  induction es as [| [a n] es IH]; cbn [map_first assoc].
  - now destruct (k =? k').
  - destruct (String.eqb_spec a k) as [-> | Hak]; cbn [assoc].
    + destruct (String.eqb_spec k k') as [-> | Hk]; [reflexivity |].
      reflexivity.
    + rewrite IH. destruct (String.eqb_spec a k') as [-> | Hak'].
      * destruct (String.eqb_spec k k'); [congruence | reflexivity].
      * reflexivity.
Qed.

Lemma assoc_remove_entry (k k' : string) (es : entries_t) :
  assoc k' (remove_entry k es) = if k =? k' then None else assoc k' es.
Proof.
  unfold remove_entry.
  induction es as [| [a n] es IH]; cbn [filter assoc fst].
  - now destruct (k =? k').
  - destruct (String.eqb_spec a k) as [-> | Hak]; cbn [negb assoc].
    + rewrite IH. destruct (String.eqb_spec k k'); reflexivity.
    + rewrite IH. destruct (String.eqb_spec a k') as [-> | ]; [ | reflexivity].
      destruct (String.eqb_spec k k'); [congruence | reflexivity].
Qed.

Lemma assoc_app (k : string) (es es' : entries_t) :
  assoc k (es ++ es')%list =
  match assoc k es with Some n => Some n | None => assoc k es' end.
Proof.
  induction es as [| [a n] es IH]; cbn [app assoc]; [reflexivity |].
  now destruct (a =? k).
Qed.

Lemma map_first_ext (k : string) (f g : node -> node) (es : entries_t) :
  (forall n, f n = g n) -> map_first k f es = map_first k g es.
Proof.
  intros E. induction es as [| [a n] es IH]; cbn [map_first]; [reflexivity |].
  now rewrite E, IH.
Qed.

Lemma map_first_map_first (k : string) (f g : node -> node) (es : entries_t) :
  map_first k g (map_first k f es) = map_first k (fun n => g (f n)) es.
Proof.
  induction es as [| [a n] es IH]; cbn [map_first]; [reflexivity |].
  destruct (a =? k) eqn:E; cbn [map_first]; rewrite E; [reflexivity |].
  now rewrite IH.
Qed.

Lemma remove_map_first (k : string) (f : node -> node) (es : entries_t) :
  remove_entry k (map_first k f es) = remove_entry k es.
Proof.
  unfold remove_entry.
  induction es as [| [a n] es IH]; cbn [map_first filter]; [reflexivity |].
  destruct (a =? k) eqn:E; cbn [filter fst]; rewrite E; cbn [negb].
  - reflexivity.
  - now rewrite IH.
Qed.

(** ** Walking and rewriting *)

Lemma walk_app (n : node) (p q : list string) :
  walk n (p ++ q)%list =
  match walk n p with inr m => walk m q | inl e => inl e end.
Proof.
  revert n. induction p as [| c p IH]; intros n; cbn [app walk]; [reflexivity |].
  destruct n as [| r w es]; [reflexivity |].
  destruct (assoc c es); [apply IH | reflexivity].
Qed.

Lemma walk_modify_above (p x : list string) (f : node -> node) (t n : node) :
  walk t p = inr n ->
  walk (modify (p ++ x)%list f t) p = inr (modify x f n).
Proof.
  revert t. induction p as [| c p IH]; intros t H; cbn [app walk modify] in *.
  - now inversion H.
  - destruct t as [| r w es]; [discriminate |].
    cbn [walk]. rewrite assoc_map_first, String.eqb_refl.
    destruct (assoc c es) as [m |]; [ | discriminate].
    cbn [option_map]. now apply IH.
Qed.

Lemma walk_modify_below (p q : list string) (f : node -> node) (t n : node) :
  walk t p = inr n ->
  walk (modify p f t) (p ++ q)%list = walk (f n) q.
Proof.
  intros H. rewrite walk_app.
  pose proof (walk_modify_above p [] f t H) as E.
  rewrite app_nil_r in E. now rewrite E.
Qed.

Lemma modify_ext (p : list string) (f g : node -> node) (t : node) :
  (forall n, f n = g n) -> modify p f t = modify p g t.
Proof.
  intros E. revert t. induction p as [| c p IH]; intros t; cbn [modify].
  - apply E.
  - destruct t as [| r w es]; [reflexivity |].
    f_equal. now apply map_first_ext.
Qed.

Lemma modify_modify (p x : list string) (f g : node -> node) (t : node) :
  modify p g (modify (p ++ x)%list f t) =
  modify p (fun n => g (modify x f n)) t.
Proof.
  revert t. induction p as [| c p IH]; intros t; cbn [app modify].
  - reflexivity.
  - destruct t as [| r w es]; [reflexivity |].
    f_equal. rewrite map_first_map_first. now apply map_first_ext.
Qed.

(** ** Directories *)

Lemma dir_at_walk (t : node) (q : list string) :
  dir_at t q = true <-> exists r w es, walk t q = inr (Dir r w es).
Proof.
  unfold dir_at. destruct (walk t q) as [e | [| r w es]]; cbn; split.
  - discriminate.
  - intros (? & ? & ? & ?); discriminate.
  - discriminate.
  - intros (? & ? & ? & ?); discriminate.
  - intros _. now exists r, w, es.
  - reflexivity.
Qed.

Lemma dir_at_cons (r w : bool) (es : entries_t) (c : string) (q : list string) :
  dir_at (Dir r w es) (c :: q) =
  match assoc c es with Some m => dir_at m q | None => false end.
Proof. unfold dir_at. cbn [walk]. now destruct (assoc c es). Qed.

Lemma dir_at_File (q : list string) : dir_at File q = false.
Proof. now destruct q. Qed.

Lemma dir_at_modify_mono (p : list string) (f : node -> node) :
  grows f ->
  forall t q, dir_at t q = true -> dir_at (modify p f t) q = true.
Proof.
  intros G. induction p as [| c p IH]; intros t q H; cbn [modify].
  - now apply G.
  - destruct t as [| r w es]; [exact H |].
    destruct q as [| c' q]; [reflexivity |].
    rewrite dir_at_cons in *. rewrite assoc_map_first.
    destruct (assoc c' es) as [m |]; [ | discriminate].
    destruct (c =? c'); cbn [option_map]; auto.
Qed.

Lemma grows_add_entry (k : string) (n0 : node) :
  grows (with_entries (fun es => (es ++ [(k, n0)])%list)).
Proof.
  intros [| r w es] q H; [now rewrite dir_at_File in H |].
  cbn [with_entries]. destruct q as [| c q]; [reflexivity |].
  rewrite dir_at_cons in *. rewrite assoc_app.
  destruct (assoc c es); [exact H | discriminate].
Qed.

(** ** Resolution *)

Lemma canon_mono (t t' : node) :
  (forall q, dir_at t q = true -> dir_at t' q = true) ->
  forall comps cur d, canon t cur comps = inr d -> canon t' cur comps = inr d.
Proof.
  intros Hm. induction comps as [| c rest IH]; intros cur d H; cbn [canon] in *.
  - exact H.
  - assert (Hd : dir_at t cur = true).
    { unfold dir_at. destruct (walk t cur) as [e | [| r w es]];
        [discriminate | discriminate | reflexivity]. }
    apply Hm in Hd. apply dir_at_walk in Hd as (r' & w' & es' & ->).
    destruct (walk t cur) as [e | [| r w es]]; [discriminate | discriminate |].
    destruct (c =? ".."); [now apply IH |].
    destruct ((c =? ".") || (c =? "")); now apply IH.
Qed.

Lemma ordinary_inv (c : string) :
  ordinary c = true -> (c =? "..") = false /\ ((c =? ".") || (c =? "")) = false.
Proof.
  unfold ordinary. intros H.
  apply andb_true_iff in H as [H H3]. apply andb_true_iff in H as [H1 H2].
  apply negb_true_iff in H1, H2, H3. now rewrite H1, H2, H3.
Qed.

(** A literal path to something that exists resolves to itself. *)
Lemma canon_literal_ok (t : node) (comps cur : list string) (n : node) :
  forallb ordinary comps = true ->
  walk t (cur ++ comps)%list = inr n ->
  canon t cur comps = inr (cur ++ comps)%list.
Proof.
  revert cur. induction comps as [| c rest IH]; intros cur Hl H; cbn [canon].
  - now rewrite app_nil_r.
  - cbn [forallb] in Hl. apply andb_true_iff in Hl as [Hc Hl].
    apply ordinary_inv in Hc as [E1 E2].
    pose proof H as H'. rewrite walk_app in H'.
    destruct (walk t cur) as [e | m] eqn:W; [discriminate |].
    destruct m as [| r w es]; [discriminate |].
    rewrite E1, E2.
    replace (cur ++ c :: rest)%list with ((cur ++ [c]) ++ rest)%list in *
      by now rewrite <- app_assoc.
    now apply IH.
Qed.

(** A literal path whose parent exists resolves to itself. *)
Lemma canon_literal_parent (t : node) (init cur : list string) (k : string)
    (r w : bool) (es : entries_t) :
  forallb ordinary (init ++ [k])%list = true ->
  walk t (cur ++ init)%list = inr (Dir r w es) ->
  canon t cur (init ++ [k])%list = inr (cur ++ init ++ [k])%list.
Proof.
  revert cur. induction init as [| c rest IH]; intros cur Hl H;
    cbn [app canon forallb] in *;
    apply andb_true_iff in Hl as [Hc Hl];
    apply ordinary_inv in Hc as [E1 E2].
  - rewrite app_nil_r in H. now rewrite H, E1, E2.
  - pose proof H as H'. rewrite walk_app in H'.
    destruct (walk t cur) as [e | m] eqn:W; [discriminate |].
    destruct m as [| r0 w0 es0]; [discriminate |].
    rewrite E1, E2.
    replace (cur ++ c :: rest ++ [k])%list
      with ((cur ++ [c]) ++ rest ++ [k])%list
      by now rewrite <- app_assoc.
    apply IH; [exact Hl |]. now rewrite <- app_assoc.
Qed.

End FSFacts.

(* ================================================================= *)
(** * Facts about the file-system calls *)

Module CallFacts.

Import Pathlib FS FSPred FSFacts.

Lemma split_last_app (d : list string) (parent : list string) (k : string) :
  split_last d = Some (parent, k) -> d = (parent ++ [k])%list.
Proof.
  unfold split_last. destruct d as [| c d]; [discriminate |].
  intros H.
  assert (E : removelast (c :: d) = parent /\ last (c :: d) "" = k)
    by (inversion H; split; reflexivity).
  destruct E as [<- <-]. apply app_removelast_last. discriminate.
Qed.

Lemma split_last_cons (d : list string) :
  d <> [] -> split_last d = Some (removelast d, last d "").
Proof. destruct d; [congruence | reflexivity]. Qed.

(** After a successful [mkdir] the path is an empty directory. *)
Lemma mkdir_creates (t : node) (cwd : list string) (p : PurePath) (t' : node) :
  mkdir t cwd p = inr t' -> stat t' cwd p = inr empty_dir.
Proof.
  unfold mkdir, stat, locate.
  destruct (canon t (start cwd p) (names p)) as [e | d] eqn:C; [discriminate |].
  destruct (too_long (last (names p) "")); [discriminate |].
  destruct (walk t d) as [e | n] eqn:W; [ | discriminate].
  destruct (names p) as [| c0 ns] eqn:N; [discriminate |].
  destruct (split_last d) as [[parent k] |] eqn:S; [ | discriminate].
  apply split_last_app in S. subst d.
  destruct (walk t parent) as [e' | [| r w es]] eqn:WP; [discriminate | discriminate |].
  destruct w; [ | discriminate].
  intros H. inversion H as [Ht]. clear H.
  assert (A : assoc k es = None).
  { rewrite walk_app, WP in W. cbn [walk] in W.
    destruct (assoc k es); [discriminate | reflexivity]. }
  subst t'.
  set (t' := modify parent _ t).
  assert (C' : canon t' (start cwd p) (c0 :: ns) = inr (parent ++ [k])%list).
  { eapply canon_mono; [ | exact C].
    intros q. apply dir_at_modify_mono, grows_add_entry. }
  rewrite C'. unfold t'.
  rewrite (walk_modify_below parent [k] _ t WP).
  cbn [with_entries walk]. rewrite assoc_app, A. cbn [assoc].
  now rewrite String.eqb_refl.
Qed.

(** [mkdir], or the directory that is there already. *)
Lemma mkdir_or_exists (t : node) (cwd : list string) (p : PurePath) :
  can_mkdir t cwd p = true ->
  (exists t', mkdir t cwd p = inr t')
  \/ (mkdir t cwd p = inl EEXIST
      /\ exists r w es, stat t cwd p = inr (Dir r w es)).
Proof.
  unfold can_mkdir. intros H.
  apply andb_true_iff in H as [H0 H].
  apply andb_true_iff in H0 as [H0 L].
  apply andb_true_iff in H0 as [_ TL]. apply negb_true_iff in TL.
  unfold literal in L.
  destruct (names p) as [| c0 ns] eqn:N; [discriminate |].
  assert (Nne : c0 :: ns <> []) by discriminate.
  pose proof (app_removelast_last "" Nne) as Ns.
  set (init := removelast (c0 :: ns)) in *. set (k := last (c0 :: ns) "") in *.
  destruct (walk t (start cwd p ++ init)%list) as [e | [| rp wp esp]] eqn:WP;
    [discriminate | discriminate |].
  assert (C : canon t (start cwd p) (c0 :: ns)
              = inr (start cwd p ++ init ++ [k])%list).
  { rewrite Ns in *. now apply canon_literal_parent with (r := rp) (w := wp) (es := esp). }
  assert (Wd : walk t (start cwd p ++ init ++ [k])%list
               = match assoc k esp with Some n => inr n | None => inl ENOENT end).
  { rewrite app_assoc, walk_app, WP. cbn [walk]. now destruct (assoc k esp). }
  assert (Dne : (start cwd p ++ init ++ [k])%list <> []).
  { destruct (start cwd p); [ | discriminate]. now destruct init. }
  assert (Par : removelast (start cwd p ++ init ++ [k])%list
                = (start cwd p ++ init)%list).
  { rewrite app_assoc. apply removelast_last. }
  unfold mkdir, stat, locate. rewrite N, C.
  change (last (c0 :: ns) "") with k. rewrite TL, Wd.
  destruct (assoc k esp) as [n |].
  - right. split; [reflexivity |].
    destruct n as [| r w es]; [discriminate | eauto].
  - left. rewrite (split_last_cons Dne), Par, WP, H. eauto.
Qed.

(** What [clear] leaves of a removable directory. *)
Lemma clear_removable (n : node) :
  removable n = true ->
  forall r w es, n = Dir r w es -> clear n = (None, Dir r w []).
Proof.
  induction n as [| r w es IH] using node_induction; intros R r' w' es' E;
    [discriminate |].
  inversion E; subst r' w' es'. clear E.
  cbn [removable] in R.
  apply andb_true_iff in R as [R Hall]. apply andb_true_iff in R as [Hr Hw].
  subst r. cbn [clear negb].
  match goal with
  | |- (let (e, es') := ?go es in _) = _ =>
      assert (G : go es = (None, [])); [ | now rewrite G]
  end.
  induction es as [| [k c] es IHes]; [reflexivity |].
  cbn [orb] in Hw. rewrite orb_false_r in Hw. subst w.
  cbn [forallb snd] in Hall. apply andb_true_iff in Hall as [Hc Hall].
  inversion IH as [| ? ? IHc IHrest]; subst.
  cbn [snd] in IHc.
  destruct c as [| rc wc ec].
  - apply IHes; [exact IHrest | reflexivity | exact Hall].
  - rewrite (IHc Hc rc wc ec eq_refl).
    apply IHes; [exact IHrest | reflexivity | exact Hall].
Qed.

Lemma forallb_last (f : string -> bool) (l : list string) (d : string) :
  l <> [] -> forallb f l = true -> f (last l d) = true.
Proof.
  induction l as [| a l IH]; [congruence |]. intros _ H.
  cbn [forallb] in H. apply andb_true_iff in H as [Ha Hl].
  destruct l as [| b l]; [exact Ha |].
  apply IH; [discriminate | exact Hl].
Qed.

(** What [can_rmtree] says. *)
Lemma can_rmtree_inv (t : node) (cwd : list string) (p : PurePath) :
  can_rmtree t cwd p = true ->
  literal p = true /\ names p <> [] /\
  (start cwd p ++ names p)%list <> [] /\
  exists r w es rp esp,
    walk t (start cwd p ++ names p)%list = inr (Dir r w es)
    /\ removable (Dir r w es) = true
    /\ walk t (removelast (start cwd p ++ names p)%list) = inr (Dir rp true esp).
Proof.
  unfold can_rmtree. intros H.
  apply andb_true_iff in H as [L H]. split; [exact L |].
  destruct (names p) as [| c0 ns] eqn:N; [discriminate |].
  split; [discriminate |]. split; [now destruct (start cwd p) |].
  destruct (walk t (start cwd p ++ c0 :: ns)%list) as [e | [| r w es]];
    [discriminate | discriminate |].
  apply andb_true_iff in H as [R H].
  destruct (walk t (removelast (start cwd p ++ c0 :: ns)%list))
    as [e | [| rp wp esp]]; [discriminate | discriminate |].
  subst wp. now exists r, w, es, rp, esp.
Qed.

Lemma rmtree_ok (t : node) (cwd : list string) (p : PurePath) :
  can_rmtree t cwd p = true ->
  rmtree t cwd p = (without (start cwd p ++ names p)%list t, None).
Proof.
  unfold can_rmtree. intros H.
  apply andb_true_iff in H as [L H].
  destruct (names p) as [| c0 ns] eqn:N; [discriminate |].
  rewrite <- N in *.
  set (d := (start cwd p ++ names p)%list) in *.
  destruct (walk t d) as [e | [| r w es]] eqn:W; [discriminate | discriminate |].
  apply andb_true_iff in H as [R H].
  destruct (walk t (removelast d)) as [e | [| rp wp esp]] eqn:WP;
    [discriminate | discriminate |].
  subst wp.
  assert (Dne : d <> []).
  { unfold d. rewrite N. now destruct (start cwd p). }
  pose proof (app_removelast_last "" Dne) as Dsplit.
  set (parent := removelast d) in *. set (k := last d "") in *.
  unfold rmtree, locate.
  rewrite (canon_literal_ok t (names p) (start cwd p) L W). fold d.
  rewrite W, (clear_removable R eq_refl).
  set (t' := modify d (fun _ : node => Dir r w []) t).
  assert (W' : walk t' d = inr (Dir r w [])).
  { pose proof (walk_modify_below d [] (fun _ => Dir r w []) t W) as E.
    now rewrite app_nil_r in E. }
  assert (WP' : walk t' parent
                = inr (modify [k] (fun _ => Dir r w []) (Dir rp true esp))).
  { unfold t'. rewrite Dsplit. now apply walk_modify_above. }
  unfold rmdir, locate.
  rewrite (canon_literal_ok t' (names p) (start cwd p) L W'). fold d.
  rewrite W'.
  assert (Hlast : (last (names p) "" =? "..") = false).
  { assert (O : ordinary (last (names p) "") = true).
    { apply forallb_last; [now rewrite N | exact L]. }
    now apply ordinary_inv in O. }
  rewrite Hlast, N, (split_last_cons Dne).
  fold parent. fold k.
  rewrite WP'. cbn [modify negb].
  f_equal. unfold without. fold parent. fold k. unfold t'.
  rewrite Dsplit at 1. rewrite modify_modify.
  apply modify_ext. intros [| r1 w1 es1]; [reflexivity |].
  cbn [modify with_entries]. now rewrite remove_map_first.
Qed.

Lemma canon_literal_inv (t : node) (comps cur r : list string) :
  forallb ordinary comps = true ->
  canon t cur comps = inr r -> r = (cur ++ comps)%list.
Proof.
  revert cur. induction comps as [| c rest IH]; intros cur Hl H; cbn [canon] in H.
  - rewrite app_nil_r. now inversion H.
  - cbn [forallb] in Hl. apply andb_true_iff in Hl as [Hc Hl].
    apply ordinary_inv in Hc as [E1 E2]. rewrite E1, E2 in H.
    destruct (walk t cur) as [e | [| r0 w0 es0]]; [discriminate | discriminate |].
    apply IH in H; [ | exact Hl]. now rewrite <- app_assoc in H.
Qed.

(** Removing an empty directory of a writable parent. *)
Lemma rmdir_ok (t : node) (cwd : list string) (p : PurePath) (r w rp : bool)
    (esp : entries_t) :
  literal p = true ->
  names p <> [] ->
  walk t (start cwd p ++ names p)%list = inr (Dir r w []) ->
  walk t (removelast (start cwd p ++ names p)%list) = inr (Dir rp true esp) ->
  rmdir t cwd p = inr (without (start cwd p ++ names p)%list t).
Proof.
  intros L N W WP. unfold rmdir, locate.
  rewrite (canon_literal_ok t (names p) (start cwd p) L W), W.
  assert (Hlast : (last (names p) "" =? "..") = false).
  { assert (O : ordinary (last (names p) "") = true)
      by (apply forallb_last; assumption).
    now apply ordinary_inv in O. }
  rewrite Hlast.
  destruct (names p) as [| c0 ns] eqn:E; [congruence |]. rewrite <- E in *.
  assert (Dne : (start cwd p ++ names p)%list <> []).
  { rewrite E. now destruct (start cwd p). }
  now rewrite (split_last_cons Dne), WP.
Qed.

(** A directory that has entries is not removed by [rmdir]. *)
Lemma rmdir_nonempty (t : node) (cwd : list string) (p : PurePath)
    (r w : bool) (e : string * node) (es : entries_t) :
  stat t cwd p = inr (Dir r w (e :: es)) ->
  exists n, rmdir t cwd p = inl n.
Proof.
  unfold stat, rmdir.
  destruct (locate t cwd p) as [n | d]; [discriminate |].
  intros ->.
  destruct (last (names p) "" =? ".."); [eauto |].
  destruct (names p); [eauto |].
  destruct (split_last d) as [[parent k] |]; [ | eauto].
  destruct (walk t parent) as [n | [| rp wp esp]]; [eauto | eauto |].
  destruct wp; cbn [negb]; eauto.
Qed.

(** Nothing is left at or below a removed entry. *)
Lemma walk_without (t : node) (d q : list string) (r w : bool) (es : entries_t) :
  d <> [] ->
  walk t (removelast d) = inr (Dir r w es) ->
  walk (without d t) (d ++ q)%list = inl ENOENT.
Proof.
  intros Dne WP. unfold without.
  assert (E : (d ++ q)%list = (removelast d ++ last d "" :: q)%list).
  { rewrite (app_removelast_last "" Dne) at 1. now rewrite <- app_assoc. }
  rewrite E, (walk_modify_below _ _ _ t WP).
  cbn [with_entries walk]. now rewrite assoc_remove_entry, String.eqb_refl.
Qed.

(** After [rmtree] the path leads nowhere. *)
Lemma stat_without (t : node) (cwd : list string) (p : PurePath) :
  can_rmtree t cwd p = true ->
  exists e, stat (without (start cwd p ++ names p)%list t) cwd p = inl e.
Proof.
  unfold can_rmtree. intros H.
  apply andb_true_iff in H as [L H].
  destruct (names p) as [| c0 ns] eqn:N; [discriminate |].
  rewrite <- N in *.
  destruct (walk t (start cwd p ++ names p)%list) as [e | [| r w es]];
    [discriminate | discriminate |].
  apply andb_true_iff in H as [_ H].
  destruct (walk t (removelast (start cwd p ++ names p)%list))
    as [e | [| rp wp esp]] eqn:WP; [discriminate | discriminate |].
  assert (Dne : (start cwd p ++ names p)%list <> []).
  { rewrite N. now destruct (start cwd p). }
  unfold stat, locate.
  destruct (canon _ (start cwd p) (names p)) as [e | d] eqn:C; [eauto |].
  apply canon_literal_inv in C; [ | exact L]. subst d.
  pose proof (walk_without t [] Dne WP) as E. rewrite app_nil_r in E.
  rewrite E. eauto.
Qed.

End CallFacts.

(* ================================================================= *)
(** * The project directory at construction *)

Import Pathlib FS Py Davos FSPred.

Lemma Path_mkdir_is_dir (p : PurePath) (w w' : World) :
  Path_mkdir p w = (w', Return tt) -> is_dir w' p = true.
Proof.
  unfold Path_mkdir, is_dir.
  destruct (embedded_null p); [discriminate |].
  destruct (mkdir (fs w) (cwd w) p) as [e | t] eqn:E.
  - destruct e;
      try discriminate;
      unfold is_dir;
      (destruct (stat (fs w) (cwd w) p) as [e' | n] eqn:S; [discriminate |]);
      (destruct (is_dir_node n) eqn:D; [ | discriminate]);
      intros H; inversion H; subst w'; now rewrite S.
  - intros H. inversion H. subst w'. cbn [set_fs fs cwd].
    now rewrite (CallFacts.mkdir_creates _ _ _ E).
Qed.

(** [mkdir] raises without a change, and what it raises is the
    [ValueError] of a null character or an [OSError]. *)
Lemma Path_mkdir_raises (p : PurePath) (w w' : World) (e : exn) :
  Path_mkdir p w = (w', Raise e) ->
  w' = w /\ ((exists n, e = OSError n) \/ e = ValueError "embedded null byte").
Proof.
  unfold Path_mkdir.
  destruct (embedded_null p); [intros H; inversion H; auto |].
  destruct (mkdir (fs w) (cwd w) p) as [n | t]; [ | discriminate].
  destruct n; destruct (is_dir w p); try discriminate;
    intros H; inversion H; eauto.
Qed.

(** [mkdir(parents=False, exist_ok=True)] returns where it is not
    refused. *)
Lemma Path_mkdir_ok (p : PurePath) (w : World) :
  can_mkdir (fs w) (cwd w) p = true ->
  exists w', Path_mkdir p w = (w', Return tt).
Proof.
  intros H. unfold Path_mkdir, is_dir.
  assert (N : embedded_null p = false).
  { unfold can_mkdir in H. do 3 apply andb_true_iff in H as [H _].
    now apply negb_true_iff in H. }
  rewrite N.
  destruct (CallFacts.mkdir_or_exists _ _ _ H)
    as [[t' ->] | [-> (r & wr & es & ->)]]; cbn [is_dir_node]; eauto.
Qed.

(** What a returning [__init__] has done. *)
Lemma Project_init_returns (env : Env) (c : pyclass) (nm : string)
    (w w' : World) (inst : Project) :
  Project_init env c nm w = (w', Return inst) ->
  inst = _set_names env c nm /\
  exists w1, Path_mkdir (project_dir inst) w = (w1, Return tt) /\
             w' = mkWorld (fs w1) (cwd w1) (stdout w1)
                          (atexit w1 ++ [project_dir inst])%list.
Proof.
  unfold Project_init, bind, atexit_register, ret.
  destruct (Path_mkdir _ w) as [w1 [[] | e]] eqn:E; [ | discriminate].
  intros H. inversion H. subst. split; [reflexivity |].
  exists w1. split; [exact E | reflexivity].
Qed.

(** [__init__] raises nothing but what [mkdir] raises. *)
Lemma Project_init_raises (env : Env) (c : pyclass) (nm : string)
    (w w' : World) (e : exn) :
  Project_init env c nm w = (w', Raise e) ->
  w' = w /\ ((exists n, e = OSError n) \/ e = ValueError "embedded null byte").
Proof.
  unfold Project_init, bind, atexit_register, ret.
  destruct (Path_mkdir _ w) as [w1 [[] | e1]] eqn:E; [discriminate |].
  intros H. inversion H. subst. now apply Path_mkdir_raises in E.
Qed.

(** When [__init__] raises, [mkdir] has raised it. *)
Lemma Project_init_mkdir_raises (env : Env) (c : pyclass) (nm : string)
    (w w' : World) (e : exn) :
  Project_init env c nm w = (w', Raise e) ->
  w' = w /\ Path_mkdir (project_dir (_set_names env c nm)) w = (w, Raise e).
Proof.
  unfold Project_init, bind, atexit_register, ret.
  destruct (Path_mkdir _ w) as [w1 [[] | e1]] eqn:E; [discriminate |].
  intros H. inversion H. subst.
  destruct (Path_mkdir_raises _ _ E) as [-> _]. split; reflexivity.
Qed.

(** [__init__] returns the instance where [mkdir] is not refused. *)
Lemma type_call_returns (env : Env) (c : pyclass) (nm : string) (w : World) :
  can_mkdir (fs w) (cwd w) (project_dir (_set_names env c nm)) = true ->
  exists w', type_call env c nm w = (w', Return (_set_names env c nm)).
Proof.
  intros H. apply Path_mkdir_ok in H as [w1 H].
  unfold type_call, Project_init, bind, atexit_register, ret.
  rewrite H. eauto.
Qed.

(** Whatever the argument, [Project(name)] ends in [type.__call__] or in
    the naming error. *)
Lemma ProjectChecker_call_cases (env : Env) (arg : name_arg) (w : World) :
  (exists c nm, ProjectChecker_call env arg w = type_call env c nm w) \/
  (exists msg, ProjectChecker_call env arg w = (w, Raise (DavosProjectError msg))).
Proof.
  unfold ProjectChecker_call.
  destruct (PyStr.contains PATHSEP (py_str arg)).
  - destruct (negb _ || is_dir w _); [right; eauto | left; eauto].
  - destruct (PyStr.contains PATHSEP_REPLACEMENT (py_str arg)); left; eauto.
Qed.

(** C1 (as amended): whenever [Project(name)] returns an instance, of
    either class, the instance's [project_dir] is a directory on disk:
    an [AbstractProject] has its directory created like a
    [ConcreteProject]. *)
Theorem C1_project_dir_created (env : Env) (arg : name_arg)
    (w w' : World) (inst : Project) :
  ProjectChecker_call env arg w = (w', Return inst) ->
  is_dir w' (project_dir inst) = true.
Proof.
  intros H.
  destruct (ProjectChecker_call_cases env arg w) as [(c & nm & E) | (msg & E)];
    rewrite E in H; [ | discriminate].
  apply Project_init_returns in H as (_ & w1 & Hm & ->).
  apply Path_mkdir_is_dir in Hm. exact Hm.
Qed.

(** C1, witness: the project of a notebook that does not exist. *)
Lemma C1_project_dir_created_witness :
  ProjectChecker_call Sample.env (NameStr "/home/u/new.ipynb") Sample.fresh
  = (Sample.fresh_with_new, Return Sample.new_project)
  /\ is_dir Sample.fresh_with_new (project_dir Sample.new_project) = true.
Proof.
  split.
  - reflexivity.
  - apply (C1_project_dir_created Sample.env (NameStr "/home/u/new.ipynb")
             Sample.fresh).
    reflexivity.
Defined.

(** C1, counterexample: constructing the project of the missing notebook
    [/home/u/new.ipynb] gives an [AbstractProject] and creates its
    [project_dir], which did not exist beforehand. *)
Lemma C1_abstract_creates_directory :
  exists w' inst,
    ProjectChecker_call Sample.env (NameStr "/home/u/new.ipynb") Sample.fresh
    = (w', Return inst)
    /\ class_of inst = AbstractProject
    /\ stat (fs Sample.fresh) (cwd Sample.fresh) (project_dir inst) = inl ENOENT
    /\ is_dir w' (project_dir inst) = true.
Proof.
  exists Sample.fresh_with_new, Sample.new_project.
  repeat split.
Qed.

(* ================================================================= *)
(** * The directory name of a notebook path, and the path back *)

Import PyStr Flatten FlattenFacts.

Lemma safe_name_eq (env : Env) (c : pyclass) (nm : string) :
  safe_name (_set_names env c nm) = strip (flat nm).
Proof. reflexivity. Qed.

(** C2 (as amended): for a notebook path [P = stem ++ ".ipynb"] that holds
    neither ["___"] nor ["_/"], and whose stem does not hold [".ipynb"],
    replacing the placeholder by the separator in [safe_name] and
    appending the extension gives [P] back. *)
Theorem C2_flatten_roundtrip (env : Env) (c : pyclass) (stem : string) :
  contains PATHSEP_REPLACEMENT (stem ++ ".ipynb") = false ->
  contains "_/" (stem ++ ".ipynb") = false ->
  contains ".ipynb" stem = false ->
  replace (safe_name (_set_names env c (stem ++ ".ipynb")))
          PATHSEP_REPLACEMENT PATHSEP ++ ".ipynb"
  = stem ++ ".ipynb".
Proof.
  intros H3 H2 Hx.
  apply contains_app_false in H3, H2.
  rewrite safe_name_eq, flat_app.
  change (flat ".ipynb") with ".ipynb".
  rewrite (strip_flat _ Hx).
  change (replace (flat stem) PATHSEP_REPLACEMENT PATHSEP) with (unflat (flat stem)).
  now rewrite unflat_flat.
Qed.

(** C2, witness: the notebook of the earlier example. *)
Lemma C2_flatten_roundtrip_witness :
  replace (safe_name (_set_names Sample.env ConcreteProject
                        ("/home/user/notebooks/analysis" ++ ".ipynb")))
          PATHSEP_REPLACEMENT PATHSEP ++ ".ipynb"
  = "/home/user/notebooks/analysis" ++ ".ipynb".
Proof.
  apply (C2_flatten_roundtrip Sample.env ConcreteProject
           "/home/user/notebooks/analysis"); reflexivity.
Defined.

(** C2, counterexample: three resolved notebook paths the resolver accepts
    (absolute, printed as parsed, with the notebook extension) that the
    round trip does not give back: one holds the placeholder, one an
    underscore before a separator, one the extension twice. *)
Lemma C2_roundtrip_fails :
  let back (P : string) :=
    replace (safe_name (_set_names Sample.env ConcreteProject P))
            PATHSEP_REPLACEMENT PATHSEP ++ ".ipynb" in
  let accepted (P : string) :=
    is_absolute (parse P) = true /\ to_str (parse P) = P
    /\ suffix (parse P) = ".ipynb" in
  (accepted "/home/u/my___nb.ipynb"
   /\ back "/home/u/my___nb.ipynb" = "/home/u/my/nb.ipynb"
   /\ back "/home/u/my___nb.ipynb" <> "/home/u/my___nb.ipynb")
  /\ (accepted "/home/u_/nb.ipynb"
      /\ back "/home/u_/nb.ipynb" = "/home/u/_nb.ipynb"
      /\ back "/home/u_/nb.ipynb" <> "/home/u_/nb.ipynb")
  /\ (accepted "/home/u/nb.ipynb.ipynb"
      /\ back "/home/u/nb.ipynb.ipynb" = "/home/u/nb.ipynb"
      /\ back "/home/u/nb.ipynb.ipynb" <> "/home/u/nb.ipynb.ipynb").
Proof.
  cbv zeta. repeat split; try reflexivity; vm_compute; discriminate.
Qed.

(* ================================================================= *)
(** * The identity resolver *)



(** C5: for a name that holds a separator and resolves to a path without
    the notebook extension, or to a directory, construction raises the
    naming error and changes nothing; whether the path exists plays no
    part. *)
Theorem C5_naming_error (env : Env) (arg : name_arg) (w : World) :
  contains PATHSEP (py_str arg) = true ->
  let name_path := resolve_name env w (py_str arg) in
  suffix name_path <> ".ipynb" \/ is_dir w name_path = true ->
  ProjectChecker_call env arg w
  = (w, Raise (DavosProjectError (invalid_name_msg (py_str arg) name_path))).
Proof.
  intros Hs name_path H. unfold ProjectChecker_call. rewrite Hs.
  fold name_path.
  destruct H as [H | H].
  - destruct (String.eqb_spec (suffix name_path) ".ipynb") as [E | _];
      [contradiction | reflexivity].
  - rewrite H. now rewrite orb_true_r.
Qed.

(** C5, witness: a path to an existing directory and a path to a text
    file that does not exist. *)
Lemma C5_naming_error_witness :
  ProjectChecker_call Sample.env (NameStr "/home/u/.davos") Sample.fresh
  = (Sample.fresh,
     Raise (DavosProjectError
              (invalid_name_msg "/home/u/.davos" (parse "/home/u/.davos"))))
  /\ ProjectChecker_call Sample.env (NamePath (parse "/home/u/notes.txt"))
       Sample.fresh
     = (Sample.fresh,
        Raise (DavosProjectError
                 (invalid_name_msg "/home/u/notes.txt"
                    (parse "/home/u/notes.txt")))).
Proof.
  split.
  - apply (C5_naming_error Sample.env (NameStr "/home/u/.davos") Sample.fresh).
    + reflexivity.
    + left. vm_compute. discriminate.
  - apply (C5_naming_error Sample.env (NamePath (parse "/home/u/notes.txt"))
             Sample.fresh).
    + reflexivity.
    + left. vm_compute. discriminate.
Defined.

(** C6 (as amended): for a plain name, with neither separator nor
    placeholder, construction is [type.__call__(ConcreteProject, name)] in
    every world, so that no file is looked for; it raises no naming error;
    an instance that is returned is a [ConcreteProject] named as the
    input; an instance is returned whenever the [mkdir] of the project
    directory is not refused; and when construction raises, it raises what
    [mkdir] raised and has changed nothing. *)
Theorem C6_plain_name (env : Env) (arg : name_arg) (w : World) :
  contains PATHSEP (py_str arg) = false ->
  contains PATHSEP_REPLACEMENT (py_str arg) = false ->
  ProjectChecker_call env arg w = type_call env ConcreteProject (py_str arg) w
  /\ (forall w' msg,
        ProjectChecker_call env arg w <> (w', Raise (DavosProjectError msg)))
  /\ (forall w' inst,
        ProjectChecker_call env arg w = (w', Return inst) ->
        class_of inst = ConcreteProject /\ name inst = py_str arg)
  /\ (can_mkdir (fs w) (cwd w)
        (project_dir (_set_names env ConcreteProject (py_str arg))) = true ->
      exists w' inst,
        ProjectChecker_call env arg w = (w', Return inst)
        /\ class_of inst = ConcreteProject /\ name inst = py_str arg
        /\ is_dir w' (project_dir inst) = true)
  /\ (forall w' e,
        ProjectChecker_call env arg w = (w', Raise e) ->
        w' = w
        /\ Path_mkdir (project_dir (_set_names env ConcreteProject (py_str arg))) w
           = (w, Raise e)).
Proof.
  intros Hs Ht.
  assert (E : ProjectChecker_call env arg w
              = type_call env ConcreteProject (py_str arg) w).
  { unfold ProjectChecker_call. now rewrite Hs, Ht. }
  split; [exact E |]. rewrite E. unfold type_call.
  split; [ | split; [ | split]].
  - intros w' msg H.
    apply Project_init_raises in H as (_ & [[n H] | H]); discriminate.
  - intros w' inst H. apply Project_init_returns in H as (-> & _).
    split; reflexivity.
  - intros H. apply type_call_returns in H as [w' H].
    exists w', (_set_names env ConcreteProject (py_str arg)).
    split; [exact H |]. repeat split.
    apply Project_init_returns in H as (_ & w1 & Hm & ->).
    now apply Path_mkdir_is_dir in Hm.
  - intros w' e H. apply Project_init_mkdir_raises in H as [-> H].
    split; [reflexivity | exact H].
Qed.

(** C6, witness: [Project("demo")] in a world where [demo] does not exist
    anywhere. *)
Lemma C6_plain_name_witness :
  ProjectChecker_call Sample.env (NameStr "demo") Sample.fresh
  = (Sample.fresh_with_demo, Return Sample.demo_project)
  /\ class_of Sample.demo_project = ConcreteProject
  /\ name Sample.demo_project = "demo".
Proof.
  destruct (C6_plain_name Sample.env (NameStr "demo") Sample.fresh
              eq_refl eq_refl) as (E & _ & Hret & Hok & _).
  destruct (Hok eq_refl) as (w' & inst & _).
  assert (R : ProjectChecker_call Sample.env (NameStr "demo") Sample.fresh
              = (Sample.fresh_with_demo, Return Sample.demo_project))
    by (rewrite E; reflexivity).
  split; [exact R | exact (Hret _ _ R)].
Defined.

(** C6, counterexample: a plain name does not always yield a project.
    In the world the import of the module leaves in a home where davos was
    never used, [~/.davos] exists and [~/.davos/projects] does not, and
    [Project("demo")] raises [FileNotFoundError]; and where the projects
    directory exists, the plain name [a\0b] raises [ValueError]. *)
Lemma C6_plain_name_raises :
  module_import Sample.env Sample2.bare = (Sample2.imported, Return tt)
  /\ contains PATHSEP "demo" = false
  /\ contains PATHSEP_REPLACEMENT "demo" = false
  /\ ProjectChecker_call Sample.env (NameStr "demo") Sample2.imported
     = (Sample2.imported, Raise (OSError ENOENT))
  /\ contains PATHSEP Sample2.null_name = false
  /\ contains PATHSEP_REPLACEMENT Sample2.null_name = false
  /\ ProjectChecker_call Sample.env (NameStr Sample2.null_name) Sample.fresh
     = (Sample.fresh, Raise (ValueError "embedded null byte")).
Proof. repeat split. Qed.

(* ================================================================= *)
(** * The shell helper and the stubs *)

Import PurePython.

(** Once the child has exited with status 0 and nobody interrupts, the
    loop never ends: no number of iterations gives an outcome. *)
Lemma poll_loop_exit_zero (sh : ShellEnv) (cmd : list string) (process : Process) :
  interrupt_at sh = None ->
  pending process = [] ->
  returncode process = 0%Z ->
  forall fuel i w, poll_loop sh fuel cmd i process w = None.
Proof.
  intros Hi Hp Hr. induction fuel as [| fuel IH]; intros i w; [reflexivity |].
  cbn [poll_loop]. unfold interrupted, poll. rewrite Hi, Hp, Hr.
  cbn [Z.eqb negb]. apply IH.
Qed.

(** While the child runs, one iteration reads one line. *)
Lemma poll_loop_reads (sh : ShellEnv) (cmd : list string) (fuel i : nat)
    (l : string) (f : node -> node) (rest : list turn) (rc : Z)
    (sg : list signal) (w : World) :
  interrupt_at sh = None ->
  poll_loop sh (S fuel) cmd i (mkProcess (mkTurn (Line l) f :: rest) rc sg) w
  = poll_loop sh fuel cmd (S i) (mkProcess rest rc sg)
      (if l =? "" then set_fs (f (fs w)) w
       else stdout_write l (set_fs (f (fs w)) w)).
Proof.
  intros Hi. cbn [poll_loop]. unfold interrupted. now rewrite Hi.
Qed.

(** A read that cannot be decoded ends the loop with
    [UnicodeDecodeError]. *)
Lemma poll_loop_garbled (sh : ShellEnv) (cmd : list string) (fuel i : nat)
    (f : node -> node) (rest : list turn) (rc : Z) (sg : list signal)
    (w : World) :
  interrupt_at sh = None ->
  poll_loop sh (S fuel) cmd i (mkProcess (mkTurn Undecodable f :: rest) rc sg) w
  = Some (set_fs (f (fs w)) w, mkProcess rest rc sg, Raise UnicodeDecodeError).
Proof.
  intros Hi. cbn [poll_loop]. unfold interrupted. now rewrite Hi.
Qed.

(** A child that exits with a status other than 0 ends the loop: after its
    [pending] reads, if they can be decoded, the helper raises
    [CalledProcessError] with that status. *)
Lemma poll_loop_exit_nonzero (sh : ShellEnv) (cmd : list string) (rc : Z)
    (sg : list signal) :
  interrupt_at sh = None ->
  rc <> 0%Z ->
  forall ts i w,
  ShellPred.decodable ts = true ->
  exists w',
    poll_loop sh (S (List.length ts)) cmd i (mkProcess ts rc sg) w
    = Some (w', mkProcess [] rc sg, Raise (CalledProcessError rc cmd)).
Proof.
  intros Hi Hrc. induction ts as [| [[l |] f] rest IH]; intros i w D.
  - exists w. cbn [List.length poll_loop]. unfold interrupted, poll.
    rewrite Hi. cbn [pending returncode].
    destruct (Z.eqb_spec rc 0) as [E | _]; [contradiction | reflexivity].
  - cbn [List.length]. rewrite poll_loop_reads by exact Hi. apply IH.
    exact D.
  - discriminate D.
Qed.

(** An interrupt ends the loop, also after an exit with status 0: the
    signal is passed on if the child still runs, and [KeyboardInterrupt]
    raised. *)
Lemma poll_loop_interrupted (sh : ShellEnv) (cmd : list string) (fuel i : nat)
    (process : Process) (w : World) :
  interrupt_at sh = Some i ->
  poll_loop sh (S fuel) cmd i process w
  = Some (w, send_signal SIGINT process, Raise KeyboardInterrupt).
Proof.
  intros Hi. cbn [poll_loop]. unfold interrupted.
  now rewrite Hi, Nat.eqb_refl.
Qed.

(** C3, at the failing input: for the command [true], whose child exits
    at once with status 0, the helper has no outcome, however many
    iterations of its loop are run: it does not return. *)
Theorem C3_exit_zero_never_returns (fuel : nat) (w : World) :
  _run_shell_command_helper Sample.shell fuel "true" w = None.
Proof.
  unfold _run_shell_command_helper. cbn [Sample.shell shlex_split Popen].
  now rewrite poll_loop_exit_zero.
Qed.

(** The same in general: whenever the child has exited with status 0, the
    helper's result is [None] for every bound. *)
Lemma helper_exit_zero_never_returns (sh : ShellEnv) (command : string)
    (cmd : list string) (sg : list signal) (w : World) (t : node) :
  interrupt_at sh = None ->
  shlex_split sh command = Return cmd ->
  Popen sh cmd (fs w) = (t, Return (mkProcess [] 0%Z sg)) ->
  forall fuel, _run_shell_command_helper sh fuel command w = None.
Proof.
  intros Hi Hs Hp fuel. unfold _run_shell_command_helper.
  now rewrite Hs, Hp, poll_loop_exit_zero.
Qed.

(** The other half of the claim holds: a non-zero exit makes the helper
    raise [CalledProcessError] with the exit status, when the output of
    the child can be decoded. *)
Lemma helper_exit_nonzero_raises (sh : ShellEnv) (command : string)
    (cmd : list string) (ts : list turn) (rc : Z) (sg : list signal)
    (w : World) (t : node) :
  interrupt_at sh = None ->
  shlex_split sh command = Return cmd ->
  Popen sh cmd (fs w) = (t, Return (mkProcess ts rc sg)) ->
  ShellPred.decodable ts = true ->
  rc <> 0%Z ->
  exists fuel w' p',
    _run_shell_command_helper sh fuel command w
    = Some (w', Some p', Raise (CalledProcessError rc cmd)).
Proof.
  intros Hi Hs Hp D Hrc.
  destruct (poll_loop_exit_nonzero sh cmd sg Hi Hrc ts 0 (set_fs t w) D)
    as [w' E].
  exists (S (List.length ts)), w', (mkProcess [] rc sg).
  unfold _run_shell_command_helper. now rewrite Hs, Hp, E.
Qed.

Example helper_false :
  _run_shell_command_helper Sample.shell 1 "false" Sample.fresh
  = Some (Sample.fresh, Some (mkProcess [] 1%Z []),
          Raise (CalledProcessError 1%Z ["false"])).
Proof. reflexivity. Qed.

(** Output is passed on while the child runs; the exit with status 0 is
    then never noticed. *)
Example helper_echo (fuel : nat) :
  _run_shell_command_helper Sample.shell fuel "echo" Sample.fresh = None.
Proof.
  unfold _run_shell_command_helper.
  cbn [Sample.shell shlex_split Popen Sample.says map].
  do 2 (destruct fuel as [| fuel]; [reflexivity |]).
  rewrite !poll_loop_reads by reflexivity.
  now rewrite poll_loop_exit_zero.
Qed.

(** What the child does to the file system shows in the world the helper
    leaves. *)
Example helper_mkdir :
  exists w',
    _run_shell_command_helper Sample2.mkdir_shell 1 "sh -c 'mkdir out; exit 1'"
      Sample.fresh
    = Some (w', Some (mkProcess [] 1%Z []),
            Raise (CalledProcessError 1%Z ["sh"; "-c"; "mkdir out; exit 1"]))
    /\ is_dir Sample.fresh (parse "out") = false
    /\ is_dir w' (parse "out") = true.
Proof. eexists. repeat split. Qed.

(** Output that cannot be decoded: [UnicodeDecodeError] comes before the
    exit status is looked at. *)
Example helper_garbled :
  _run_shell_command_helper Sample2.garbled_conda_shell 5 "conda list Python"
    Sample.fresh
  = Some (mkWorld (fs Sample.fresh) (cwd Sample.fresh)
            ["# packages in environment:"] [],
          Some (mkProcess [] 1%Z []), Raise UnicodeDecodeError).
Proof. reflexivity. Qed.

(** C9: [rename], [update_name], the [installed_packages] getter (also when
    read as an attribute of a [ConcreteProject]) and the five stubs of the
    pure-Python module raise [NotImplementedError] for every argument and
    in every world, and change nothing. *)
Theorem C9_not_implemented (env : Env) (self : Project) (w : World)
    (A B : Type) (a : A) (b : B) :
  (exists msg, rename self a w = (w, Raise (NotImplementedError msg)))
  /\ (exists msg, update_name self w = (w, Raise (NotImplementedError msg)))
  /\ (exists msg, installed_packages self w = (w, Raise (NotImplementedError msg)))
  /\ (exists msg,
        getattr env
          (mkProject ConcreteProject (name self) (safe_name self)
                     (project_dir self) (site_packages_dir self))
          "installed_packages"
        = Raise (NotImplementedError msg))
  /\ (exists msg, _activate_helper a b w = (w, Raise (NotImplementedError msg)))
  /\ (exists msg, _deactivate_helper a b w = (w, Raise (NotImplementedError msg)))
  /\ (exists msg, auto_restart_rerun a w = (w, Raise (NotImplementedError msg)))
  /\ (exists msg, generate_parser_func a w = (w, Raise (NotImplementedError msg)))
  /\ (exists msg,
        prompt_restart_rerun_buttons a w = (w, Raise (NotImplementedError msg))).
Proof.
  repeat split; eexists; reflexivity.
Qed.

(* ================================================================= *)
(** * Removal and advisory cleanup *)

Import CallFacts.

(** [shutil.rmtree] where nothing refuses. *)
Lemma shutil_rmtree_ok (p : PurePath) (w : World) :
  can_rmtree (fs w) (cwd w) p = true ->
  shutil_rmtree p w
  = (set_fs (without (start (cwd w) p ++ names p)%list (fs w)) w, Return tt).
Proof.
  intros H. unfold shutil_rmtree. now rewrite (rmtree_ok _ _ _ H).
Qed.

(** [shutil.rmtree] raises nothing but [OSError]. *)
Lemma shutil_rmtree_raises (p : PurePath) (w w' : World) (e : exn) :
  shutil_rmtree p w = (w', Raise e) -> exists n, e = OSError n.
Proof.
  unfold shutil_rmtree.
  destruct (rmtree (fs w) (cwd w) p) as [t [n |]]; [ | discriminate].
  intros H. inversion H. eauto.
Qed.

(** [remove(yes=True)]: the announcement, then [rmtree]. *)
Lemma remove_yes (env : Env) (self : Project) (w : World) :
  remove env self true w
  = shutil_rmtree (project_dir self)
      (mkWorld (fs w) (cwd w)
         (stdout w ++ [("Removing " ++ to_str (project_dir self) ++ "...")%string])%list
         (atexit w)).
Proof. reflexivity. Qed.

Lemma remove_yes_ok (env : Env) (self : Project) (w : World) :
  can_rmtree (fs w) (cwd w) (project_dir self) = true ->
  let d := (start (cwd w) (project_dir self) ++ names (project_dir self))%list in
  exists w',
    remove env self true w = (w', Return tt)
    /\ fs w' = without d (fs w)
    /\ (forall q, walk (fs w') (d ++ q)%list = inl ENOENT)
    /\ is_dir w' (project_dir self) = false
    /\ is_file w' (project_dir self) = false.
Proof.
  intros H d. rewrite remove_yes.
  rewrite shutil_rmtree_ok by exact H. cbn [fs cwd].
  eexists. split; [reflexivity |]. cbn [set_fs fs cwd]. fold d.
  split; [reflexivity |].
  destruct (stat_without _ _ _ H) as [e S]. fold d in S.
  unfold is_dir, is_file. cbn [set_fs fs cwd]. rewrite S.
  repeat split.
  intros q.
  destruct (can_rmtree_inv _ _ _ H)
    as (_ & _ & Dne & r0 & w0 & es0 & rp & esp & _ & _ & WP).
  exact (walk_without (fs w) q Dne WP).
Qed.



(** ** Advisory cleanup *)

(** The finalizer never raises, on a path string without a null
    character. *)
Lemma Project_del_never_raises (self : Project) (w : World) :
  embedded_null (project_dir self) = false ->
  exists w', Project_del self w = (w', Return tt).
Proof.
  intros _. unfold Project_del, except_OSError_pass, Path_rmdir.
  destruct (rmdir (fs w) (cwd w) (project_dir self)); eauto.
Qed.

(** The finalizer leaves a directory that has entries in place. *)
Lemma Project_del_nonempty (self : Project) (w : World) (r wr : bool)
    (e : string * node) (es : entries_t) :
  stat (fs w) (cwd w) (project_dir self) = inr (Dir r wr (e :: es)) ->
  Project_del self w = (w, Return tt).
Proof.
  intros S. apply rmdir_nonempty in S as [n S].
  unfold Project_del, except_OSError_pass, Path_rmdir. now rewrite S.
Qed.

(** The finalizer removes an empty directory, when its parent can be
    written. *)
Lemma Project_del_empty (self : Project) (w : World) (r wr rp : bool)
    (esp : entries_t) :
  let pd := project_dir self in
  let d := (start (cwd w) pd ++ names pd)%list in
  literal pd = true -> names pd <> [] ->
  walk (fs w) d = inr (Dir r wr []) ->
  walk (fs w) (removelast d) = inr (Dir rp true esp) ->
  Project_del self w = (set_fs (without d (fs w)) w, Return tt).
Proof.
  intros pd d L N W WP.
  unfold Project_del, except_OSError_pass, Path_rmdir. fold pd.
  erewrite rmdir_ok; [reflexivity | exact L | exact N | exact W | exact WP].
Qed.

(** The exit hook leaves a directory that has entries, and that can be
    listed, in place. *)
Lemma cleanup_nonempty (dirpath : PurePath) (w : World) (wr : bool)
    (e : string * node) (es : entries_t) :
  stat (fs w) (cwd w) dirpath = inr (Dir true wr (e :: es)) ->
  cleanup_project_dir_atexit dirpath w = (w, Return tt).
Proof.
  intros S. unfold cleanup_project_dir_atexit, is_dir. rewrite S.
  cbn [is_dir_node]. unfold bind, Path_iterdir_next, listdir. now rewrite S.
Qed.

(** The exit hook removes an empty directory that can be listed, when its
    parent can be written. *)
Lemma cleanup_empty (dirpath : PurePath) (w : World) (wr rp : bool)
    (esp : entries_t) :
  let d := (start (cwd w) dirpath ++ names dirpath)%list in
  literal dirpath = true -> names dirpath <> [] ->
  walk (fs w) d = inr (Dir true wr []) ->
  walk (fs w) (removelast d) = inr (Dir rp true esp) ->
  cleanup_project_dir_atexit dirpath w = (set_fs (without d (fs w)) w, Return tt).
Proof.
  intros d L N W WP.
  assert (S : stat (fs w) (cwd w) dirpath = inr (Dir true wr [])).
  { unfold stat, locate.
    now rewrite (FSFacts.canon_literal_ok _ _ _ L W). }
  unfold cleanup_project_dir_atexit, is_dir. rewrite S. cbn [is_dir_node].
  unfold bind, Path_iterdir_next, listdir. rewrite S. cbn [map hd_error].
  unfold except_OSError_pass, Path_rmdir.
  erewrite rmdir_ok; [reflexivity | exact L | exact N | exact W | exact WP].
Qed.

(** The exit hook does not raise when the path is not a directory, or is a
    directory that can be listed. *)
Lemma cleanup_listable_never_raises (dirpath : PurePath) (w : World) :
  (forall r wr es, stat (fs w) (cwd w) dirpath = inr (Dir r wr es) -> r = true) ->
  exists w', cleanup_project_dir_atexit dirpath w = (w', Return tt).
Proof.
  intros Hr. unfold cleanup_project_dir_atexit, is_dir.
  destruct (stat (fs w) (cwd w) dirpath) as [e | [| r wr es]] eqn:S;
    cbn [is_dir_node]; [eauto | eauto |].
  rewrite (Hr r wr es eq_refl) in S.
  unfold bind, Path_iterdir_next, listdir. rewrite S.
  destruct es as [| [k c] es]; cbn [map hd_error fst];
    [ | exists w; reflexivity].
  unfold except_OSError_pass, Path_rmdir.
  destruct (rmdir (fs w) (cwd w) dirpath); eauto.
Qed.

(** The exit hook raises on every directory that cannot be listed. *)
Lemma cleanup_unlistable_raises (dirpath : PurePath) (w : World) (wr : bool)
    (es : entries_t) :
  stat (fs w) (cwd w) dirpath = inr (Dir false wr es) ->
  cleanup_project_dir_atexit dirpath w = (w, Raise (OSError EACCES)).
Proof.
  intros S. unfold cleanup_project_dir_atexit, is_dir. rewrite S.
  cbn [is_dir_node]. unfold bind, Path_iterdir_next, listdir. now rewrite S.
Qed.

(** C8, at the failing input: the project directory of [demo] exists, is
    empty, and has no read permission.  The exit hook raises the
    [OSError] of the listing, which is made outside its [try]. *)
Theorem C8_exit_hook_raises :
  cleanup_project_dir_atexit Sample.demo_dir Sample.unreadable
  = (Sample.unreadable, Raise (OSError EACCES)).
Proof. reflexivity. Qed.

(** On the same input the finalizer removes the directory and returns. *)
Example finalizer_on_unreadable :
  Project_del Sample.demo_project Sample.unreadable
  = (mkWorld Sample.fresh_tree_without_notebook ["home"; "u"] [] [], Return tt).
Proof. reflexivity. Qed.

(* ================================================================= *)
(** * Attributes of an abstract project *)

Lemma last_char_app (a b : string) (d : ascii) :
  last_char b = Some d -> last_char (a ++ b) = Some d.
Proof.
  intros H. induction a as [| x a IH]; [exact H |].
  cbn [append last_char]. now rewrite IH.
Qed.

(** The two messages of [AbstractProject.__getattr__] differ. *)
Lemma getattr_messages_differ (item cls : string) :
  "'" ++ item ++ "' is not supported for abstract projects"
  <> "'" ++ cls ++ "' object has no attribute '" ++ item ++ "'".
Proof.
  intros E. apply (f_equal last_char) in E.
  assert (L1 : last_char
                 ("'" ++ item ++ "' is not supported for abstract projects")
               = Some "s"%char)
    by (do 2 apply last_char_app; reflexivity).
  assert (L2 : last_char
                 ("'" ++ cls ++ "' object has no attribute '" ++ item ++ "'")
               = Some "'"%char)
    by (do 4 apply last_char_app; reflexivity).
  rewrite L1, L2 in E. discriminate E.
Qed.

Lemma AttributeError_inj (A : Type) (a b : string) :
  @Raise A (AttributeError a) = Raise (AttributeError b) -> a = b.
Proof. intros H. now inversion H. Qed.

(** Ordinary lookup finds what the [Project] class and the instance hold. *)
Lemma find_attr_base (env : Env) (c : pyclass) (item : string) :
  mem item (Project_namespace env) = true \/ mem item instance_dict = true ->
  exists b, find_attr env c item = Some b.
Proof.
  intros H. unfold find_attr.
  destruct (mem item instance_dict); [eauto |].
  destruct H as [H | H]; [ | discriminate].
  rewrite H. destruct c; match goal with |- context [if ?b then _ else _] =>
    destruct b end; eauto.
Qed.

(** Where ordinary lookup has looked when it finds nothing. *)
Lemma find_attr_None (env : Env) (item : string) :
  find_attr env AbstractProject item = None <->
  mem item instance_dict = false
  /\ mem item (AbstractProject_namespace env) = false
  /\ mem item (Project_namespace env) = false
  /\ mem item (object_attrs env) = false.
Proof.
  unfold find_attr.
  destruct (mem item instance_dict);
    [split; [discriminate | intros (? & _); discriminate] |].
  destruct (mem item (AbstractProject_namespace env));
    [split; [discriminate | intros (_ & ? & _); discriminate] |].
  destruct (mem item (Project_namespace env));
    [split; [discriminate | intros (_ & _ & ? & _); discriminate] |].
  destruct (mem item (object_attrs env));
    [split; [discriminate | intros (_ & _ & _ & ?); discriminate] |].
  split; [now repeat split | reflexivity].
Qed.

(** [hasattr(ConcreteProject, item)] for a name that ordinary lookup on
    an abstract instance misses: the name is in the class body of
    [ConcreteProject], or the class object has it from its metaclass or
    from [type]. *)
Lemma hasattr_of_missing (env : Env) (item : string) :
  find_attr env AbstractProject item = None ->
  hasattr_ConcreteProject env item
  = mem item (ConcreteProject_namespace env)
    || mem item (ProjectChecker_namespace env)
    || mem item (type_attrs env).
Proof.
  intros H. apply find_attr_None in H as (_ & _ & P & O).
  unfold hasattr_ConcreteProject. rewrite P, O.
  now rewrite !orb_false_r.
Qed.

(** The names bound implicitly are the dunder names of the class
    statement. *)
Lemma implicit_names_spec (env : Env) (item : string) :
  mem item (implicit_names env) = true ->
  item = "__module__" \/ item = "__doc__"
  \/ item = "__firstlineno__" \/ item = "__static_attributes__".
Proof.
  unfold implicit_names, mem.
  rewrite existsb_app. intros H. apply orb_true_iff in H as [H | H].
  - cbn [existsb] in H. rewrite orb_false_r in H.
    apply orb_true_iff in H as [H | H]; apply String.eqb_eq in H; auto.
  - destruct (_ || _) in H; [ | discriminate].
    cbn [existsb] in H. rewrite orb_false_r in H.
    apply orb_true_iff in H as [H | H]; apply String.eqb_eq in H; auto.
Qed.

(** Neither [installed_packages] nor [__call__] is a name of the
    [Project] or the [AbstractProject] class body or of the instance. *)
Lemma concrete_only_missing (env : Env) (item : string) :
  item = "installed_packages" \/ item = "__call__" ->
  mem item (object_attrs env) = false ->
  find_attr env AbstractProject item = None.
Proof.
  intros H O. apply find_attr_None.
  assert (I : mem item (implicit_names env) = false).
  { destruct (mem item (implicit_names env)) eqn:E; [ | reflexivity].
    apply implicit_names_spec in E.
    destruct H as [-> | ->];
      destruct E as [E | [E | [E | E]]]; discriminate E. }
  unfold AbstractProject_namespace, Project_namespace.
  unfold mem in *. rewrite !existsb_app, I.
  destruct H as [-> | ->]; repeat split; try reflexivity; exact O.
Qed.

(** C10 (as amended): on an [AbstractProject], every attribute that the
    [Project] class or the instance holds is found by ordinary lookup.
    The "not supported for abstract projects" error is raised exactly for
    the names that ordinary lookup does not find and that the class
    object [ConcreteProject] has: the names of its own class body, and
    also the names it has from its metaclass and from [type], which no
    instance has; any other missing name gets the ordinary message.  So
    [installed_packages] is rejected as unsupported, and so is
    [__call__].  [remove(yes=True)] is the [remove] of the base class:
    it raises no [AttributeError], and where nothing refuses the deletion
    it returns with the project directory gone. *)
Theorem C10_abstract_base_operations (env : Env) (self : Project) (w : World) :
  class_of self = AbstractProject ->
  let pd := project_dir self in
  let d := (start (cwd w) pd ++ names pd)%list in
  let unsupported item :=
    AttributeError ("'" ++ item ++ "' is not supported for abstract projects") in
  (forall item,
      mem item (Project_namespace env) = true \/ mem item instance_dict = true ->
      exists b, getattr env self item = Return b)
  /\ (forall item,
        getattr env self item = Raise (unsupported item)
        <-> find_attr env AbstractProject item = None
            /\ (mem item (ConcreteProject_namespace env) = true
                \/ mem item (ProjectChecker_namespace env) = true
                \/ mem item (type_attrs env) = true))
  /\ (forall item,
        find_attr env AbstractProject item = None ->
        mem item (ConcreteProject_namespace env) = false ->
        mem item (ProjectChecker_namespace env) = false ->
        mem item (type_attrs env) = false ->
        getattr env self item
        = Raise (AttributeError
                   ("'AbstractProject' object has no attribute '" ++ item ++ "'")))
  /\ (forall item,
        item = "installed_packages" \/ item = "__call__" ->
        mem item (object_attrs env) = false ->
        getattr env self item = Raise (unsupported item))
  /\ call_remove env self true w = remove env self true w
  /\ (forall w' msg,
        call_remove env self true w <> (w', Raise (AttributeError msg)))
  /\ (can_rmtree (fs w) (cwd w) pd = true ->
      exists w',
        call_remove env self true w = (w', Return tt)
        /\ fs w' = without d (fs w)
        /\ (forall q, walk (fs w') (d ++ q)%list = inl ENOENT)
        /\ is_dir w' pd = false /\ is_file w' pd = false).
Proof.
  intros Hc pd d unsupported.
  assert (Ecall : call_remove env self true w = remove env self true w).
  { unfold call_remove, getattr. rewrite Hc.
    destruct (find_attr_base env AbstractProject "remove") as [b ->];
      [left; reflexivity | reflexivity]. }
  assert (Hmiss : forall item,
             find_attr env AbstractProject item = None ->
             getattr env self item
             = Raise (if mem item (ConcreteProject_namespace env)
                         || mem item (ProjectChecker_namespace env)
                         || mem item (type_attrs env)
                      then unsupported item
                      else AttributeError
                             ("'AbstractProject' object has no attribute '"
                              ++ item ++ "'"))).
  { intros item H. unfold getattr, AbstractProject_getattr.
    rewrite Hc, H, (hasattr_of_missing env item H).
    now destruct (_ || _). }
  split; [ | split; [ | split; [ | split; [ | split; [exact Ecall | split]]]]].
  - intros item H. unfold getattr. rewrite Hc.
    destruct (find_attr_base env AbstractProject item H) as [b ->]. eauto.
  - intros item.
    destruct (find_attr env AbstractProject item) as [b |] eqn:F.
    + unfold getattr. rewrite Hc, F.
      split; [discriminate | intros [? _]; discriminate].
    + rewrite (Hmiss item F).
      destruct (mem item (ConcreteProject_namespace env)
                || mem item (ProjectChecker_namespace env)
                || mem item (type_attrs env)) eqn:E.
      * split; [ | reflexivity]. intros _. split; [reflexivity |].
        apply orb_true_iff in E as [E | E]; [ | auto].
        apply orb_true_iff in E as [E | E]; auto.
      * split.
        -- intros H. exfalso.
           apply (getattr_messages_differ item "AbstractProject").
           unfold unsupported in H. symmetry.
           exact (AttributeError_inj H).
        -- intros [_ H]. exfalso.
           apply orb_false_iff in E as [E E3].
           apply orb_false_iff in E as [E1 E2].
           destruct H as [H | [H | H]]; congruence.
  - intros item F C K T. rewrite (Hmiss item F), C, K, T. reflexivity.
  - intros item H O.
    rewrite (Hmiss item (concrete_only_missing env H O)).
    destruct H as [-> | ->]; [reflexivity |].
    replace (mem "__call__" (ProjectChecker_namespace env)) with true
      by reflexivity.
    now rewrite orb_true_r.
  - intros w' msg. rewrite Ecall, remove_yes. intros H.
    apply shutil_rmtree_raises in H as [n H]. discriminate.
  - intros H. rewrite Ecall. exact (remove_yes_ok env self w H).
Qed.

(** C10, witness: the abstract project of the notebook [/home/u/nb.ipynb]
    (taken as missing) whose directory holds an installed package:
    [remove(yes=True)] deletes the directory; [installed_packages] is
    rejected as unsupported; a name that nothing has gets the ordinary
    message. *)
Lemma C10_abstract_base_operations_witness :
  let self := _set_names Sample.env AbstractProject "/home/u/nb.ipynb" in
  call_remove Sample.env self true Sample.used
  = (Sample.used_removed, Return tt)
  /\ getattr Sample.env self "installed_packages"
     = Raise (AttributeError
                "'installed_packages' is not supported for abstract projects")
  /\ getattr Sample.env self "install"
     = Raise (AttributeError
                "'AbstractProject' object has no attribute 'install'")
  /\ exists b, getattr Sample.env self "remove" = Return b.
Proof.
  intros self.
  destruct (C10_abstract_base_operations Sample.env self Sample.used eq_refl)
    as (Hbase & _ & Hplain & Hunsupported & Hcall & _ & Hrm).
  split; [ | split; [ | split]].
  - rewrite Hcall. reflexivity.
  - apply (Hunsupported "installed_packages"); [now left | reflexivity].
  - apply (Hplain "install"); reflexivity.
  - apply Hbase. left. reflexivity.
Defined.

(** C10, counterexample: the rejection is not limited to what exists
    solely on the Concrete variant.  [__call__] and [mro] are attributes
    of no [ConcreteProject] instance, yet on an abstract project they are
    rejected as "not supported for abstract projects", because
    [hasattr(ConcreteProject, item)] asks the class object, which has them
    from its metaclass and from [type]. *)
Lemma C10_rejects_metaclass_names :
  let abstract := _set_names Sample.env AbstractProject "/home/u/new.ipynb" in
  let concrete := _set_names Sample.env ConcreteProject "demo" in
  getattr Sample.env abstract "__call__"
  = Raise (AttributeError "'__call__' is not supported for abstract projects")
  /\ getattr Sample.env concrete "__call__"
     = Raise (AttributeError
                "'ConcreteProject' object has no attribute '__call__'")
  /\ getattr Sample.env abstract "mro"
     = Raise (AttributeError "'mro' is not supported for abstract projects")
  /\ getattr Sample.env concrete "mro"
     = Raise (AttributeError "'ConcreteProject' object has no attribute 'mro'").
Proof. repeat split. Qed.

(* ================================================================= *)
(** * More on the shell helper *)

Import ShellPred.

(** The loop ends only by raising; it leaves the working directory and
    the exit hooks alone, and what was printed before is still there. *)
Lemma poll_loop_outcome (sh : ShellEnv) (cmd : list string) :
  forall fuel i process w w' p' r,
    poll_loop sh fuel cmd i process w = Some (w', p', r) ->
    cwd w' = cwd w /\ atexit w' = atexit w
    /\ (exists out, stdout w' = stdout w ++ out)%list
    /\ exists e, r = Raise e.
Proof.
  induction fuel as [| fuel IH]; intros i process w w' p' r H; [discriminate |].
  cbn [poll_loop] in H.
  destruct (interrupted sh i).
  - inversion H; subst. repeat split; eauto.
    exists []. now rewrite app_nil_r.
  - destruct (poll process) as [rc |].
    + destruct (negb (Z.eqb rc 0)).
      * inversion H; subst. repeat split; eauto.
        exists []. now rewrite app_nil_r.
      * now apply IH in H.
    + destruct (readline process) as [t process'].
      destruct (output t) as [l |].
      * apply IH in H. destruct (l =? "").
        -- exact H.
        -- destruct H as (C & A & [out O] & E).
           cbn [stdout_write set_fs fs cwd stdout atexit] in *.
           repeat split; try assumption.
           exists (l :: out). rewrite O. now rewrite <- app_assoc.
      * inversion H; subst. cbn [set_fs cwd stdout atexit].
        repeat split; eauto. exists []. now rewrite app_nil_r.
Qed.

(** More iterations do not change an outcome. *)
Lemma poll_loop_more_fuel (sh : ShellEnv) (cmd : list string) :
  forall fuel extra i process w res,
    poll_loop sh fuel cmd i process w = Some res ->
    poll_loop sh (fuel + extra) cmd i process w = Some res.
Proof.
  induction fuel as [| fuel IH]; intros extra i process w res H; [discriminate |].
  cbn [poll_loop Nat.add] in *.
  destruct (interrupted sh i); [exact H |].
  destruct (poll process) as [rc |].
  - destruct (negb (Z.eqb rc 0)); [exact H | now apply IH].
  - destruct (readline process) as [t process'].
    destruct (output t); [now apply IH | exact H].
Qed.

(** One decoded read: the child's change of the tree, then the line. *)
Lemma read_world (w : World) (f : node -> node) (l : string)
    (ts : list turn) :
  let w1 := if l =? "" then set_fs (f (fs w)) w
            else stdout_write l (set_fs (f (fs w)) w) in
  mkWorld (touched ts (fs w1)) (cwd w1)
          (stdout w1 ++ forwarded (lines_of ts))%list (atexit w1)
  = mkWorld (touched (mkTurn (Line l) f :: ts) (fs w)) (cwd w)
            (stdout w ++ forwarded (lines_of (mkTurn (Line l) f :: ts)))%list
            (atexit w).
Proof.
  cbn [touched fold_left touch lines_of flat_map output app forwarded filter].
  destruct (l =? ""); cbn [negb set_fs stdout_write fs cwd stdout atexit];
    [reflexivity |].
  now rewrite <- app_assoc.
Qed.

(** Without an interrupt, a child that exits with a status other than 0
    after reads that can be decoded: the non-empty reads are written in
    order, then the error is raised; the tree is the one the child has
    left. *)
Lemma poll_loop_forwards (sh : ShellEnv) (cmd : list string) (rc : Z)
    (sg : list signal) :
  interrupt_at sh = None ->
  rc <> 0%Z ->
  forall ts i w,
    decodable ts = true ->
    poll_loop sh (S (List.length ts)) cmd i (mkProcess ts rc sg) w
    = Some (mkWorld (touched ts (fs w)) (cwd w)
              (stdout w ++ forwarded (lines_of ts))%list (atexit w),
            mkProcess [] rc sg, Raise (CalledProcessError rc cmd)).
Proof.
  intros Hi Hrc. induction ts as [| [[l |] f] rest IH]; intros i w D.
  - cbn [List.length poll_loop forwarded lines_of flat_map filter touched
         fold_left].
    unfold interrupted, poll.
    rewrite Hi. cbn [pending returncode].
    destruct (Z.eqb_spec rc 0) as [E | _]; [contradiction |].
    cbn [negb]. rewrite app_nil_r. now destruct w.
  - cbn [List.length]. rewrite poll_loop_reads by exact Hi.
    rewrite IH by exact D. now rewrite read_world.
  - discriminate D.
Qed.

(** Without an interrupt, a read that cannot be decoded after reads that
    can: the earlier lines are written, then [UnicodeDecodeError] is
    raised, whatever the exit status. *)
Lemma poll_loop_undecodable (sh : ShellEnv) (cmd : list string) (rc : Z)
    (sg : list signal) (f : node -> node) (ts2 : list turn) :
  interrupt_at sh = None ->
  forall ts1 i w,
    decodable ts1 = true ->
    poll_loop sh (S (List.length ts1)) cmd i
      (mkProcess (ts1 ++ mkTurn Undecodable f :: ts2) rc sg) w
    = Some (mkWorld (f (touched ts1 (fs w))) (cwd w)
              (stdout w ++ forwarded (lines_of ts1))%list (atexit w),
            mkProcess ts2 rc sg, Raise UnicodeDecodeError).
Proof.
  intros Hi. induction ts1 as [| [[l |] g] rest IH]; intros i w D.
  - cbn [app List.length]. rewrite poll_loop_garbled by exact Hi.
    cbn [touched fold_left lines_of flat_map forwarded filter set_fs].
    now rewrite app_nil_r.
  - cbn [app List.length]. rewrite poll_loop_reads by exact Hi.
    rewrite IH by exact D.
    cbn [touched fold_left touch lines_of flat_map output app forwarded filter].
    destruct (l =? ""); cbn [negb set_fs stdout_write fs cwd stdout atexit];
      [reflexivity |].
    now rewrite <- app_assoc.
  - discriminate D.
Qed.

(** Every outcome of the helper is an exception; the working directory
    and the exit hooks are as before, and standard output has only
    grown. *)
Lemma helper_outcome (sh : ShellEnv) (fuel : nat) (command : string)
    (w : World) :
  _run_shell_command_helper sh fuel command w = None
  \/ exists w' p e,
       _run_shell_command_helper sh fuel command w = Some (w', p, Raise e)
       /\ cwd w' = cwd w /\ atexit w' = atexit w
       /\ (exists out, stdout w' = stdout w ++ out)%list.
Proof.
  unfold _run_shell_command_helper.
  destruct (shlex_split sh command) as [cmd | e].
  2:{ right. exists w, None, e. repeat split.
      exists []. now rewrite app_nil_r. }
  destruct (Popen sh cmd (fs w)) as [t [process | e]].
  2:{ right. exists (set_fs t w), None, e. repeat split.
      exists []. cbn [set_fs stdout]. now rewrite app_nil_r. }
  destruct (poll_loop sh fuel cmd 0 process (set_fs t w)) as [[[w1 p1] r] |] eqn:E;
    [ | now left].
  apply poll_loop_outcome in E as (C & A & O & e & ->).
  right. exists w1, (Some p1), e. now repeat split.
Qed.

(** The helper on a child that exits with a status other than 0. *)
Lemma helper_forwards (sh : ShellEnv) (command : string)
    (cmd : list string) (ts : list turn) (rc : Z) (sg : list signal)
    (fuel : nat) (w : World) (t : node) :
  interrupt_at sh = None ->
  shlex_split sh command = Return cmd ->
  Popen sh cmd (fs w) = (t, Return (mkProcess ts rc sg)) ->
  decodable ts = true ->
  rc <> 0%Z ->
  List.length ts < fuel ->
  _run_shell_command_helper sh fuel command w
  = Some (mkWorld (touched ts t) (cwd w)
            (stdout w ++ forwarded (lines_of ts))%list (atexit w),
          Some (mkProcess [] rc sg), Raise (CalledProcessError rc cmd)).
Proof.
  intros Hi Hs Hp D Hrc Hfuel. unfold _run_shell_command_helper.
  rewrite Hs, Hp.
  replace fuel with (S (List.length ts) + (fuel - S (List.length ts)))
    by lia.
  rewrite (poll_loop_more_fuel sh cmd _ _ _ _ _
             (poll_loop_forwards sh cmd sg Hi Hrc ts 0 (set_fs t w) D)).
  reflexivity.
Qed.

(** X1: the helper has no normal return: whatever the command, the child
    and the number of iterations, [_run_shell_command_helper] is either
    still running or has raised; what was on standard output before the
    call is still there, with what the helper wrote after it. *)
Theorem X1_helper_never_returns (sh : ShellEnv) (fuel : nat)
    (command : string) (w : World) :
  _run_shell_command_helper sh fuel command w = None
  \/ exists w' p e out,
       _run_shell_command_helper sh fuel command w = Some (w', p, Raise e)
       /\ stdout w' = (stdout w ++ out)%list.
Proof.
  destruct (helper_outcome sh fuel command w)
    as [H | (w' & p & e & H & _ & _ & out & O)]; [now left | right].
  now exists w', p, e, out.
Qed.

(** X2: without an interrupt, the helper writes to standard output, in
    order, the non-empty lines it reads while they can be decoded.  If
    all of them can and the child exits with a status other than 0, it
    then raises [CalledProcessError] with the exit status and the split
    command, having sent no signal; if a read cannot be decoded, it
    raises [UnicodeDecodeError] at that read, whatever the exit status.
    The tree is the one the child has left.  Every number of iterations
    above the number of reads gives this outcome. *)
Theorem X2_helper_forwards_output (sh : ShellEnv) (command : string)
    (cmd : list string) (rc : Z) (sg : list signal) (fuel : nat)
    (w : World) (t : node) :
  interrupt_at sh = None ->
  shlex_split sh command = Return cmd ->
  (forall ts,
      Popen sh cmd (fs w) = (t, Return (mkProcess ts rc sg)) ->
      decodable ts = true ->
      rc <> 0%Z ->
      List.length ts < fuel ->
      _run_shell_command_helper sh fuel command w
      = Some (mkWorld (touched ts t) (cwd w)
                (stdout w ++ forwarded (lines_of ts))%list (atexit w),
              Some (mkProcess [] rc sg), Raise (CalledProcessError rc cmd)))
  /\ (forall ts1 f ts2,
        Popen sh cmd (fs w)
        = (t, Return (mkProcess (ts1 ++ mkTurn Undecodable f :: ts2) rc sg)) ->
        decodable ts1 = true ->
        List.length ts1 < fuel ->
        _run_shell_command_helper sh fuel command w
        = Some (mkWorld (f (touched ts1 t)) (cwd w)
                  (stdout w ++ forwarded (lines_of ts1))%list (atexit w),
                Some (mkProcess ts2 rc sg), Raise UnicodeDecodeError)).
Proof.
  intros Hi Hs. split.
  - intros ts Hp D Hrc Hfuel. now apply helper_forwards.
  - intros ts1 f ts2 Hp D Hfuel. unfold _run_shell_command_helper.
    rewrite Hs, Hp.
    replace fuel with (S (List.length ts1) + (fuel - S (List.length ts1)))
      by lia.
    rewrite (poll_loop_more_fuel sh cmd _ _ _ _ _
               (poll_loop_undecodable sh cmd rc sg f ts2 Hi ts1 0
                  (set_fs t w) D)).
    reflexivity.
Qed.

(** X2, witness: a [conda] that prints a line and exits with status 1,
    and one whose second line cannot be decoded. *)
Lemma X2_helper_forwards_output_witness :
  _run_shell_command_helper Sample2.failing_conda_shell 5 "conda list Python"
    Sample.fresh
  = Some (mkWorld (fs Sample.fresh) (cwd Sample.fresh)
            ["CondaError: no environment"] [],
          Some (mkProcess [] 1%Z []),
          Raise (CalledProcessError 1%Z ["conda"; "list"; "Python"]))
  /\ _run_shell_command_helper Sample2.garbled_conda_shell 5 "conda list Python"
       Sample.fresh
     = Some (mkWorld (fs Sample.fresh) (cwd Sample.fresh)
               ["# packages in environment:"] [],
             Some (mkProcess [] 1%Z []), Raise UnicodeDecodeError).
Proof.
  split.
  - apply (proj1 (@X2_helper_forwards_output Sample2.failing_conda_shell
                    "conda list Python" ["conda"; "list"; "Python"] 1%Z []
                    5 Sample.fresh (fs Sample.fresh) eq_refl eq_refl)
             (Sample.says ["CondaError: no environment"; ""]));
      [reflexivity | reflexivity | discriminate | cbn; lia].
  - apply (proj2 (@X2_helper_forwards_output Sample2.garbled_conda_shell
                    "conda list Python" ["conda"; "list"; "Python"] 1%Z []
                    5 Sample.fresh (fs Sample.fresh) eq_refl eq_refl)
             (Sample.says ["# packages in environment:"]) (fun t => t) []);
      [reflexivity | reflexivity | cbn; lia].
Defined.

(** [send_signal] when the child still has turns, and when it has none. *)
Lemma send_signal_running (s : signal) (ts : list turn) (rc : Z)
    (sg : list signal) :
  send_signal s (mkProcess ts rc sg)
  = mkProcess ts rc (if Nat.ltb 0 (List.length ts) then sg ++ [s] else sg)%list.
Proof. now destruct ts. Qed.

(** An interrupt during iteration [k], counted from iteration [i]: the
    reads before it are written and the interrupt is raised; the signal
    is sent if the child still runs.  It comes while the child runs, or
    after an exit with status 0. *)
Lemma poll_loop_interrupt (sh : ShellEnv) (cmd : list string) (rc : Z)
    (sg : list signal) (k : nat) :
  interrupt_at sh = Some k ->
  forall n i ts w,
    i + n = k ->
    n <= List.length ts \/ rc = 0%Z ->
    decodable (firstn n ts) = true ->
    poll_loop sh (S n) cmd i (mkProcess ts rc sg) w
    = Some (mkWorld (touched (firstn n ts) (fs w)) (cwd w)
              (stdout w ++ forwarded (lines_of (firstn n ts)))%list (atexit w),
            mkProcess (skipn n ts) rc
              (if Nat.ltb n (List.length ts) then sg ++ [SIGINT] else sg)%list,
            Raise KeyboardInterrupt).
Proof.
  intros Hi. induction n as [| n IH]; intros i ts w Hk Hn D.
  - rewrite Nat.add_0_r in Hk. subst i.
    rewrite (poll_loop_interrupted sh cmd 0 _ w Hi), send_signal_running.
    cbn [firstn skipn forwarded lines_of flat_map filter touched fold_left].
    rewrite app_nil_r. now destruct w.
  - assert (Hne : interrupted sh i = false).
    { unfold interrupted. rewrite Hi. apply Nat.eqb_neq. lia. }
    destruct ts as [| [[l |] f] rest].
    + destruct Hn as [Hn | ->]; [cbn [List.length] in Hn; lia |].
      change (poll_loop sh (S (S n)) cmd i (mkProcess [] 0 sg) w)
        with (if interrupted sh i
              then Some (w, send_signal SIGINT (mkProcess [] 0 sg),
                         Raise KeyboardInterrupt)
              else poll_loop sh (S n) cmd (S i) (mkProcess [] 0 sg) w).
      rewrite Hne. rewrite IH; [ | lia | now right | now destruct n].
      now destruct n.
    + change (poll_loop sh (S (S n)) cmd i
                (mkProcess (mkTurn (Line l) f :: rest) rc sg) w)
        with (if interrupted sh i
              then Some (w, send_signal SIGINT
                              (mkProcess (mkTurn (Line l) f :: rest) rc sg),
                         Raise KeyboardInterrupt)
              else poll_loop sh (S n) cmd (S i) (mkProcess rest rc sg)
                     (if l =? "" then set_fs (f (fs w)) w
                      else stdout_write l (set_fs (f (fs w)) w))).
      assert (Hn' : n <= List.length rest \/ rc = 0%Z).
      { destruct Hn as [Hn | Hn]; [left; cbn [List.length] in Hn; lia | now right]. }
      rewrite Hne. rewrite IH; [ | lia | exact Hn' | exact D].
      cbn [firstn skipn List.length]. rewrite read_world.
      reflexivity.
    + discriminate D.
Qed.

(** X3: an interrupt during iteration [k] of the loop, while the child
    still runs or after it has exited with status 0, makes the helper
    raise [KeyboardInterrupt]; the non-empty lines read before the
    interrupt have been written to standard output.  SIGINT is sent to the
    child, once, if the child still runs; a child that has exited is sent
    nothing. *)
Theorem X3_helper_forwards_interrupt (sh : ShellEnv) (command : string)
    (cmd : list string) (ts : list turn) (rc : Z) (sg : list signal)
    (k fuel : nat) (w : World) (t : node) :
  interrupt_at sh = Some k ->
  shlex_split sh command = Return cmd ->
  Popen sh cmd (fs w) = (t, Return (mkProcess ts rc sg)) ->
  k <= List.length ts \/ rc = 0%Z ->
  decodable (firstn k ts) = true ->
  k < fuel ->
  _run_shell_command_helper sh fuel command w
  = Some (mkWorld (touched (firstn k ts) t) (cwd w)
            (stdout w ++ forwarded (lines_of (firstn k ts)))%list (atexit w),
          Some (mkProcess (skipn k ts) rc
                  (if Nat.ltb k (List.length ts) then sg ++ [SIGINT] else sg)%list),
          Raise KeyboardInterrupt).
Proof.
  intros Hi Hs Hp Hk D Hfuel. unfold _run_shell_command_helper.
  rewrite Hs, Hp.
  replace fuel with (S k + (fuel - S k)) by lia.
  rewrite (poll_loop_more_fuel sh cmd _ _ _ _ _
             (@poll_loop_interrupt sh cmd rc sg k Hi k 0 ts (set_fs t w)
                eq_refl Hk D)).
  reflexivity.
Qed.

(** X3, witness: the user interrupts [echo] during the second iteration,
    after its line of output and while it still runs: SIGINT is sent. *)
Lemma X3_helper_forwards_interrupt_witness :
  _run_shell_command_helper Sample2.interrupted_shell 10 "echo" Sample.fresh
  = Some (mkWorld (fs Sample.fresh) (cwd Sample.fresh) ["hello"] [],
          Some (mkProcess (Sample.says [""]) 0%Z [SIGINT]),
          Raise KeyboardInterrupt).
Proof.
  apply (@X3_helper_forwards_interrupt Sample2.interrupted_shell "echo"
           ["echo"] (Sample.says ["hello"; ""]) 0%Z [] 1 10 Sample.fresh
           (fs Sample.fresh));
    [reflexivity | reflexivity | reflexivity | left; cbn; lia | reflexivity
    | lia].
Defined.

(** After the exit with status 0 the interrupt is raised again, and no
    signal is sent. *)
Example interrupt_after_exit :
  _run_shell_command_helper Sample2.late_interrupted_shell 10 "echo"
    Sample.fresh
  = Some (mkWorld (fs Sample.fresh) (cwd Sample.fresh) ["hello"] [],
          Some (mkProcess [] 0%Z []), Raise KeyboardInterrupt).
Proof. reflexivity. Qed.

(** X4: when [_check_conda_avail_helper] ends, standard output is what it
    was before the call (what the command printed went to the buffer),
    and the result is [None] or an exception other than
    [CalledProcessError]: the captured output is never returned. *)
Theorem X4_check_conda_outcome (sh : ShellEnv) (fuel : nat) (w w' : World)
    (r : outcome (option string)) :
  _check_conda_avail_helper sh fuel w = Some (w', r) ->
  stdout w' = stdout w
  /\ (r = Return None
      \/ exists e, r = Raise e /\ is_CalledProcessError e = false).
Proof.
  unfold _check_conda_avail_helper.
  set (buffer := mkWorld (fs w) (cwd w) [] (atexit w)).
  destruct (helper_outcome sh fuel "conda list Python" buffer)
    as [-> | (w1 & p & e & -> & _)]; [discriminate |].
  destruct e; intros H; inversion H; subst; cbn [stdout];
    (split; [reflexivity |]);
    solve [now left | right; eexists; split; reflexivity].
Qed.

(** X4, witness: a [conda] whose output cannot be decoded: the loop runs
    inside the redirect, and [UnicodeDecodeError] passes through. *)
Lemma X4_check_conda_outcome_witness :
  _check_conda_avail_helper Sample2.garbled_conda_shell 5 Sample.fresh
  = Some (Sample.fresh, Raise UnicodeDecodeError)
  /\ stdout Sample.fresh = stdout Sample.fresh
  /\ (Raise UnicodeDecodeError = Return (@None string)
      \/ exists e, Raise UnicodeDecodeError = @Raise (option string) e
                   /\ is_CalledProcessError e = false).
Proof.
  split; [reflexivity |].
  apply (@X4_check_conda_outcome Sample2.garbled_conda_shell 5 Sample.fresh
           Sample.fresh (Raise UnicodeDecodeError)).
  reflexivity.
Defined.

(** X5: when [conda list Python] prints lines that can be decoded and
    exits with a status other than 0 (and nobody interrupts),
    [_check_conda_avail_helper] returns [None] and standard output is as
    before: what the command printed is dropped with the buffer.  The
    tree is the one the command has left. *)
Theorem X5_check_conda_none (sh : ShellEnv) (cmd : list string)
    (ts : list turn) (rc : Z) (sg : list signal) (fuel : nat) (w : World)
    (t : node) :
  interrupt_at sh = None ->
  shlex_split sh "conda list Python" = Return cmd ->
  Popen sh cmd (fs w) = (t, Return (mkProcess ts rc sg)) ->
  decodable ts = true ->
  rc <> 0%Z ->
  List.length ts < fuel ->
  _check_conda_avail_helper sh fuel w
  = Some (mkWorld (touched ts t) (cwd w) (stdout w) (atexit w), Return None).
Proof.
  intros Hi Hs Hp D Hrc Hfuel. unfold _check_conda_avail_helper.
  erewrite helper_forwards;
    [ | exact Hi | exact Hs | exact Hp | exact D | exact Hrc | exact Hfuel].
  reflexivity.
Qed.

(** X5, witness: a [conda] that prints an error and exits with status 1. *)
Lemma X5_check_conda_none_witness :
  _check_conda_avail_helper Sample2.failing_conda_shell 5 Sample.fresh
  = Some (Sample.fresh, Return None).
Proof.
  apply (@X5_check_conda_none Sample2.failing_conda_shell
           ["conda"; "list"; "Python"]
           (Sample.says ["CondaError: no environment"; ""]) 1%Z [] 5
           Sample.fresh (fs Sample.fresh));
    [reflexivity | reflexivity | reflexivity | reflexivity | discriminate
    | cbn; lia].
Defined.

(* ================================================================= *)
(** * More on the replacements *)

Module ReplaceFacts.

Import PyStr Flatten FlattenFacts NamePred.

Lemma all_chars_app (f : ascii -> bool) (a b : string) :
  all_chars f (a ++ b) = all_chars f a && all_chars f b.
Proof.
  induction a as [| c a IH]; [reflexivity |].
  cbn [append all_chars]. now rewrite IH, andb_assoc.
Qed.

(** A replacement by characters that satisfy [f] keeps [f]. *)
Lemma all_chars_replace_from (f : ascii -> bool) (old new : string) :
  all_chars f new = true ->
  forall s skip, all_chars f s = true ->
                 all_chars f (replace_from old new skip s) = true.
Proof.
  intros Hn. induction s as [| c s IH]; intros skip H; [reflexivity |].
  cbn [all_chars] in H. apply andb_true_iff in H as [Hc Hs].
  cbn [replace_from]. destruct skip as [| k]; [ | now apply IH].
  destruct (prefix old (String c s)).
  - rewrite all_chars_app, Hn. now apply IH.
  - cbn [all_chars]. rewrite Hc. now apply IH.
Qed.

(** A flattened string holds no separator. *)
Lemma no_sep_flat (s : string) : no_sep (flat s) = true.
Proof.
  unfold no_sep. induction s as [| c s IH]; [reflexivity |].
  rewrite flat_cons. destruct (Ascii.eqb c "/") eqn:E.
  - now rewrite all_chars_app, IH.
  - cbn [all_chars]. unfold not_sep at 1. now rewrite E, IH.
Qed.

Lemma no_sep_strip (s : string) : no_sep s = true -> no_sep (strip s) = true.
Proof.
  intros H. unfold strip, replace, no_sep.
  now apply all_chars_replace_from.
Qed.

Lemma no_sep_prefix (s : string) (c : ascii) (t : string) :
  no_sep s = true -> prefix (String "/" t) s = false.
Proof.
  destruct s as [| d s]; [reflexivity |]. unfold no_sep, not_sep.
  cbn [all_chars]. intros H. apply andb_true_iff in H as [H _].
  rewrite prefix_cons, Ascii.eqb_sym.
  apply negb_true_iff in H. now rewrite H.
Qed.

Lemma no_sep_contains (s : string) : no_sep s = true -> contains "/" s = false.
Proof.
  induction s as [| c s IH]; intros H; [reflexivity |].
  rewrite contains_cons, (no_sep_prefix _ c "" H).
  unfold no_sep in *. cbn [all_chars] in H.
  apply andb_true_iff in H as [_ H]. now apply IH.
Qed.

(** Without the separator there is one component. *)
Lemma split_on_no_sep (s : string) : no_sep s = true -> split_on "/" s = [s].
Proof.
  induction s as [| c s IH]; intros H; [reflexivity |].
  unfold no_sep in *. cbn [all_chars] in H.
  apply andb_true_iff in H as [Hc H]. unfold not_sep in Hc.
  apply negb_true_iff in Hc. cbn [split_on]. now rewrite Hc, IH.
Qed.

(** [Path(s)] for a string without separator. *)
Lemma parse_no_sep (s : string) :
  no_sep s = true ->
  Pathlib.parse s = Pathlib.mkPath "" (if Pathlib.kept s then [s] else []).
Proof.
  intros H. unfold Pathlib.parse, Pathlib.splitroot.
  rewrite !(no_sep_prefix _ "/"%char _ H), (split_on_no_sep _ H).
  cbn [filter]. now destruct (Pathlib.kept s).
Qed.

(** A string without the old substring is left as it is. *)
Lemma replace_from_absent (old new : string) (s : string) :
  contains old s = false -> replace_from old new 0 s = s.
Proof.
  induction s as [| c s IH]; intros H; [reflexivity |].
  rewrite contains_cons in H. apply orb_false_iff in H as [Hp Hc].
  cbn [replace_from]. now rewrite Hp, IH.
Qed.

(** The flattening brings in no extension. *)
Lemma contains_ext_flat (s : string) :
  contains ".ipynb" s = false -> contains ".ipynb" (flat s) = false.
Proof.
  induction s as [| c r IH]; intros H; [reflexivity |].
  rewrite contains_cons in H. apply orb_false_iff in H as [Hp Hc].
  specialize (IH Hc). rewrite flat_cons.
  destruct (Ascii.eqb_spec c "/") as [-> | Hsl].
  - cbn [append]. rewrite !contains_cons, !prefix_cons. cbn [Ascii.eqb andb orb].
    change (Ascii.eqb "." "_") with false. cbn [andb orb]. exact IH.
  - rewrite contains_cons, IH, orb_false_r.
    destruct (prefix ".ipynb" (String c (flat r))) eqn:E; [ | reflexivity].
    rewrite prefix_cons in E, Hp. apply andb_true_iff in E as [Ec E].
    rewrite Ec in Hp. cbn [andb] in Hp.
    apply (prefix_app _ _ ".ipynb") in E.
    apply prefix_flat_plain in E; [congruence | reflexivity].
Qed.

(** Every separator becomes a placeholder. *)
Lemma contains_token_flat (s : string) :
  contains "/" s = true -> contains "___" (flat s) = true.
Proof.
  induction s as [| c r IH]; intros H; [discriminate |].
  rewrite flat_cons. destruct (Ascii.eqb_spec c "/") as [-> | Hsl].
  - cbn [append]. rewrite contains_cons, !prefix_cons, prefix_nil. reflexivity.
  - rewrite contains_cons, prefix_cons, prefix_nil in H.
    destruct (Ascii.eqb_spec "/"%char c) as [E | _]; [congruence |].
    cbn [andb orb] in H. rewrite contains_cons, (IH H). apply orb_true_r.
Qed.

End ReplaceFacts.

(* ================================================================= *)
(** * More on the file-system calls *)

Module TreeFacts.

Import Pathlib FS FSPred FSFacts CallFacts TreePred.

Lemma kind_at_cons (r w : bool) (es : entries_t) (c : string) (q : list string) :
  kind_at (Dir r w es) (c :: q) =
  match assoc c es with Some m => kind_at m q | None => None end.
Proof. unfold kind_at. cbn [walk]. now destruct (assoc c es). Qed.

Lemma kind_at_File (c : string) (q : list string) : kind_at File (c :: q) = None.
Proof. reflexivity. Qed.

Lemma kind_at_modify (p : list string) (f : node -> node) :
  keeps f ->
  forall t q b, kind_at t q = Some b -> kind_at (modify p f t) q = Some b.
Proof.
  intros K. induction p as [| c p IH]; intros t q b H; cbn [modify].
  - now apply K.
  - destruct t as [| r w es]; [exact H |].
    destruct q as [| c' q]; [exact H |].
    rewrite kind_at_cons in *. rewrite assoc_map_first.
    destruct (assoc c' es) as [m |]; [ | discriminate].
    destruct (c =? c'); cbn [option_map]; auto.
Qed.

Lemma keeps_add_dir (k : string) : keeps (add_dir k).
Proof.
  intros [| r w es] q b H; [exact H |].
  unfold add_dir. cbn [with_entries]. destruct q as [| c q]; [exact H |].
  rewrite kind_at_cons in *. rewrite assoc_app.
  destruct (assoc c es); [exact H | discriminate].
Qed.

(** Rewriting a node into itself changes nothing. *)
Lemma map_first_id (k : string) (g : node -> node) (es : entries_t) :
  (forall m, assoc k es = Some m -> g m = m) -> map_first k g es = es.
Proof.
  induction es as [| [a n] es IH]; intros H; [reflexivity |].
  cbn [map_first assoc] in *. destruct (a =? k).
  - now rewrite (H n eq_refl).
  - now rewrite IH.
Qed.

Lemma modify_id_at (p : list string) (f : node -> node) (t n : node) :
  walk t p = inr n -> f n = n -> modify p f t = t.
Proof.
  revert t. induction p as [| c p IH]; intros t W E; cbn [walk modify] in *.
  - inversion W. now subst.
  - destruct t as [| r w es]; [reflexivity |].
    f_equal. apply map_first_id. intros m A. rewrite A in W. now apply IH.
Qed.

Lemma remove_entry_absent (k : string) (es : entries_t) :
  assoc k es = None -> remove_entry k es = es.
Proof.
  unfold remove_entry.
  induction es as [| [a n] es IH]; intros H; [reflexivity |].
  cbn [assoc filter fst] in *. destruct (a =? k); [discriminate |].
  cbn [negb]. now rewrite IH.
Qed.

Lemma remove_entry_added (k : string) (n : node) (es : entries_t) :
  assoc k es = None -> remove_entry k (es ++ [(k, n)])%list = es.
Proof.
  intros H. unfold remove_entry. rewrite filter_app. cbn [filter fst].
  rewrite String.eqb_refl. cbn [negb]. rewrite app_nil_r.
  now apply remove_entry_absent.
Qed.

(** Resolution of a path in two parts. *)
Lemma canon_app (t : node) (a b cur : list string) :
  canon t cur (a ++ b)%list =
  match canon t cur a with
  | inl e => inl e
  | inr d => canon t d b
  end.
Proof.
  revert cur. induction a as [| c a IH]; intros cur; cbn [app canon];
    [reflexivity |].
  destruct (walk t cur) as [e | [| r w es]]; [reflexivity | reflexivity |].
  destruct (c =? ".."); [apply IH |].
  destruct ((c =? ".") || (c =? "")); apply IH.
Qed.

(** What a successful [mkdir] has found and done. *)
Lemma mkdir_inv (t : node) (cwd : list string) (p : PurePath) (t' : node) :
  mkdir t cwd p = inr t' ->
  exists parent k rp es,
    locate t cwd p = inr (parent ++ [k])%list
    /\ names p <> []
    /\ walk t parent = inr (Dir rp true es)
    /\ assoc k es = None
    /\ t' = modify parent (add_dir k) t.
Proof.
  unfold mkdir.
  destruct (locate t cwd p) as [e | d] eqn:C; [discriminate |].
  destruct (too_long (last (names p) "")); [discriminate |].
  destruct (walk t d) as [e | n] eqn:W; [ | discriminate].
  destruct (names p) as [| c0 ns] eqn:N; [discriminate |].
  destruct (split_last d) as [[parent k] |] eqn:S; [ | discriminate].
  apply split_last_app in S. subst d.
  destruct (walk t parent) as [e' | [| r w es]] eqn:WP; [discriminate | discriminate |].
  destruct w; [ | discriminate].
  assert (A : assoc k es = None).
  { rewrite walk_app, WP in W. cbn [walk] in W.
    destruct (assoc k es); [discriminate | reflexivity]. }
  intros H. inversion H as [Ht].
  exists parent, k, r, es.
  split; [reflexivity |]. split; [discriminate |].
  split; [exact WP |]. split; [exact A | reflexivity].
Qed.

(** [mkdir] of something that exists. *)
Lemma mkdir_exists (t : node) (cwd : list string) (p : PurePath) (n : node) :
  stat t cwd p = inr n ->
  mkdir t cwd p = inl EEXIST \/ mkdir t cwd p = inl ENAMETOOLONG.
Proof.
  unfold stat, mkdir.
  destruct (locate t cwd p) as [e | d]; [discriminate |].
  destruct (too_long (last (names p) "")); [now right |].
  intros ->. now left.
Qed.

(** What a successful [rmdir] has found. *)
Lemma rmdir_inv (t : node) (cwd : list string) (p : PurePath) (t' : node) :
  rmdir t cwd p = inr t' ->
  exists r w, stat t cwd p = inr (Dir r w []).
Proof.
  unfold rmdir, stat.
  destruct (locate t cwd p) as [e | d]; [discriminate |].
  destruct (walk t d) as [e | [| r w es]]; [discriminate | discriminate |].
  destruct (last (names p) "" =? ".."); [discriminate |].
  destruct (names p); [discriminate |].
  destruct (split_last d) as [[parent k] |]; [ | discriminate].
  destruct (walk t parent) as [e | [| rp wp esp]]; [discriminate | discriminate |].
  destruct (negb wp); [discriminate |].
  destruct es; [eauto | discriminate].
Qed.


(** [rmtree] of something that is not a directory. *)
Lemma rmtree_not_dir (t : node) (cwd : list string) (p : PurePath) :
  (forall r w es, stat t cwd p <> inr (Dir r w es)) ->
  rmtree t cwd p
  = (t, Some match stat t cwd p with inl e => e | inr _ => ENOTDIR end).
Proof.
  unfold rmtree, stat. intros H.
  destruct (locate t cwd p) as [e | d]; [reflexivity |].
  destruct (walk t d) as [e | [| r w es]] eqn:W; [reflexivity | |].
  - cbn [clear]. now rewrite (modify_id_at d (fun _ => File) t W eq_refl).
  - now destruct (H r w es).
Qed.

(** After [rmtree] the path is missing. *)
Lemma stat_without_missing (t : node) (cwd : list string) (p : PurePath) :
  can_rmtree t cwd p = true ->
  stat (without (start cwd p ++ names p)%list t) cwd p = inl ENOENT.
Proof.
  intros H.
  destruct (can_rmtree_inv _ _ _ H)
    as (L & N & Dne & r & w & es & rp & esp & W & _ & WP).
  set (d := (start cwd p ++ names p)%list) in *.
  assert (WP' : walk (without d t) (removelast d)
                = inr (with_entries (remove_entry (last d "")) (Dir rp true esp))).
  { unfold without. pose proof (walk_modify_above (removelast d) []
        (with_entries (remove_entry (last d ""))) t WP) as E.
    now rewrite app_nil_r in E. }
  unfold stat, locate.
  pose proof (app_removelast_last "" N) as Ns.
  assert (Par : removelast d = (start cwd p ++ removelast (names p))%list).
  { unfold d. now apply removelast_app. }
  rewrite Par in WP'. cbn [with_entries] in WP'.
  unfold literal in L. rewrite Ns in L |- * at 1.
  rewrite (canon_literal_parent _ _ _ _ L WP').
  rewrite <- Ns. fold d.
  pose proof (walk_without t [] Dne WP) as E. now rewrite app_nil_r in E.
Qed.

End TreeFacts.

(* ================================================================= *)
(** * More on construction *)

Import NamePred ReplaceFacts TreePred TreeFacts.

(** The two ways [mkdir(parents=False, exist_ok=True)] returns. *)
Lemma Path_mkdir_returns (p : PurePath) (w w1 : World) :
  Path_mkdir p w = (w1, Return tt) ->
  (w1 = w /\ is_dir w p = true)
  \/ (exists t', mkdir (fs w) (cwd w) p = inr t' /\ w1 = set_fs t' w).
Proof.
  unfold Path_mkdir.
  destruct (embedded_null p); [discriminate |].
  destruct (mkdir (fs w) (cwd w) p) as [e | t'].
  - destruct e; try discriminate;
      (destruct (is_dir w p) eqn:D; [ | discriminate]);
      intros H; inversion H; now left.
  - intros H. inversion H. right. eauto.
Qed.

(** [mkdir] returns only for a path string without a null character. *)
Lemma Path_mkdir_no_null (p : PurePath) (w w1 : World) :
  Path_mkdir p w = (w1, Return tt) -> embedded_null p = false.
Proof.
  unfold Path_mkdir. now destruct (embedded_null p).
Qed.

Lemma is_dir_stat (w : World) (p : PurePath) :
  is_dir w p = true <-> exists r wr es, stat (fs w) (cwd w) p = inr (Dir r wr es).
Proof.
  unfold is_dir. destruct (stat (fs w) (cwd w) p) as [e | [| r wr es]];
    cbn [is_dir_node]; split; try discriminate; eauto;
    intros (? & ? & ? & ?); discriminate.
Qed.

(** [mkdir] creates only what is missing, and keeps what exists. *)
Lemma mkdir_effect (t : node) (cwd : list string) (p : PurePath) (t' : node) :
  mkdir t cwd p = inr t' ->
  stat t cwd p = inl ENOENT
  /\ stat t' cwd p = inr empty_dir
  /\ (forall q b, kind_at t q = Some b -> kind_at t' q = Some b).
Proof.
  intros H. pose proof (mkdir_creates _ _ _ H) as S'.
  apply mkdir_inv in H as (parent & k & rp & es & C & N & WP & A & ->).
  split; [ | split; [exact S' |]].
  - unfold stat. rewrite C, FSFacts.walk_app, WP. cbn [walk]. now rewrite A.
  - intros q b. apply kind_at_modify, keeps_add_dir.
Qed.

(** X6: a name that holds a separator and resolves to a path with the
    notebook extension that is not a directory is accepted: construction
    is [type.__call__] on the resolved path string, for [ConcreteProject]
    when the resolved path is a file and for [AbstractProject] when it is
    not; an instance that is returned has the attributes [_set_names]
    derives from the resolved path string, the same for both classes. *)
Theorem X6_notebook_path (env : Env) (arg : name_arg) (w : World) :
  contains PATHSEP (py_str arg) = true ->
  let name_path := resolve_name env w (py_str arg) in
  suffix name_path = ".ipynb" ->
  is_dir w name_path = false ->
  let cls := if is_file w name_path then ConcreteProject else AbstractProject in
  ProjectChecker_call env arg w = type_call env cls (to_str name_path) w
  /\ (forall w' inst,
        ProjectChecker_call env arg w = (w', Return inst) ->
        class_of inst = cls
        /\ name inst = to_str name_path
        /\ safe_name inst
           = safe_name (_set_names env ConcreteProject (to_str name_path))
        /\ project_dir inst
           = project_dir (_set_names env AbstractProject (to_str name_path))).
Proof.
  intros Hs name_path Hx Hd cls.
  assert (E : ProjectChecker_call env arg w
              = type_call env cls (to_str name_path) w).
  { unfold ProjectChecker_call. rewrite Hs. fold name_path.
    rewrite Hx, Hd. change (negb (".ipynb" =? ".ipynb")) with false.
    cbn [orb]. unfold cls. now destruct (is_file w name_path). }
  split; [exact E |]. rewrite E. unfold type_call.
  intros w' inst H. apply Project_init_returns in H as (-> & _).
  repeat split.
Qed.

(** X6, witness: the notebook that exists, in a world where its project
    has not been made yet. *)
Lemma X6_notebook_path_witness :
  ProjectChecker_call Sample.env (NameStr "/home/u/nb.ipynb") Sample.fresh
  = type_call Sample.env ConcreteProject "/home/u/nb.ipynb" Sample.fresh.
Proof.
  apply (X6_notebook_path Sample.env (NameStr "/home/u/nb.ipynb") Sample.fresh);
    reflexivity.
Defined.

(** X7: a construction that raises leaves no trace: the world is the one
    before the call, so that no directory was made and no exit hook
    registered. *)
Theorem X7_failed_construction (env : Env) (arg : name_arg) (w w' : World)
    (e : exn) :
  ProjectChecker_call env arg w = (w', Raise e) ->
  w' = w.
Proof.
  intros H.
  destruct (ProjectChecker_call_cases env arg w) as [(c & nm & E) | (msg & E)];
    rewrite E in H.
  - now apply Project_init_raises in H as (-> & _).
  - now inversion H.
Qed.

(** X7, witness: [Project("demo")] right after the import of the module
    in a home where davos was never used: [mkdir] finds no
    [~/.davos/projects]. *)
Lemma X7_failed_construction_witness :
  exists w' e,
    ProjectChecker_call Sample.env (NameStr "demo") Sample2.imported
    = (w', Raise e)
    /\ stat (fs w') (cwd w') (project_dir Sample.demo_project) = inl ENOENT
    /\ atexit w' = []
    /\ w' = Sample2.imported.
Proof.
  exists Sample2.imported, (OSError ENOENT).
  split; [reflexivity |]. split; [reflexivity |]. split; [reflexivity |].
  apply (@X7_failed_construction Sample.env (NameStr "demo") Sample2.imported
           Sample2.imported (OSError ENOENT)).
  reflexivity.
Defined.

(** X8: a construction that returns has registered the project directory
    as the last exit hook, has printed nothing and has not moved; every
    file and directory that existed is still there, and the tree is
    unchanged when the project directory was a directory already;
    otherwise the directory was missing and is now an empty directory. *)
Theorem X8_construction_effects (env : Env) (arg : name_arg) (w w' : World)
    (inst : Project) :
  ProjectChecker_call env arg w = (w', Return inst) ->
  cwd w' = cwd w /\ stdout w' = stdout w
  /\ atexit w' = (atexit w ++ [project_dir inst])%list
  /\ (forall q b, kind_at (fs w) q = Some b -> kind_at (fs w') q = Some b)
  /\ ((is_dir w (project_dir inst) = true /\ fs w' = fs w)
      \/ (stat (fs w) (cwd w) (project_dir inst) = inl ENOENT
          /\ stat (fs w') (cwd w') (project_dir inst) = inr empty_dir)).
Proof.
  intros H.
  destruct (ProjectChecker_call_cases env arg w) as [(c & nm & E) | (msg & E)];
    rewrite E in H; [ | discriminate].
  apply Project_init_returns in H as (_ & w1 & Hm & ->).
  cbn [fs cwd stdout atexit].
  apply Path_mkdir_returns in Hm as [[-> D] | (t' & Hm & ->)].
  - repeat split; auto.
  - cbn [set_fs fs cwd stdout atexit].
    apply mkdir_effect in Hm as (S & S' & K). repeat split; auto.
Qed.

(** X8, witness: the project of a notebook that does not exist. *)
Lemma X8_construction_effects_witness :
  atexit Sample.fresh_with_new
  = (atexit Sample.fresh ++ [project_dir Sample.new_project])%list
  /\ stat (fs Sample.fresh_with_new) (cwd Sample.fresh_with_new)
       (project_dir Sample.new_project) = inr empty_dir.
Proof.
  destruct (X8_construction_effects Sample.env (NameStr "/home/u/new.ipynb")
              Sample.fresh (w' := Sample.fresh_with_new)
              (inst := Sample.new_project) eq_refl)
    as (_ & _ & A & _ & [[D _] | [_ S]]).
  - discriminate D.
  - split; [exact A | exact S].
Defined.

(** X9: running [__init__] again for the same class and name, in the
    world a first run returned, returns again: the new instance has the
    class and the attributes of the first, the tree is left as it is, and
    the project directory is registered as an exit hook once more. *)
Theorem X9_init_again (env : Env) (c : pyclass) (nm : string) (w w' : World)
    (inst : Project) :
  type_call env c nm w = (w', Return inst) ->
  exists w'' again,
    type_call env c nm w' = (w'', Return again)
    /\ class_of again = class_of inst /\ name again = name inst
    /\ safe_name again = safe_name inst
    /\ project_dir again = project_dir inst
    /\ site_packages_dir again = site_packages_dir inst
    /\ fs w'' = fs w' /\ cwd w'' = cwd w' /\ stdout w'' = stdout w'
    /\ atexit w'' = (atexit w' ++ [project_dir inst])%list.
Proof.
  intros H. unfold type_call in *.
  apply Project_init_returns in H as (-> & w1 & Hm & ->).
  pose proof (Path_mkdir_no_null _ _ Hm) as N.
  apply Path_mkdir_is_dir in Hm.
  set (pd := project_dir (_set_names env c nm)) in *.
  set (w2 := mkWorld (fs w1) (cwd w1) (stdout w1) (atexit w1 ++ [pd])%list).
  assert (D : is_dir w2 pd = true) by exact Hm.
  assert (M : Path_mkdir pd w2 = (w2, Return tt)).
  { unfold Path_mkdir. rewrite N.
    pose proof D as D'. apply is_dir_stat in D' as (r & wr & es & S).
    destruct (mkdir_exists _ _ _ S) as [-> | ->]; now rewrite D. }
  exists (mkWorld (fs w2) (cwd w2) (stdout w2) (atexit w2 ++ [pd])%list),
         (_set_names env c nm).
  unfold Project_init, bind, atexit_register, ret. fold pd. rewrite M.
  repeat split.
Qed.

(** X9, witness: [Project("demo")] a second time: the exit-hook registry
    holds the project directory twice. *)
Lemma X9_init_again_witness :
  exists w'' again,
    type_call Sample.env ConcreteProject "demo" Sample.fresh_with_demo
    = (w'', Return again)
    /\ name again = "demo"
    /\ fs w'' = fs Sample.fresh_with_demo
    /\ atexit w''
       = [project_dir Sample.demo_project; project_dir Sample.demo_project].
Proof.
  destruct (@X9_init_again Sample.env ConcreteProject "demo" Sample.fresh
              Sample.fresh_with_demo Sample.demo_project eq_refl)
    as (w'' & again & E & _ & Hn & _ & _ & _ & Hf & _ & _ & Ha).
  exists w'', again. repeat split; assumption.
Defined.

(* ================================================================= *)
(** * More on names and directories *)

(** The finalizer undoes a [mkdir] that made the directory. *)
Lemma rmdir_after_mkdir (t : node) (cwd : list string) (p : PurePath) (t' : node) :
  literal p = true ->
  mkdir t cwd p = inr t' -> rmdir t' cwd p = inr t.
Proof.
  intros L H.
  apply mkdir_inv in H as (parent & k & rp & es & C & N & WP & A & ->).
  unfold locate in C. apply canon_literal_inv in C; [ | exact L].
  set (f := add_dir k) in *.
  assert (Wd : walk (modify parent f t) (start cwd p ++ names p)%list
               = inr (Dir true true [])).
  { rewrite <- C, (FSFacts.walk_modify_below parent [k] f t WP).
    unfold f, add_dir. cbn [with_entries walk].
    now rewrite FSFacts.assoc_app, A; cbn [assoc]; rewrite String.eqb_refl. }
  assert (Wp : walk (modify parent f t)
                 (removelast (start cwd p ++ names p)%list)
               = inr (Dir rp true (es ++ [(k, empty_dir)])%list)).
  { rewrite <- C, removelast_last.
    pose proof (FSFacts.walk_modify_above parent [] f t WP) as E.
    now rewrite app_nil_r in E. }
  erewrite rmdir_ok; [ | exact L | exact N | exact Wd | exact Wp].
  f_equal. unfold without.
  rewrite <- C, removelast_last, last_last.
  pose proof (FSFacts.modify_modify parent [] f
                (with_entries (remove_entry k)) t) as E.
  rewrite app_nil_r in E. rewrite E.
  apply (modify_id_at parent _ t WP).
  unfold f, add_dir. cbn [modify with_entries].
  now rewrite remove_entry_added.
Qed.

(** X10: when [__init__] returned and had to make the project directory
    (it was missing), and the directory path has no dot components, the
    finalizer run in the world [__init__] left removes the directory
    again: the tree is the one before the construction. *)
Theorem X10_create_then_finalize (env : Env) (c : pyclass) (nm : string)
    (w w' : World) (inst : Project) :
  type_call env c nm w = (w', Return inst) ->
  is_dir w (project_dir inst) = false ->
  literal (project_dir inst) = true ->
  Project_del inst w' = (set_fs (fs w) w', Return tt).
Proof.
  intros H D L. unfold type_call in H.
  apply Project_init_returns in H as (E & w1 & Hm & ->).
  apply Path_mkdir_returns in Hm as [[-> D'] | (t' & Hm & ->)]; [congruence |].
  unfold Project_del, except_OSError_pass, Path_rmdir.
  cbn [set_fs fs cwd stdout atexit].
  now rewrite (rmdir_after_mkdir _ _ _ L Hm).
Qed.

(** X10, witness: [Project("demo")], then its finalizer. *)
Lemma X10_create_then_finalize_witness :
  Project_del Sample.demo_project Sample.fresh_with_demo
  = (set_fs (fs Sample.fresh) Sample.fresh_with_demo, Return tt).
Proof.
  apply (X10_create_then_finalize Sample.env ConcreteProject "demo" Sample.fresh);
    reflexivity.
Defined.

(** [DAVOS_PROJECT_DIR] is [projects] in [.davos] in the home directory. *)
Lemma DAVOS_PROJECT_DIR_eq (env : Env) :
  DAVOS_PROJECT_DIR env
  = mkPath (root (home env)) (names (home env) ++ [".davos"; "projects"])%list.
Proof.
  unfold DAVOS_PROJECT_DIR, DAVOS_CONFIG_DIR, joinpath.
  change (parse ".davos") with (mkPath "" [".davos"]).
  change (parse "projects") with (mkPath "" ["projects"]).
  cbn [root names]. now rewrite <- app_assoc.
Qed.

Lemma safe_name_no_sep (env : Env) (c : pyclass) (nm : string) :
  no_sep (safe_name (_set_names env c nm)) = true.
Proof. rewrite safe_name_eq. apply no_sep_strip, no_sep_flat. Qed.

Lemma project_dir_eq (env : Env) (c : pyclass) (nm : string) :
  let safe := safe_name (_set_names env c nm) in
  project_dir (_set_names env c nm)
  = mkPath (root (home env))
      (names (home env) ++ [".davos"; "projects"]
       ++ (if kept safe then [safe] else []))%list.
Proof.
  intros safe. subst safe.
  change (project_dir (_set_names env c nm))
    with (joinpath (DAVOS_PROJECT_DIR env) (safe_name (_set_names env c nm))).
  unfold joinpath.
  rewrite (parse_no_sep _ (safe_name_no_sep env c nm)), DAVOS_PROJECT_DIR_eq.
  cbn [root names]. now rewrite <- app_assoc.
Qed.

(** X11: whatever the name, [safe_name] holds no path separator, and
    [project_dir] is [DAVOS_PROJECT_DIR] with [safe_name] as one more
    component; it is [DAVOS_PROJECT_DIR] itself when [safe_name] is empty
    or a single dot. *)
Theorem X11_project_dir_shape (env : Env) (c : pyclass) (nm : string) :
  let inst := _set_names env c nm in
  contains PATHSEP (safe_name inst) = false
  /\ root (project_dir inst) = root (DAVOS_PROJECT_DIR env)
  /\ names (project_dir inst)
     = (names (DAVOS_PROJECT_DIR env)
        ++ (if kept (safe_name inst) then [safe_name inst] else []))%list.
Proof.
  intros inst. split.
  - apply no_sep_contains, safe_name_no_sep.
  - unfold inst. rewrite project_dir_eq, DAVOS_PROJECT_DIR_eq.
    cbn [root names]. split; [reflexivity |]. now rewrite <- app_assoc.
Qed.

Lemma append_neq (n s : string) : s <> "" -> n ++ s <> n.
Proof.
  intros Hs. induction n as [| c n IH]; cbn [append].
  - exact Hs.
  - intros E. inversion E. contradiction.
Qed.

(** X12: a name and the same name with the notebook extension appended
    (the name itself not holding the extension) are different names with
    the same [safe_name], the same [project_dir] and the same
    [site_packages_dir]: the two projects share one directory. *)
Theorem X12_extension_alias (env : Env) (c : pyclass) (n : string) :
  contains ".ipynb" n = false ->
  let a := _set_names env c n in
  let b := _set_names env c (n ++ ".ipynb") in
  name a <> name b
  /\ safe_name a = safe_name b
  /\ project_dir a = project_dir b
  /\ site_packages_dir a = site_packages_dir b.
Proof.
  intros H a b.
  assert (E : safe_name a = safe_name b).
  { unfold a, b. rewrite !safe_name_eq, flat_app.
    change (flat ".ipynb") with ".ipynb". rewrite (strip_flat _ H).
    unfold strip, replace.
    now apply replace_from_absent, contains_ext_flat. }
  split; [ | split; [exact E |]].
  - cbn [a b name _set_names]. intros N. symmetry in N.
    now apply append_neq in N.
  - change (project_dir a) with (joinpath (DAVOS_PROJECT_DIR env) (safe_name a)).
    change (project_dir b) with (joinpath (DAVOS_PROJECT_DIR env) (safe_name b)).
    change (site_packages_dir a)
      with (joinpath (joinpath (DAVOS_PROJECT_DIR env) (safe_name a))
              (SITE_PACKAGES_SUFFIX env)).
    change (site_packages_dir b)
      with (joinpath (joinpath (DAVOS_PROJECT_DIR env) (safe_name b))
              (SITE_PACKAGES_SUFFIX env)).
    now rewrite E.
Qed.

(** X12, witness: [demo] and [demo.ipynb]. *)
Lemma X12_extension_alias_witness :
  project_dir (_set_names Sample.env ConcreteProject "demo")
  = project_dir (_set_names Sample.env ConcreteProject ("demo" ++ ".ipynb")).
Proof.
  apply (X12_extension_alias Sample.env ConcreteProject "demo"). reflexivity.
Defined.

(** X13: the directory name of a notebook path leads back to the
    notebook: for a path [P = stem ++ ".ipynb"] with a separator, printed
    as parsed, without ["___"], ["_/"] or an inner [".ipynb"],
    [Project(safe_name)] is [type.__call__] on [P] itself, for
    [ConcreteProject] when [P] is a file and [AbstractProject] when it is
    not, so that the instance has the name and the directory of the
    project of [P]. *)
Theorem X13_directory_name_recovers_path (env : Env) (c : pyclass)
    (stem : string) (w : World) :
  let P := stem ++ ".ipynb" in
  contains PATHSEP stem = true ->
  contains PATHSEP_REPLACEMENT P = false ->
  contains "_/" P = false ->
  contains ".ipynb" stem = false ->
  to_str (parse P) = P ->
  ProjectChecker_call env (NameStr (safe_name (_set_names env c P))) w
  = type_call env
      (if is_file w (parse P) then ConcreteProject else AbstractProject) P w.
Proof.
  intros P Hs H3 H2 Hx Hn.
  apply contains_app_false in H3, H2.
  assert (E : safe_name (_set_names env c P) = flat stem).
  { unfold P. rewrite safe_name_eq, flat_app.
    change (flat ".ipynb") with ".ipynb". now apply strip_flat. }
  unfold ProjectChecker_call. cbn [py_str]. rewrite E.
  change PATHSEP with "/" in *. change PATHSEP_REPLACEMENT with "___" in *.
  rewrite (no_sep_contains _ (no_sep_flat stem)).
  rewrite (contains_token_flat _ Hs).
  change (replace (flat stem) "___" "/") with (unflat (flat stem)).
  rewrite (unflat_flat _ H3 H2). fold P. rewrite Hn.
  now destruct (is_file w (parse P)).
Qed.

(** X13, witness: the directory name of [/home/u/nb.ipynb]. *)
Lemma X13_directory_name_recovers_path_witness :
  ProjectChecker_call Sample.env (NameStr "___home___u___nb") Sample.used
  = type_call Sample.env ConcreteProject "/home/u/nb.ipynb" Sample.used.
Proof.
  apply (X13_directory_name_recovers_path Sample.env ConcreteProject "/home/u/nb"
           Sample.used); reflexivity.
Defined.

(* ================================================================= *)
(** * More on cleanup and removal *)

Import Session.

(** X14: on a project directory whose path string has no null
    character, the finalizer returns in every world: it never raises,
    prints nothing and registers nothing, and it changes the tree only
    when the project directory was an empty directory, so that a
    directory that holds installed packages, a file or a missing path are
    left alone. *)
Theorem X14_finalizer (self : Project) (w : World) :
  embedded_null (project_dir self) = false ->
  exists w',
    Project_del self w = (w', Return tt)
    /\ cwd w' = cwd w /\ stdout w' = stdout w /\ atexit w' = atexit w
    /\ (fs w' = fs w
        \/ exists r wr,
             stat (fs w) (cwd w) (project_dir self) = inr (Dir r wr [])).
Proof.
  intros _.
  unfold Project_del, except_OSError_pass, Path_rmdir.
  destruct (rmdir (fs w) (cwd w) (project_dir self)) as [e | t'] eqn:R.
  - exists w. repeat split. now left.
  - exists (set_fs t' w). repeat split. right. exact (rmdir_inv _ _ _ R).
Qed.

(** X14, witness: the used project of [/home/u/nb.ipynb], whose directory
    holds packages, and the project of [demo] that was just made. *)
Lemma X14_finalizer_witness :
  (exists w',
     Project_del Sample.nb_project Sample.used = (w', Return tt)
     /\ cwd w' = cwd Sample.used /\ stdout w' = stdout Sample.used
     /\ atexit w' = atexit Sample.used
     /\ (fs w' = fs Sample.used
         \/ exists r wr,
              stat (fs Sample.used) (cwd Sample.used)
                (project_dir Sample.nb_project) = inr (Dir r wr [])))
  /\ Project_del Sample.nb_project Sample.used = (Sample.used, Return tt)
  /\ fs (fst (Project_del Sample.demo_project Sample.fresh_with_demo))
     = fs Sample.fresh.
Proof.
  split; [ | split; reflexivity].
  apply (X14_finalizer Sample.nb_project Sample.used). reflexivity.
Defined.



(** [remove(yes=True)] where the project directory is not a directory. *)
Lemma remove_not_dir (env : Env) (self : Project) (w : World) :
  is_dir w (project_dir self) = false ->
  remove env self true w
  = (mkWorld (fs w) (cwd w)
       (stdout w
        ++ [("Removing " ++ to_str (project_dir self) ++ "...")%string])%list
       (atexit w),
     Raise (OSError match stat (fs w) (cwd w) (project_dir self) with
                    | inl e => e
                    | inr _ => ENOTDIR
                    end)).
Proof.
  intros D. rewrite remove_yes. unfold shutil_rmtree. cbn [fs cwd].
  rewrite rmtree_not_dir; [reflexivity |].
  intros r wr es S.
  assert (D' : is_dir w (project_dir self) = true) by (apply is_dir_stat; eauto).
  congruence.
Qed.

(** X16: [remove(yes=True)] on a project whose directory is missing, or
    is not a directory, announces the removal, raises the [OSError] of
    [rmtree] (the error of reaching the path, [ENOTDIR] for a file) and
    leaves the tree as it is. *)
Theorem X16_remove_without_directory (env : Env) (self : Project) (w : World) :
  is_dir w (project_dir self) = false ->
  remove env self true w
  = (mkWorld (fs w) (cwd w)
       (stdout w
        ++ [("Removing " ++ to_str (project_dir self) ++ "...")%string])%list
       (atexit w),
     Raise (OSError match stat (fs w) (cwd w) (project_dir self) with
                    | inl e => e
                    | inr _ => ENOTDIR
                    end)).
Proof. exact (remove_not_dir env self w). Qed.

(** X16, witness: the project of [demo] was never made. *)
Lemma X16_remove_without_directory_witness :
  remove Sample.env Sample.demo_project true Sample.fresh
  = (mkWorld (fs Sample.fresh) (cwd Sample.fresh)
       ["Removing /home/u/.davos/projects/demo..."] [],
     Raise (OSError ENOENT)).
Proof.
  apply (X16_remove_without_directory Sample.env Sample.demo_project Sample.fresh).
  reflexivity.
Defined.

(** X17: [remove(yes=True)] is not idempotent: where the first call
    deletes the project directory, a second call raises
    [OSError ENOENT] and leaves the tree of the first. *)
Theorem X17_remove_twice (env : Env) (self : Project) (w : World) :
  can_rmtree (fs w) (cwd w) (project_dir self) = true ->
  exists w1 w2,
    remove env self true w = (w1, Return tt)
    /\ remove env self true w1 = (w2, Raise (OSError ENOENT))
    /\ fs w2 = fs w1.
Proof.
  intros H. rewrite remove_yes.
  rewrite shutil_rmtree_ok by exact H. cbn [fs cwd].
  eexists. eexists. split; [reflexivity |].
  pose proof (stat_without_missing _ _ _ H) as S.
  rewrite remove_not_dir.
  - cbn [set_fs fs cwd]. rewrite S. split; reflexivity.
  - unfold is_dir. cbn [set_fs fs cwd]. now rewrite S.
Qed.

(** X17, witness: the used project of [/home/u/nb.ipynb], removed twice. *)
Lemma X17_remove_twice_witness :
  exists w1 w2,
    remove Sample.env Sample.nb_project true Sample.used = (w1, Return tt)
    /\ remove Sample.env Sample.nb_project true w1 = (w2, Raise (OSError ENOENT))
    /\ fs w2 = fs w1.
Proof.
  apply (X17_remove_twice Sample.env Sample.nb_project Sample.used). reflexivity.
Defined.

(** Construction where [DAVOS_PROJECT_DIR] is not a directory. *)
Lemma mkdir_needs_projects_dir (env : Env) (c : pyclass) (nm : string) (w : World) :
  is_dir w (DAVOS_PROJECT_DIR env) = false ->
  kept (safe_name (_set_names env c nm)) = true ->
  exists e,
    Path_mkdir (project_dir (_set_names env c nm)) w = (w, Raise e)
    /\ e = if embedded_null (project_dir (_set_names env c nm))
           then ValueError "embedded null byte"
           else OSError match locate (fs w) (cwd w)
                                (project_dir (_set_names env c nm)) with
                        | inl n => n
                        | inr _ => ENOENT
                        end.
Proof.
  intros D K.
  assert (L : exists e,
             locate (fs w) (cwd w) (project_dir (_set_names env c nm)) = inl e).
  { unfold locate, start in *. rewrite project_dir_eq, K. cbn [root names].
    unfold is_dir, stat, locate, start in D.
    rewrite DAVOS_PROJECT_DIR_eq in D. cbn [root names is_absolute] in D.
    unfold is_absolute. cbn [root].
    rewrite app_assoc, canon_app.
    destruct (canon (fs w) _ (names (home env) ++ [".davos"; "projects"]))
      as [e | d]; [eauto |].
    cbn [canon].
    destruct (walk (fs w) d) as [e | [| r wr es]]; [eauto | eauto | discriminate]. }
  destruct L as [e L]. rewrite L.
  unfold Path_mkdir.
  destruct (embedded_null (project_dir (_set_names env c nm))); [eauto |].
  exists (OSError e). split; [ | reflexivity].
  unfold mkdir, is_dir, stat. rewrite L. now destruct e.
Qed.

(** X18: the module makes [DAVOS_CONFIG_DIR] when it is imported, never
    [DAVOS_PROJECT_DIR]: where [DAVOS_PROJECT_DIR] is not a directory
    before the import it is not one after it, and every [__init__] whose
    [safe_name] is a component of its own then raises and changes
    nothing.  What it raises is the [ValueError] of [mkdir] when the path
    string has a null character, and otherwise the [OSError] of not
    reaching the parent directory. *)
Theorem X18_projects_dir_never_made (env : Env) (w w1 : World)
    (r : outcome unit) :
  is_dir w (DAVOS_PROJECT_DIR env) = false ->
  module_import env w = (w1, r) ->
  is_dir w1 (DAVOS_PROJECT_DIR env) = false
  /\ (forall c nm,
        kept (safe_name (_set_names env c nm)) = true ->
        exists e,
          type_call env c nm w1 = (w1, Raise e)
          /\ (embedded_null (project_dir (_set_names env c nm)) = true ->
              e = ValueError "embedded null byte")
          /\ (embedded_null (project_dir (_set_names env c nm)) = false ->
              exists n, e = OSError n)).
Proof.
  intros D M.
  assert (D1 : is_dir w1 (DAVOS_PROJECT_DIR env) = false).
  { unfold module_import in M.
    destruct r as [[] | e].
    - apply Path_mkdir_returns in M as [[-> _] | (t' & Hm & ->)]; [exact D |].
      pose proof (mkdir_creates _ _ _ Hm) as S.
      unfold is_dir, stat, locate, start in *. cbn [set_fs fs cwd].
      rewrite DAVOS_PROJECT_DIR_eq. cbn [root names].
      unfold DAVOS_CONFIG_DIR, joinpath in S.
      change (parse ".davos") with (mkPath "" [".davos"]) in S.
      cbn [root names is_absolute] in S. unfold is_absolute. cbn [root].
      change [".davos"; "projects"] with ([".davos"] ++ ["projects"])%list.
      rewrite app_assoc, canon_app.
      destruct (canon t' _ (names (home env) ++ [".davos"])) as [e | d];
        [reflexivity |].
      cbn [canon]. rewrite S.
      unfold empty_dir. change ("projects" =? "..") with false.
      change (("projects" =? ".") || ("projects" =? "")) with false.
      cbv iota. rewrite FSFacts.walk_app, S. reflexivity.
    - apply Path_mkdir_raises in M as [-> _]. exact D. }
  split; [exact D1 |].
  intros c nm K.
  destruct (mkdir_needs_projects_dir env c nm w1 D1 K) as (e & E & V).
  exists e. split.
  - unfold type_call, Project_init, bind. now rewrite E.
  - rewrite V. split; intros N; rewrite N; [reflexivity | eauto].
Qed.

(** X18, witness: a home directory without [.davos]: after the import,
    [Project("demo")] raises [FileNotFoundError]. *)
Lemma X18_projects_dir_never_made_witness :
  module_import Sample.env Sample2.bare = (Sample2.imported, Return tt)
  /\ is_dir Sample2.imported (DAVOS_PROJECT_DIR Sample.env) = false
  /\ exists e,
       type_call Sample.env ConcreteProject "demo" Sample2.imported
       = (Sample2.imported, Raise e)
       /\ exists n, e = OSError n.
Proof.
  destruct (X18_projects_dir_never_made Sample.env Sample2.bare
              (w1 := Sample2.imported) (r := Return tt) eq_refl eq_refl)
    as [D H].
  split; [reflexivity |]. split; [exact D |].
  destruct (H ConcreteProject "demo" eq_refl) as (e & E & _ & O).
  exists e. split; [exact E | exact (O eq_refl)].
Defined.

(** X19: when [get_notebook_path()] has found no session and returned
    [None], [use_default_project] raises no naming error: [str(None)] is
    a plain name, and where the [mkdir] of [projects/None] is not refused
    [config.project] becomes a [ConcreteProject] named ["None"]. *)
Theorem X19_default_project_of_None (env : Env) (config : Config) (w : World) :
  can_mkdir (fs w) (cwd w)
    (project_dir (_set_names env ConcreteProject "None")) = true ->
  exists w',
    use_default_project env None config w
    = (w', mkConfig (Some (_set_names env ConcreteProject "None")), Return tt)
    /\ is_dir w' (project_dir (_set_names env ConcreteProject "None")) = true.
Proof.
  intros H. apply Path_mkdir_ok in H as [w1 H].
  unfold use_default_project, Project_of, ProjectChecker_call.
  cbn [py_str]. change (contains PATHSEP "None") with false.
  change (contains PATHSEP_REPLACEMENT "None") with false. cbv iota.
  unfold type_call, Project_init, bind, atexit_register, ret.
  rewrite H. eexists. split; [reflexivity |].
  apply Path_mkdir_is_dir in H. exact H.
Qed.

(** X19, witness: no session in a world with an empty [projects]. *)
Lemma X19_default_project_of_None_witness :
  exists w',
    use_default_project Sample.env None (mkConfig None) Sample.fresh
    = (w', mkConfig (Some (_set_names Sample.env ConcreteProject "None")),
       Return tt)
    /\ is_dir w' (project_dir (_set_names Sample.env ConcreteProject "None"))
       = true.
Proof.
  apply (X19_default_project_of_None Sample.env (mkConfig None) Sample.fresh).
  reflexivity.
Defined.

(** A directory that [mkdir] has just made can be removed by [rmtree],
    which gives the tree before the [mkdir]. *)
Lemma rmtree_after_mkdir (t : node) (cwd : list string) (p : PurePath) (t' : node) :
  literal p = true ->
  mkdir t cwd p = inr t' -> rmtree t' cwd p = (t, None).
Proof.
  intros L H. pose proof (rmdir_after_mkdir _ _ _ L H) as R.
  pose proof (mkdir_creates _ _ _ H) as S.
  unfold rmtree. unfold stat in S.
  destruct (locate t' cwd p) as [e | d] eqn:C; [discriminate |].
  rewrite S. unfold empty_dir. cbn [clear negb].
  rewrite (modify_id_at d _ t' S eq_refl). now rewrite R.
Qed.

(** X20: [remove(yes=True)] undoes a construction that made the project
    directory: when [__init__] returned, the directory was missing before
    and its path has no dot components, [remove(yes=True)] in the world
    [__init__] left announces the removal, returns, and leaves the tree
    that was there before the construction. *)
Theorem X20_create_then_remove (env : Env) (c : pyclass) (nm : string)
    (w w' : World) (inst : Project) :
  type_call env c nm w = (w', Return inst) ->
  is_dir w (project_dir inst) = false ->
  literal (project_dir inst) = true ->
  remove env inst true w'
  = (mkWorld (fs w) (cwd w')
       (stdout w'
        ++ [("Removing " ++ to_str (project_dir inst) ++ "...")%string])%list
       (atexit w'),
     Return tt).
Proof.
  intros H D L. unfold type_call in H.
  apply Project_init_returns in H as (E & w1 & Hm & ->).
  apply Path_mkdir_returns in Hm as [[-> D'] | (t' & Hm & ->)]; [congruence |].
  rewrite remove_yes. unfold shutil_rmtree.
  cbn [set_fs fs cwd stdout atexit].
  now rewrite (rmtree_after_mkdir _ _ _ L Hm).
Qed.

(** X20, witness: [Project("demo")], then [remove(yes=True)]. *)
Lemma X20_create_then_remove_witness :
  remove Sample.env Sample.demo_project true Sample.fresh_with_demo
  = (mkWorld (fs Sample.fresh) (cwd Sample.fresh_with_demo)
       (stdout Sample.fresh_with_demo
        ++ [("Removing " ++ to_str (project_dir Sample.demo_project) ++ "...")%string])%list
       (atexit Sample.fresh_with_demo),
     Return tt).
Proof.
  apply (X20_create_then_remove Sample.env ConcreteProject "demo" Sample.fresh);
    reflexivity.
Defined.

(* ================================================================= *)
(** * The kernel identity *)

Import Notebook.

Example split_ex1 : split "a::b::c" "::" = ["a"; "b"; "c"].
Proof. reflexivity. Qed.

Example split_ex2 : split "a:::b" "::" = ["a"; ":b"].
Proof. reflexivity. Qed.

Example split_ex3 : split "abc" "::" = ["abc"].
Proof. reflexivity. Qed.

Example kernel_id_ex :
  kernel_id "/run/user/1000/jupyter/kernel-3f2a-77.json" = "3f2a-77".
Proof. reflexivity. Qed.

(** A string of identity characters holds no separator to split at. *)
Lemma split_from_id_chars (f : ascii -> bool) (sep : string) (c0 : ascii)
    (sep' : string) (t : string) :
  sep = String c0 sep' ->
  f c0 = false ->
  all_chars f t = true ->
  split_from sep 0 t = [t].
Proof.
  intros -> Hc. induction t as [| c t IH]; intros H; [reflexivity |].
  cbn [all_chars] in H. apply andb_true_iff in H as [Hi Ht].
  cbn [split_from]. rewrite prefix_cons.
  destruct (Ascii.eqb_spec c0 c) as [-> | _]; [congruence |].
  cbn [andb]. now rewrite (IH Ht).
Qed.

(** Splitting at the extension: what comes before the first extension. *)
Lemma split_json_head (id rest : string) :
  all_chars id_char id = true ->
  hd "" (split_from ".json" 0 (id ++ ".json" ++ rest)) = id.
Proof.
  induction id as [| c id IH]; intros H.
  - cbn [append]. cbn [split_from]. rewrite !prefix_cons, prefix_nil. reflexivity.
  - cbn [all_chars] in H. apply andb_true_iff in H as [Hc H].
    unfold id_char in Hc. apply andb_true_iff in Hc as [_ Hdot].
    apply negb_true_iff in Hdot.
    change (String c id ++ ".json" ++ rest)
      with (String c (id ++ ".json" ++ rest)).
    cbn [split_from]. rewrite prefix_cons, Ascii.eqb_sym, Hdot.
    cbn [andb]. specialize (IH H).
    destruct (split_from ".json" 0 (id ++ ".json" ++ rest)) as [| p ps];
      cbn [hd] in *; now subst.
Qed.

(** A match of ["/kernel-"] does not reach into a later ["/kernel-"]. *)
Lemma kernel_match_inside (c : ascii) (s t : string) :
  prefix "/kernel-" (String c (s ++ "/kernel-" ++ t)) = true ->
  7 <= String.length s.
Proof.
  intros H.
  do 7 (destruct s as [| ? s];
        [cbn [append] in H; rewrite !prefix_cons in H;
         cbn in H; rewrite ?andb_false_r in H; discriminate |]).
  cbn [String.length]. lia.
Qed.

(** Splitting at ["/kernel-"]: the last piece is what follows the last
    separator. *)
Lemma split_kernel_last (t : string) :
  no_sep t = true ->
  forall s skip,
    skip <= String.length s ->
    exists ps,
      split_from "/kernel-" skip (s ++ "/kernel-" ++ t) = (ps ++ [t])%list
      /\ ps <> [].
Proof.
  intros Ht. induction s as [| c s IH]; intros skip Hk.
  - cbn [String.length] in Hk. assert (skip = 0) by lia. subst skip.
    exists [""]. split; [ | discriminate].
    cbn [append]. cbn [split_from]. rewrite !prefix_cons, prefix_nil.
    cbn [Ascii.eqb andb String.length pred app].
    change (split_from "/kernel-" 7 ("kernel-" ++ t))
      with (split_from "/kernel-" 0 t).
    now rewrite (split_from_id_chars not_sep (c0 := "/"%char)
                   (sep' := "kernel-") t eq_refl eq_refl Ht).
  - cbn [String.length] in Hk.
    change (String c s ++ "/kernel-" ++ t)
      with (String c (s ++ "/kernel-" ++ t)).
    cbn [split_from]. change (pred (String.length "/kernel-")) with 7.
    destruct skip as [| k]; [ | apply IH; lia].
    destruct (prefix "/kernel-" (String c (s ++ "/kernel-" ++ t))) eqn:E.
    + apply kernel_match_inside in E.
      destruct (IH 7 E) as (ps & -> & Hps).
      exists ("" :: ps). split; [reflexivity | discriminate].
    + destruct (IH 0 (Nat.le_0_l _)) as (ps & -> & Hps).
      destruct ps as [| p ps]; [congruence |].
      exists (String c p :: ps). split; [reflexivity | discriminate].
Qed.

(** X21: for a connection file [dir/kernel-<id>.json] whose [id] holds
    neither a separator nor a dot, whatever the directory (also one with
    ["/kernel-"] or [".json"] in it), the kernel identity that
    [get_notebook_path] compares the sessions with is [id]. *)
Theorem X21_kernel_id (dir id : string) :
  all_chars id_char id = true ->
  kernel_id (dir ++ "/kernel-" ++ id ++ ".json") = id.
Proof.
  intros H. unfold kernel_id, split.
  assert (Ht : no_sep (id ++ ".json") = true).
  { unfold no_sep. rewrite all_chars_app. apply andb_true_iff. split;
      [ | reflexivity].
    clear -H. induction id as [| c id IH]; [reflexivity |].
    cbn [all_chars] in *. apply andb_true_iff in H as [Hc H].
    unfold id_char in Hc. apply andb_true_iff in Hc as [Hc _].
    rewrite (IH H). unfold not_sep. now rewrite Hc. }
  destruct (split_kernel_last (id ++ ".json") Ht dir (skip := 0)
              (Nat.le_0_l _)) as (ps & E & _).
  change ("/kernel-" ++ id ++ ".json") with ("/kernel-" ++ (id ++ ".json")).
  rewrite E.
  rewrite last_last.
  change (id ++ ".json") with (id ++ ".json" ++ "").
  now apply split_json_head.
Qed.

(** X21, witness: a connection file in a directory named like one. *)
Lemma X21_kernel_id_witness :
  kernel_id ("/tmp/kernel-old.json/run" ++ "/kernel-" ++ "3f2a-77" ++ ".json")
  = "3f2a-77".
Proof.
  apply (X21_kernel_id "/tmp/kernel-old.json/run" "3f2a-77"). reflexivity.
Defined.
